(** * Candidate generation pipeline of NLSpEL

    A shallow embedding of [candidate_generation/create_entities_candidates.py]
    (the five pipeline stages: entity table, candidate miner, link-graph
    counter, redirect resolver and exporter; the document splitter; [main])
    and of [spel/multinerd.py] (the reader of the exported files and the
    corpus loader), followed by their properties.

    Conventions of the embedding.
    - A Python [str] is a [string]; a character is a code point below 256,
      so [lower] and [strip] follow Python on the Latin-1 block.
    - A Python [set] is a [gset]; the order in which Python iterates over a
      set is not determined by its contents, so every loop over a set takes
      the enumeration as a parameter ([links_iter], [refs_iter]).
    - A Python [dict] whose iteration order is observed (the candidate map)
      is an insertion-ordered association list ([odict]); the entity table,
      which is only looked up, is a [gmap].
    - Exceptions are values of [exn]; code that can raise lives in the
      [result] monad.
    - An object that is shared and changed in place (a candidate dictionary,
      a candidate record of the loader) is kept in one store, and what
      refers to it holds its key or its position. *)

From Stdlib Require Import Ascii String NArith ZArith List Permutation Sorted.
From Stdlib Require Import DecimalString DecimalNat.
From stdpp Require Import base option list gmap sets strings.

Local Open Scope string_scope.

(** ** Exceptions *)

Inductive exn : Type :=
  | IndexError
  | KeyError
  | ValueError
  | AttributeError
  | AssertionError.

Inductive result (A : Type) : Type :=
  | Ok (a : A)
  | Raise (e : exn).
Arguments Ok {A} a.
Arguments Raise {A} e.

Definition rbind {A B} (m : result A) (k : A -> result B) : result B :=
  match m with
  | Ok a => k a
  | Raise e => Raise e
  end.

Notation "x <-- m ;; k" := (rbind m (fun x => k))
  (at level 100, m at next level, right associativity).

(** [try: body except IndexError: handler] *)
Definition try_except_IndexError {A} (body : result A) (handler : result A)
  : result A :=
  match body with
  | Raise IndexError => handler
  | r => r
  end.

(** [l[i]] on a Python list. *)
Definition index {A} (l : list A) (i : nat) : result A :=
  match l !! i with
  | Some x => Ok x
  | None => Raise IndexError
  end.

(** A loop [for x in l: st = step(st, x)] whose body can raise. *)
Fixpoint for_each {A S} (step : S -> A -> result S) (l : list A) (st : S)
  : result S :=
  match l with
  | [] => Ok st
  | x :: l' => st' <-- step st x ;; for_each step l' st'
  end.

(** ** Python string operations *)

Module PyStr.

Definition code (c : ascii) : N := N_of_ascii c.

(** [str.isspace] on one character. *)
Definition isspace (c : ascii) : bool :=
  let n := code c in
  ((9 <=? n) && (n <=? 13) || (28 <=? n) && (n <=? 32)
   || (n =? 133) || (n =? 160))%N.

Definition lower_char (c : ascii) : ascii :=
  let n := code c in
  if ((65 <=? n) && (n <=? 90)
      || (192 <=? n) && (n <=? 222) && negb (n =? 215))%N
  then ascii_of_N (n + 32) else c.

(** [s.lower()] *)
Fixpoint lower (s : string) : string :=
  match s with
  | EmptyString => EmptyString
  | String c s' => String (lower_char c) (lower s')
  end.

Fixpoint lstrip_by (p : ascii -> bool) (s : string) : string :=
  match s with
  | EmptyString => EmptyString
  | String c s' => if p c then lstrip_by p s' else s
  end.

Fixpoint rstrip_by (p : ascii -> bool) (s : string) : string :=
  match s with
  | EmptyString => EmptyString
  | String c s' =>
      match rstrip_by p s' with
      | EmptyString => if p c then EmptyString else String c EmptyString
      | r => String c r
      end
  end.

(** [s.strip()] *)
Definition strip (s : string) : string :=
  rstrip_by isspace (lstrip_by isspace s).

Fixpoint mem_char (c : ascii) (chars : string) : bool :=
  match chars with
  | EmptyString => false
  | String d chars' => if Ascii.eqb c d then true else mem_char c chars'
  end.

(** [s.strip(chars)] and [s.rstrip(chars)] *)
Definition strip_chars (chars s : string) : string :=
  rstrip_by (fun c => mem_char c chars) (lstrip_by (fun c => mem_char c chars) s).

Definition rstrip_chars (chars s : string) : string :=
  rstrip_by (fun c => mem_char c chars) s.

(** [s.replace(a, '')] and [s.replace(a, b)] for one-character [a], [b]. *)
Fixpoint remove_char (a : ascii) (s : string) : string :=
  match s with
  | EmptyString => EmptyString
  | String c s' =>
      if Ascii.eqb c a then remove_char a s' else String c (remove_char a s')
  end.

Fixpoint replace_char (a b : ascii) (s : string) : string :=
  match s with
  | EmptyString => EmptyString
  | String c s' =>
      String (if Ascii.eqb c a then b else c) (replace_char a b s')
  end.

(** [s.split(sep)] for a one-character separator: never the empty list. *)
Fixpoint split_char (sep : ascii) (s : string) : list string :=
  match s with
  | EmptyString => [EmptyString]
  | String c s' =>
      if Ascii.eqb c sep then EmptyString :: split_char sep s'
      else match split_char sep s' with
           | h :: t => String c h :: t
           | [] => [String c EmptyString]
           end
  end.

(** [s.split(sep)] for a separator of any positive length: [skip] counts
    the characters of a separator that was just recognised. *)
Fixpoint split_str_aux (sep : string) (skip : nat) (s : string) : list string :=
  match s with
  | EmptyString => [EmptyString]
  | String c s' =>
      match skip with
      | S k => split_str_aux sep k s'
      | O =>
          if String.prefix sep s
          then EmptyString :: split_str_aux sep (String.length sep - 1) s'
          else match split_str_aux sep O s' with
               | h :: t => String c h :: t
               | [] => [String c EmptyString]
               end
      end
  end.

Definition split_str (sep s : string) : list string := split_str_aux sep O s.

(** [key, _, value = s.partition(sep)] for a one-character separator. *)
Fixpoint partition_char (sep : ascii) (s : string) : string * string :=
  match s with
  | EmptyString => (EmptyString, EmptyString)
  | String c s' =>
      if Ascii.eqb c sep then (EmptyString, s')
      else let '(k, v) := partition_char sep s' in (String c k, v)
  end.

(** [a in s] for a one-character [a]. *)
Definition contains_char (a : ascii) (s : string) : bool := mem_char a s.

(** Truth value of a string: [if s:]. *)
Definition truthy (s : string) : bool :=
  match s with
  | EmptyString => false
  | _ => true
  end.

(** [str(n)] for a non-negative integer. *)
Definition str_of_nat (n : nat) : string :=
  NilZero.string_of_uint (Nat.to_uint n).

Definition is_digit (c : ascii) : bool :=
  let n := code c in ((48 <=? n) && (n <=? 57))%N.

(** The digits of a decimal literal: single underscores may stand between
    digits, as in [1_000]; [after_digit] tells whether the character before
    was a digit, and a literal ends on a digit. *)
Fixpoint digits_value (after_digit : bool) (acc : N) (s : string) : option N :=
  match s with
  | EmptyString => if after_digit then Some acc else None
  | String c s' =>
      if is_digit c then digits_value true (acc * 10 + (code c - 48)) s'
      else if Ascii.eqb c "_" && after_digit then digits_value false acc s'
      else None
  end.

(** [int(s)] on a decimal literal: surrounding white space, an optional
    sign, and at least one digit, with single underscores allowed between
    digits.  Below code point 256 the ASCII digits are the only decimal
    digits. *)
Definition int (s : string) : result Z :=
  let body (t : string) : option N := digits_value false 0 t in
  match strip s with
  | String "-" t =>
      match body t with Some n => Ok (- Z.of_N n)%Z | None => Raise ValueError end
  | String "+" t =>
      match body t with Some n => Ok (Z.of_N n) | None => Raise ValueError end
  | t =>
      match body t with Some n => Ok (Z.of_N n) | None => Raise ValueError end
  end.

End PyStr.

Import PyStr.

(** ** The regular expressions of the pipeline

    Each pattern is matched the way [re] does: the leftmost position at
    which the pattern matches wins, and the scan resumes after the match. *)

Module Re.

Definition newline : ascii := ascii_of_N 10.

Fixpoint drop_str (n : nat) (s : string) : string :=
  match n, s with
  | S k, String _ s' => drop_str k s'
  | _, _ => s
  end.

(** The longest run of characters other than a closing bracket, and what
    follows it (the character class of the link pattern, starred). *)
Fixpoint span_not_rbracket (s : string) : string * string :=
  match s with
  | EmptyString => (EmptyString, EmptyString)
  | String c s' =>
      if Ascii.eqb c "]" then (EmptyString, s)
      else let '(g, r) := span_not_rbracket s' in (String c g, r)
  end.

(** The link pattern (two opening brackets, a group of characters other
    than a closing bracket, two closing brackets) anchored at the start of
    [s]: the group. *)
Definition link_at (s : string) : option string :=
  match s with
  | String "[" (String "[" s1) =>
      match span_not_rbracket s1 with
      | (g, String "]" (String "]" _)) => Some g
      | _ => None
      end
  | _ => None
  end.

(** [re.search] with the link pattern: group 1 of the first match. *)
Fixpoint search_link (s : string) : option string :=
  match s with
  | EmptyString => None
  | String _ s' =>
      match link_at s with
      | Some g => Some g
      | None => search_link s'
      end
  end.

(** [re.findall] with the link pattern: a match of group [g] spans
    [length g + 4] characters, of which the first is consumed here. *)
Fixpoint findall_links_aux (skip : nat) (s : string) : list string :=
  match s with
  | EmptyString => []
  | String _ s' =>
      match skip with
      | S k => findall_links_aux k s'
      | O =>
          match link_at s with
          | Some g => g :: findall_links_aux (String.length g + 3) s'
          | None => findall_links_aux O s'
          end
      end
  end.

Definition findall_links (s : string) : list string := findall_links_aux O s.

(** A lazy dot-star group followed by [close], anchored at the start of
    [s]: the shortest run of characters other than a newline that is
    followed by [close]. *)
Fixpoint lazy_until (close : string) (s : string) : option string :=
  if String.prefix close s then Some EmptyString
  else match s with
       | EmptyString => None
       | String c s' =>
           if Ascii.eqb c newline then None
           else match lazy_until close s' with
                | Some g => Some (String c g)
                | None => None
                end
       end.

Definition between_at (open close s : string) : option string :=
  if String.prefix open s
  then lazy_until close (drop_str (String.length open) s)
  else None.

(** [re.search] for [open], a lazy dot-star group and [close]: group 1 of
    the first match. *)
Fixpoint search_between (open close s : string) : option string :=
  match between_at open close s with
  | Some g => Some g
  | None =>
      match s with
      | EmptyString => None
      | String _ s' => search_between open close s'
      end
  end.

Definition search_title : string -> option string :=
  search_between "<title>" "</title>".

Definition search_id : string -> option string :=
  search_between "<id>" "</id>".

(** The page tag (the text <page, a lazy dot-star, the character >)
    anchored at the start of [s]: the length of the match. *)
Definition page_tag_at (s : string) : option nat :=
  match between_at "<page" ">" s with
  | Some g => Some (String.length g + 6)
  | None => None
  end.

(** [re.split] on the page tag. *)
Fixpoint split_pages_aux (skip : nat) (s : string) : list string :=
  match s with
  | EmptyString => [EmptyString]
  | String c s' =>
      match skip with
      | S k => split_pages_aux k s'
      | O =>
          match page_tag_at s with
          | Some n => EmptyString :: split_pages_aux (n - 1) s'
          | None =>
              match split_pages_aux O s' with
              | h :: t => String c h :: t
              | [] => [String c EmptyString]
              end
          end
      end
  end.

Definition split_pages (s : string) : list string := split_pages_aux O s.

(** [re.search] for one of the namespace prefixes Categorie:, Gebruiker:
    or Bestand: at the start of [link], as a truth value. *)
Definition is_namespace_link (link : string) : bool :=
  String.prefix "Categorie:" link
  || String.prefix "Gebruiker:" link
  || String.prefix "Bestand:" link.

End Re.

(** ** Insertion-ordered dictionaries *)

Module ODict.

Section odict.
Context {V : Type}.

Definition odict := list (string * V).

Definition keys (d : odict) : list string := map fst d.

(** [d.get(k)] *)
Fixpoint get (k : string) (d : odict) : option V :=
  match d with
  | [] => None
  | (k', v) :: d' => if decide (k = k') then Some v else get k d'
  end.

(** [k in d] *)
Definition mem (k : string) (d : odict) : bool :=
  match get k d with
  | Some _ => true
  | None => false
  end.

(** [d[k] = v]: in place for a known key, at the end for a new one. *)
Fixpoint set (k : string) (v : V) (d : odict) : odict :=
  match d with
  | [] => [(k, v)]
  | (k', v') :: d' =>
      if decide (k = k') then (k', v) :: d' else (k', v') :: set k v d'
  end.

(** In-place change of the value under a known key ([d[k][field] = ...]);
    nothing happens for an unknown key, which callers exclude first. *)
Fixpoint alter (f : V -> V) (k : string) (d : odict) : odict :=
  match d with
  | [] => []
  | (k', v) :: d' =>
      if decide (k = k') then (k', f v) :: d' else (k', v) :: alter f k d'
  end.

(** [del d[k]], for a key that the caller has just looked up. *)
Fixpoint del (k : string) (d : odict) : odict :=
  match d with
  | [] => []
  | (k', v) :: d' =>
      if decide (k = k') then d' else (k', v) :: del k d'
  end.

End odict.
Arguments odict V : clear implicits.

End ODict.

Abbreviation odict := ODict.odict.

Import Re.

(** ** Records of the pipeline *)

(** The candidate dictionaries of [add_candidate].  A member of [links]
    is a [str] ([Some]) or [None]; ['popularity'] is absent until export. *)
Module Cand.

Record t : Type := mk {
  id : option string;
  inCount : nat;
  outCount : nat;
  links : gset (option string);
  url : string;
  name : string;
  normalName : string;
  normalWikiTitle : string;
  references : gset string;
  popularity : option nat
}.

Definition set_id (v : option string) (c : t) : t :=
  mk v (inCount c) (outCount c) (links c) (url c) (name c) (normalName c)
     (normalWikiTitle c) (references c) (popularity c).

Definition set_inCount (v : nat) (c : t) : t :=
  mk (id c) v (outCount c) (links c) (url c) (name c) (normalName c)
     (normalWikiTitle c) (references c) (popularity c).

Definition set_outCount (v : nat) (c : t) : t :=
  mk (id c) (inCount c) v (links c) (url c) (name c) (normalName c)
     (normalWikiTitle c) (references c) (popularity c).

Definition set_links (v : gset (option string)) (c : t) : t :=
  mk (id c) (inCount c) (outCount c) v (url c) (name c) (normalName c)
     (normalWikiTitle c) (references c) (popularity c).

Definition set_references (v : gset string) (c : t) : t :=
  mk (id c) (inCount c) (outCount c) (links c) (url c) (name c)
     (normalName c) (normalWikiTitle c) v (popularity c).

Definition set_popularity (v : option nat) (c : t) : t :=
  mk (id c) (inCount c) (outCount c) (links c) (url c) (name c)
     (normalName c) (normalWikiTitle c) (references c) v.

End Cand.

(** The entity dictionaries of [extract_entities].  ['candidates'] holds
    references to the candidate dictionaries, which stay shared with the
    candidate map: a reference is the key of the candidate in that map. *)
Module Ent.

Record t : Type := mk {
  name : string;
  link : string;
  wname : string;
  fid : string;
  wid : string;
  candidates : list string
}.

Definition append_candidate (k : string) (e : t) : t :=
  mk (name e) (link e) (wname e) (fid e) (wid e) (candidates e ++ [k])%list.

End Ent.

(** ** Entity Table Builder: [extract_entities] *)

(** [row[2].replace(' ', '').split('(')[0].lower()] *)
Definition entity_dictname (field : string) : result string :=
  head_part <-- index (split_char "(" (remove_char " " field)) 0 ;;
  Ok (lower head_part).

(** [len(row) > 4 and row[1].split('-')[0] == "B"] *)
Definition is_gold_mention (row : list string) : result bool :=
  if (4 <? length row)%nat then
    tag <-- index row 1 ;;
    prefix <-- index (split_char "-" tag) 0 ;;
    Ok (bool_decide (prefix = "B"))
  else Ok false.

Definition extract_entities_row (entities : gmap string Ent.t)
    (row : list string) : result (gmap string Ent.t) :=
  gold <-- is_gold_mention row ;;
  if gold then
    field <-- index row 2 ;;
    key <-- entity_dictname field ;;
    if decide (key ∈ dom entities) then Ok entities
    else
      entity_name <-- index row 2 ;;
      entity_link <-- index row 4 ;;
      entity_fid <-- index row 6 ;;
      entity_wname <-- index row 3 ;;
      entity_wid <-- index row 5 ;;
      Ok (<[key := Ent.mk entity_name entity_link entity_wname entity_fid
                          entity_wid []]> entities)
  else Ok entities.

Definition extract_entities (rows : list (list string))
  : result (gmap string Ent.t) :=
  for_each extract_entities_row rows ∅.

(** ** Candidate Miner: [extract_candidates] *)

Definition new_candidate (entity_key candidate : string) : Cand.t :=
  Cand.mk None 0 0 ∅
    ("https://nl.wikipedia.org/wiki/" +:+ replace_char " " "_" candidate)
    (replace_char " " "_" candidate)
    (lower candidate)
    (replace_char " " "_" (lower candidate))
    {[entity_key]}
    None.

Definition add_candidate (entity_key candidate : string)
    (all_candidates : odict Cand.t) : odict Cand.t :=
  if ODict.mem candidate all_candidates
  then ODict.alter
         (fun c => Cand.set_references ({[entity_key]} ∪ Cand.references c) c)
         candidate all_candidates
  else ODict.set candidate (new_candidate entity_key candidate) all_candidates.

(** [alias.lower().replace(' ', '')] *)
Definition alias_key (alias : string) : string := remove_char " " (lower alias).

(** The [for alias in [name, alias_1, alias_2]] loop with its [break]. *)
Fixpoint try_aliases (entity_names : gset string) (line : string)
    (aliases : list (option string)) (all_candidates : odict Cand.t)
  : result (odict Cand.t) :=
  match aliases with
  | [] => Ok all_candidates
  | None :: rest => try_aliases entity_names line rest all_candidates
  | Some alias :: rest =>
      if truthy alias && bool_decide (alias_key alias ∈ entity_names) then
        match search_link line with
        | None => Raise AttributeError
        | Some group =>
            candidate <-- index (split_char "|" group) 0 ;;
            Ok (add_candidate (alias_key alias) (strip candidate) all_candidates)
        end
      else try_aliases entity_names line rest all_candidates
  end.

(** The body of the [try] for one stripped line. *)
Definition mine_line_try (entity_names : gset string) (line : string)
    (all_candidates : odict Cand.t) : result (odict Cand.t) :=
  match search_link line with
  | None => Ok all_candidates
  | Some group =>
      name <-- index (split_char "|" group) 0 ;;
      alias_1 <-- (if contains_char "|" group then
                     after <-- index (split_char "|" group) 1 ;;
                     before_paren <-- index (split_char "(" after) 0 ;;
                     Ok (Some (strip before_paren))
                   else Ok None) ;;
      target <-- index (split_char "|" group) 0 ;;
      alias_2 <-- index (split_char "(" target) 0 ;;
      try_aliases entity_names line
        [Some (strip name); alias_1; Some (strip alias_2)] all_candidates
  end.

(** The [except IndexError] handler, with its own inner [try]. *)
Definition mine_line_except (entity_names : gset string) (line : string)
    (all_candidates : odict Cand.t) : result (odict Cand.t) :=
  try_except_IndexError
    (after <-- index (split_str "[[" line) 1 ;;
     inner <-- index (split_str "]]" after) 0 ;;
     let name := strip inner in
     if bool_decide (alias_key name ∈ entity_names)
     then Ok (add_candidate (alias_key name) name all_candidates)
     else Ok all_candidates)
    (Ok all_candidates).

Definition mine_line (entity_names : gset string)
    (all_candidates : odict Cand.t) (raw_line : string)
  : result (odict Cand.t) :=
  let line := strip raw_line in
  try_except_IndexError
    (mine_line_try entity_names line all_candidates)
    (mine_line_except entity_names line all_candidates).

(** [{key.lower().replace(' ', '') for key in entities.keys()}] *)
Definition entity_names_of (entities : gmap string Ent.t) : gset string :=
  set_map alias_key (dom entities).

Definition extract_candidates (lines : list string)
    (entities : gmap string Ent.t) : result (odict Cand.t) :=
  for_each (mine_line (entity_names_of entities)) lines [].

(** ** Link-Graph Counter: [extract_candidates_counts] *)

(** The links of a page that are kept: every bracketed link that is not in
    one of the three excluded namespaces. *)
Definition page_links (page : string) : list string :=
  List.filter (fun link => negb (is_namespace_link link)) (findall_links page).

(** [link.split('|')[0]] *)
Definition link_target (link : string) : result string :=
  index (split_char "|" link) 0.

Definition incr_inCount (c : Cand.t) : Cand.t :=
  Cand.set_inCount (Cand.inCount c + 1) c.

Definition incr_outCount (c : Cand.t) : Cand.t :=
  Cand.set_outCount (Cand.outCount c + 1) c.

Definition add_link (target : option string) (c : Cand.t) : Cand.t :=
  Cand.set_links ({[target]} ∪ Cand.links c) c.

(** The body of [for link in links] on the page of candidate [title]. *)
Definition count_link (title : string) (all_candidates : odict Cand.t)
    (link : string) : result (odict Cand.t) :=
  target <-- link_target link ;;
  if ODict.mem target all_candidates then
    Ok (ODict.alter (add_link (Some target)) title
          (ODict.alter incr_outCount title
             (ODict.alter incr_inCount target all_candidates)))
  else Ok all_candidates.

(** The body of [for page in pages]. *)
Definition count_page (all_candidates : odict Cand.t) (page : string)
  : result (odict Cand.t) :=
  let title := search_title page in
  let id := search_id page in
  let links := page_links page in
  match title with
  | Some title =>
      if truthy title && ODict.mem title all_candidates then
        let with_id :=
          match id with
          | Some id =>
              if truthy id
              then ODict.alter (Cand.set_id (Some id)) title all_candidates
              else all_candidates
          | None => all_candidates
          end in
        for_each (count_link title) links with_id
      else Ok all_candidates
  | None => Ok all_candidates
  end.

(** [[page for page in re.split(...) if page.strip() != '']] *)
Definition shard_pages (content : string) : list string :=
  List.filter (fun page => truthy (strip page)) (split_pages content).

(** The directory is the list of the contents of its files, in the order
    of [os.listdir]. *)
Definition extract_candidates_counts (shards : list string)
    (all_candidates : odict Cand.t) : result (odict Cand.t) :=
  for_each (fun d content => for_each count_page (shard_pages content) d)
    shards all_candidates.

(** ** Stages that iterate over sets *)

Section set_iteration.

(** [list(s)] and [for x in s] on the two kinds of Python sets of the
    pipeline: a ['links'] set and a ['references'] set. *)
Variable links_iter : gset (option string) -> list (option string).
Variable refs_iter : gset string -> list string.

(** *** Redirect Resolver: [replace_links] *)

(** Truth value of an ['id']: [None] and the empty string are false. *)
Definition truthy_id (id : option string) : bool :=
  match id with
  | Some s => truthy s
  | None => false
  end.

(** [all_candidates[candidate]['links'].remove(link)] *)
Definition links_remove (candidate : string) (link : option string)
    (all_candidates : odict Cand.t) : result (odict Cand.t) :=
  match ODict.get candidate all_candidates with
  | None => Raise KeyError
  | Some c =>
      if decide (link ∈ Cand.links c)
      then Ok (ODict.alter (Cand.set_links (Cand.links c ∖ {[link]}))
                 candidate all_candidates)
      else Raise KeyError
  end.

(** The body of [for link in list(all_candidates[candidate]['links'])]. *)
Definition replace_link (candidate : string) (all_candidates : odict Cand.t)
    (link : option string) : result (odict Cand.t) :=
  match link ≫= (fun l => ODict.get l all_candidates) with
  | Some linked =>
      let link_id := Cand.id linked in
      removed <-- links_remove candidate link all_candidates ;;
      Ok (ODict.alter (add_link link_id) candidate removed)
  | None => links_remove candidate link all_candidates
  end.

(** The body of [for candidate in list(all_candidates.keys())]. *)
Definition replace_links_candidate (all_candidates : odict Cand.t)
    (candidate : string) : result (odict Cand.t) :=
  match ODict.get candidate all_candidates with
  | None => Raise KeyError
  | Some c =>
      if negb (truthy_id (Cand.id c))
      then Ok (ODict.del candidate all_candidates)
      else for_each (replace_link candidate) (links_iter (Cand.links c))
             all_candidates
  end.

Definition replace_links (all_candidates : odict Cand.t)
  : result (odict Cand.t) :=
  for_each replace_links_candidate (ODict.keys all_candidates) all_candidates.

(** *** [add_candidates_to_entities] *)

Definition attach_ref (candidate : string) (entities : gmap string Ent.t)
    (ref : string) : gmap string Ent.t :=
  if decide (ref ∈ dom entities)
  then alter (Ent.append_candidate candidate) ref entities
  else entities.

Definition add_candidates_to_entities (entities : gmap string Ent.t)
    (all_candidates : odict Cand.t) : gmap string Ent.t :=
  fold_left
    (fun ents kc =>
       fold_left (attach_ref (fst kc)) (refs_iter (Cand.references (snd kc))) ents)
    all_candidates entities.

(** *** Exporter: [export_data] *)

Definition tab : string := String (ascii_of_N 9) EmptyString.
Definition dquote : ascii := ascii_of_N 34.
Definition squote : ascii := ascii_of_N 39.
Definition backslash : ascii := ascii_of_N 92.

Definition hex_digit (n : N) : ascii :=
  if (n <? 10)%N then ascii_of_N (48 + n) else ascii_of_N (87 + n).

(** Code points that [repr] writes as they are. *)
Definition printable (c : ascii) : bool :=
  let n := code c in
  ((32 <=? n) && (n <? 127) || (161 <=? n) && negb (n =? 173))%N.

Definition repr_char (quote c : ascii) : string :=
  if Ascii.eqb c quote || Ascii.eqb c backslash
  then String backslash (String c EmptyString)
  else if (code c =? 9)%N then String backslash "t"
  else if (code c =? 10)%N then String backslash "n"
  else if (code c =? 13)%N then String backslash "r"
  else if printable c then String c EmptyString
  else String backslash
         (String "x" (String (hex_digit (code c / 16))
                        (String (hex_digit (code c mod 16)) EmptyString))).

Fixpoint repr_chars (quote : ascii) (s : string) : string :=
  match s with
  | EmptyString => EmptyString
  | String c s' => repr_char quote c +:+ repr_chars quote s'
  end.

(** [repr(s)] of a [str]. *)
Definition repr_str (s : string) : string :=
  let quote :=
    if contains_char squote s && negb (contains_char dquote s)
    then dquote else squote in
  String quote (repr_chars quote s +:+ String quote EmptyString).

(** [repr] and [str] of a [str]-or-[None] value. *)
Definition repr_value (v : option string) : string :=
  match v with
  | Some s => repr_str s
  | None => "None"
  end.

Definition str_value (v : option string) : string :=
  match v with
  | Some s => s
  | None => "None"
  end.

Fixpoint join (sep : string) (l : list string) : string :=
  match l with
  | [] => EmptyString
  | [x] => x
  | x :: l' => x +:+ sep +:+ join sep l'
  end.

(** [str(s)] of a set: the empty set has no brace notation. *)
Definition str_set (s : gset (option string)) : string :=
  match links_iter s with
  | [] => "set()"
  | items => "{" +:+ join ", " (map repr_value items) +:+ "}"
  end.

Definition entity_line (e : Ent.t) : string :=
  "ENTITY" +:+ tab +:+ "text:" +:+ Ent.name e
  +:+ tab +:+ "url:" +:+ Ent.link e
  +:+ tab +:+ "wname:" +:+ Ent.wname e
  +:+ tab +:+ "id:" +:+ Ent.wid e
  +:+ tab +:+ "freebaseId:" +:+ Ent.fid e.

Definition candidate_line (c : Cand.t) : string :=
  "CANDIDATE" +:+ tab +:+ "id:" +:+ str_value (Cand.id c)
  +:+ tab +:+ "name:" +:+ Cand.name c
  +:+ tab +:+ "inCount:" +:+ str_of_nat (Cand.inCount c)
  +:+ tab +:+ "outCount:" +:+ str_of_nat (Cand.outCount c)
  +:+ tab +:+ "links:" +:+ str_set (Cand.links c)
  +:+ tab +:+ "url:" +:+ Cand.url c
  +:+ tab +:+ "normalName:" +:+ Cand.normalName c
  +:+ tab +:+ "normalwikititle:" +:+ Cand.normalWikiTitle c.

(** [sorted(l, key=key, reverse=True)]: descending and stable, built by
    inserting each element in front of the first one that does not have a
    larger key. *)
Fixpoint insert_desc {A} (key : A -> nat) (x : A) (l : list A) : list A :=
  match l with
  | [] => [x]
  | y :: l' =>
      if (key x <? key y)%nat then y :: insert_desc key x l' else x :: l
  end.

Definition sorted_reverse {A} (key : A -> nat) (l : list A) : list A :=
  foldr (insert_desc key) [] l.

(** [candidate['popularity'] = int(inCount) + int(outCount)] on the shared
    candidate dictionary. *)
Definition store_popularity (store : odict Cand.t) (candidate : string)
  : odict Cand.t :=
  ODict.alter
    (fun c => Cand.set_popularity (Some (Cand.inCount c + Cand.outCount c)) c)
    candidate store.

(** [c['popularity']], read after the loop above has written it. *)
Definition popularity_of (store : odict Cand.t) (candidate : string) : nat :=
  match ODict.get candidate store with
  | Some c => default 0 (Cand.popularity c)
  | None => 0
  end.

Definition top_candidates (store : odict Cand.t) (candidates : list string)
  : list string :=
  take 20 (sorted_reverse (popularity_of store) candidates).

Definition candidate_lines (store : odict Cand.t) (top : list string)
  : list string :=
  omap (fun k => candidate_line <$> ODict.get k store) top.

(** The body of [for ent in split]: the lines written for one entity and
    the candidate store after the popularity update. *)
Definition export_entity (entities : gmap string Ent.t)
    (st : list string * odict Cand.t) (ent : string)
  : result (list string * odict Cand.t) :=
  match entities !! ent with
  | None => Raise KeyError
  | Some e =>
      let store := fold_left store_popularity (Ent.candidates e) (snd st) in
      let top := top_candidates store (Ent.candidates e) in
      Ok ((fst st ++ entity_line e :: candidate_lines store top)%list, store)
  end.

(** The lines of the split file, and the candidate store afterwards. *)
Definition export_data (split : list string) (entities : gmap string Ent.t)
    (store : odict Cand.t) : result (list string * odict Cand.t) :=
  for_each (export_entity entities) split ([], store).

(** [outfile.write(line + "\n")] for every line. *)
Definition file_contents (lines : list string) : string :=
  foldr (fun line rest => line +:+ String newline rest) EmptyString lines.

End set_iteration.

(** ** The companion reader: [Candidate], [CandidateRecord] and
    [get_candidates] of [spel/multinerd.py] *)

Module Candidate.

Record t : Type := mk {
  id : string;
  in_count : Z;
  out_count : Z;
  links : list string;
  url : string;
  name : string;
  normal_name : string;
  normal_wiki_title : string
}.

Definition init : t := mk "" 0 0 [] "" "" "" "".

(** The value of the [links] item: braces and blanks are stripped from the
    ends, the rest is cut at the commas, and quotes and blanks are stripped
    from every piece that is not blank. *)
Definition parse_links (value : string) : list string :=
  let value := strip_chars "{} " value in
  if truthy value
  then map (strip_chars " '")
         (List.filter (fun v => truthy (strip v)) (split_char "," value))
  else [].

(** The body of [for item in candidate_line.split('\t')]. *)
Definition parse_item (c : t) (item : string) : result t :=
  if bool_decide (item = "CANDIDATE") || negb (truthy (strip item)) then Ok c
  else
    let '(key, value) := partition_char ":" item in
    let key := lower (strip key) in
    let value := strip value in
    if bool_decide (key = "id") then
      Ok (mk value (in_count c) (out_count c) (links c) (url c) (name c)
            (normal_name c) (normal_wiki_title c))
    else if bool_decide (key = "incount") then
      n <-- int value ;;
      Ok (mk (id c) n (out_count c) (links c) (url c) (name c)
            (normal_name c) (normal_wiki_title c))
    else if bool_decide (key = "outcount") then
      n <-- int value ;;
      Ok (mk (id c) (in_count c) n (links c) (url c) (name c)
            (normal_name c) (normal_wiki_title c))
    else if bool_decide (key = "links") then
      Ok (mk (id c) (in_count c) (out_count c) (parse_links value) (url c)
            (name c) (normal_name c) (normal_wiki_title c))
    else if bool_decide (key = "url") then
      Ok (mk (id c) (in_count c) (out_count c) (links c) value (name c)
            (normal_name c) (normal_wiki_title c))
    else if bool_decide (key = "name") then
      Ok (mk (id c) (in_count c) (out_count c) (links c) (url c) value
            (normal_name c) (normal_wiki_title c))
    else if bool_decide (key = "normalname") then
      Ok (mk (id c) (in_count c) (out_count c) (links c) (url c) (name c)
            value (normal_wiki_title c))
    else if bool_decide (key = "normalwikititle") then
      Ok (mk (id c) (in_count c) (out_count c) (links c) (url c) (name c)
            (normal_name c) (rstrip_chars ")" value))
    else Ok c.

(** [Candidate(candidate_line)] *)
Definition parse (candidate_line : string) : result t :=
  for_each parse_item (split_char (ascii_of_N 9) candidate_line) init.

End Candidate.

Module CandidateRecord.

Record t : Type := mk {
  candidates : list Candidate.t;
  text : string;
  url : string;
  wname : string;
  id : string;
  freebase_id : string;
  orig_text : string;
  non_considered_word_count : nat
}.

Record header : Type := mk_header {
  h_text : string;
  h_url : string;
  h_wname : string;
  h_id : string;
  h_freebase_id : string
}.

(** The body of [for item in entity_header.split('\t')]. *)
Definition parse_item (h : header) (item : string) : header :=
  if bool_decide (item = "ENTITY") then h
  else
    let '(key, value) := partition_char ":" item in
    let key := lower (strip key) in
    let value := strip value in
    if bool_decide (key = "text") then
      mk_header value (h_url h) (h_wname h) (h_id h) (h_freebase_id h)
    else if bool_decide (key = "url") then
      mk_header (h_text h) value (h_wname h) (h_id h) (h_freebase_id h)
    else if bool_decide (key = "wname") then
      mk_header (h_text h) (h_url h) value (h_id h) (h_freebase_id h)
    else if bool_decide (key = "id") then
      mk_header (h_text h) (h_url h) (h_wname h) value (h_freebase_id h)
    else if bool_decide (key = "freebaseid") then
      mk_header (h_text h) (h_url h) (h_wname h) (h_id h) value
    else h.

(** [CandidateRecord(entity_header)] *)
Definition parse (entity_header : string) : t :=
  let h := fold_left parse_item (split_char (ascii_of_N 9) entity_header)
             (mk_header "" "" "" "" "") in
  mk [] (h_text h) (h_url h) (h_wname h) (h_id h) (h_freebase_id h)
     (h_wname h) (length (split_char "_" (h_wname h))).

(** [record.add_candidate(candidate_line)] *)
Definition add_candidate (candidate_line : string) (r : t) : result t :=
  c <-- Candidate.parse candidate_line ;;
  Ok (mk (candidates r ++ [c])%list (text r) (url r) (wname r) (id r)
        (freebase_id r) (orig_text r) (non_considered_word_count r)).

End CandidateRecord.

(** The body of [for c_line in candidates_string]; the records are kept
    with the last one first. *)
Definition get_candidates_line (rev_records : list CandidateRecord.t)
    (c_line : string) : result (list CandidateRecord.t) :=
  if negb (truthy (strip c_line)) then Ok rev_records
  else if String.prefix "ENTITY" c_line
  then Ok (CandidateRecord.parse c_line :: rev_records)
  else if String.prefix "CANDIDATE" c_line then
    match rev_records with
    | [] => Raise AssertionError
    | last :: others =>
        last' <-- CandidateRecord.add_candidate c_line last ;;
        Ok (last' :: others)
    end
  else Raise ValueError.

(** [get_candidates] on the decoded contents of one split file. *)
Definition get_candidates (contents : string)
  : result (list CandidateRecord.t) :=
  rev_records <-- for_each get_candidates_line (split_char newline contents) [] ;;
  Ok (rev rev_records).

(** ** Reference definitions used in the statements *)

(** The text before the first occurrence of a character, and the text
    after it (empty when the character does not occur). *)
Fixpoint before_char (sep : ascii) (s : string) : string :=
  match s with
  | EmptyString => EmptyString
  | String c s' =>
      if Ascii.eqb c sep then EmptyString else String c (before_char sep s')
  end.

Fixpoint after_char (sep : ascii) (s : string) : string :=
  match s with
  | EmptyString => EmptyString
  | String c s' => if Ascii.eqb c sep then s' else after_char sep s'
  end.

(** The normalisation of the entity key in the order in which the
    specification words it: internal spaces removed, lower-cased, then cut
    at the first opening parenthesis. *)
Definition normalize_spec (s : string) : string :=
  before_char "(" (lower (remove_char " " s)).

(** The key under which a row is filed, when it is a gold mention. *)
Definition mention_key (row : list string) : option string :=
  match is_gold_mention row with
  | Ok true =>
      match field <-- index row 2 ;; entity_dictname field with
      | Ok key => Some key
      | Raise _ => None
      end
  | _ => None
  end.

(** The record made of the provenance fields of a row of seven fields or
    more. *)
Definition row_record (row : list string) : option Ent.t :=
  match row with
  | _ :: _ :: name :: wname :: link :: wid :: fid :: _ =>
      Some (Ent.mk name link wname fid wid [])
  | _ => None
  end.

(** The first row of the corpus that is a gold mention filed under [key]. *)
Definition first_mention (key : string) (rows : list (list string))
  : option (list string) :=
  List.find (fun row => bool_decide (mention_key row = Some key)) rows.

(** The three aliases of a bracketed link, from its group. *)
Definition link_name (group : string) : string :=
  strip (before_char "|" group).

Definition link_alias_1 (group : string) : option string :=
  if contains_char "|" group
  then Some (strip (before_char "(" (before_char "|" (after_char "|" group))))
  else None.

Definition link_alias_2 (group : string) : string :=
  strip (before_char "(" (before_char "|" group)).

Definition link_aliases (group : string) : list (option string) :=
  [Some (link_name group); link_alias_1 group; Some (link_alias_2 group)].

(** The first alias, in order, whose normalisation is a known entity key. *)
Fixpoint first_known (entity_names : gset string)
    (aliases : list (option string)) : option string :=
  match aliases with
  | [] => None
  | None :: rest => first_known entity_names rest
  | Some alias :: rest =>
      if bool_decide (alias_key alias ∈ entity_names) then Some alias
      else first_known entity_names rest
  end.

(** The first alias, in order, that is not empty and whose normalisation is
    a known entity key. *)
Fixpoint first_nonempty_known (entity_names : gset string)
    (aliases : list (option string)) : option string :=
  match aliases with
  | [] => None
  | None :: rest => first_nonempty_known entity_names rest
  | Some alias :: rest =>
      if bool_decide (alias ≠ "" ∧ alias_key alias ∈ entity_names)
      then Some alias
      else first_nonempty_known entity_names rest
  end.

(** What a line does to the candidate map when the alias [found] matched
    on a link of group [group]. *)
Definition record_match (found : option string) (group : string)
    (all_candidates : odict Cand.t) : odict Cand.t :=
  match found with
  | Some alias => add_candidate (alias_key alias) (link_name group) all_candidates
  | None => all_candidates
  end.

(** The reading of the matching rule without the emptiness test: the miner
    stops at the first alias whose normalisation is a known key. *)
Definition stops_at_first_known (entity_names : gset string)
    (all_candidates : odict Cand.t) (raw_line : string) : Prop :=
  forall group,
    search_link (strip raw_line) = Some group ->
    mine_line entity_names all_candidates raw_line
    = Ok (record_match (first_known entity_names (link_aliases group))
            group all_candidates).

(** ** Example inputs *)

(** Two gold mentions of one entity: the second one differs in every
    provenance field and is too short to be filed on its own. *)
Definition messi_first : list string :=
  ["Lionel"; "B-PER"; "Lionel Messi (footballer)"; "Lionel_Messi";
   "https://nl.wikipedia.org/wiki/Lionel_Messi"; "2150841"; "/m/06qjgc"].

Definition messi_again : list string :=
  ["Messi"; "B-PER"; "LIONEL MESSI"; "Messi"; "https://example.org/messi"].

Definition messi_record : Ent.t :=
  Ent.mk "Lionel Messi (footballer)"
    "https://nl.wikipedia.org/wiki/Lionel_Messi" "Lionel_Messi" "/m/06qjgc"
    "2150841" [].

(** A gold mention of five fields: long enough for the length test of
    [extract_entities], too short for the fields it reads. *)
Definition short_gold_row : list string :=
  ["Amsterdam"; "B-LOC"; "Amsterdam"; "Amsterdam";
   "https://nl.wikipedia.org/wiki/Amsterdam"].

Definition six_field_gold_row : list string :=
  ["Amsterdam"; "B-LOC"; "Amsterdam"; "Amsterdam";
   "https://nl.wikipedia.org/wiki/Amsterdam"; "5042"].

(** Two candidate records that differ at most in their references. *)
Definition same_but_references (c c' : Cand.t) : Prop :=
  Cand.id c' = Cand.id c
  /\ Cand.inCount c' = Cand.inCount c
  /\ Cand.outCount c' = Cand.outCount c
  /\ Cand.links c' = Cand.links c
  /\ Cand.url c' = Cand.url c
  /\ Cand.name c' = Cand.name c
  /\ Cand.normalName c' = Cand.normalName c
  /\ Cand.normalWikiTitle c' = Cand.normalWikiTitle c
  /\ Cand.popularity c' = Cand.popularity c.

(** An entity table with the key of the spec's scenario and the empty key,
    which a mention that starts with a parenthesis is filed under. *)
Definition amsterdam_row : list string :=
  ["Amsterdam"; "B-LOC"; "Amsterdam"; "Amsterdam";
   "https://nl.wikipedia.org/wiki/Amsterdam"; "5042"; "/m/0k3p"].

Definition parenthesis_row : list string :=
  ["(NL)"; "B-LOC"; "(NL)"; "Nederland";
   "https://nl.wikipedia.org/wiki/Nederland"; "731"; "/m/059j2"].

Definition table_with_empty_key : gmap string Ent.t :=
  <["" := Ent.mk "(NL)" "https://nl.wikipedia.org/wiki/Nederland" "Nederland"
            "/m/059j2" "731" []]>
    {["amsterdam" := Ent.mk "Amsterdam" "https://nl.wikipedia.org/wiki/Amsterdam"
                       "Amsterdam" "/m/0k3p" "5042" []]}.

(** The references of the only candidate of a one-candidate map. *)
Definition only_references (r : result (odict Cand.t)) : list string :=
  match r with
  | Ok [(_, c)] => elements (Cand.references c)
  | _ => []
  end.

(** ** Counting links the way the counter does *)

(** The in-count and out-count stored under a key (zero for no record). *)
Definition inCount_of (d : odict Cand.t) (k : string) : nat :=
  match ODict.get k d with
  | Some c => Cand.inCount c
  | None => 0
  end.

Definition outCount_of (d : odict Cand.t) (k : string) : nat :=
  match ODict.get k d with
  | Some c => Cand.outCount c
  | None => 0
  end.

(** Among [links], the occurrences whose target is the candidate [c], and
    the occurrences whose target is any candidate key. *)
Definition in_hits (keys : list string) (c : string) (links : list string)
  : nat :=
  length (filter (fun link => before_char "|" link = c ∧ c ∈ keys) links).

Definition out_hits (keys : list string) (links : list string) : nat :=
  length (filter (fun link => before_char "|" link ∈ keys) links).

(** What one page adds to the in-count and to the out-count of [c]: a page
    counts only when its title is a non-empty candidate key. *)
Definition page_in (keys : list string) (c : string) (page : string) : nat :=
  match search_title page with
  | Some title =>
      if bool_decide (title ≠ "" ∧ title ∈ keys)
      then in_hits keys c (page_links page) else 0
  | None => 0
  end.

Definition page_out (keys : list string) (c : string) (page : string) : nat :=
  match search_title page with
  | Some title =>
      if bool_decide (title ≠ "" ∧ title ∈ keys ∧ title = c)
      then out_hits keys (page_links page) else 0
  | None => 0
  end.

(** The pages of all shards, in processing order. *)
Definition all_pages (shards : list string) : list string :=
  concat (map shard_pages shards).

(** The reading of the in-count that counts the links of every page,
    whatever its title: the occurrences, over all pages, of links whose
    target is [c]. *)
Definition links_to (c : string) (page : string) : nat :=
  length (filter (fun link => before_char "|" link = c) (page_links page)).

Definition counts_links_of_every_page (lines : list string)
    (entities : gmap string Ent.t) (shards : list string) : Prop :=
  forall d d' c r,
    extract_candidates lines entities = Ok d ->
    extract_candidates_counts shards d = Ok d' ->
    ODict.get c d' = Some r ->
    Cand.inCount r = sum_list_with (links_to c) (all_pages shards).

(** The claim as it is worded.  The in-count of [c] is the number of
    distinct (page, link) observations with target [c]: page by page, over
    every page of every shard whatever its title, the number of distinct
    kept links whose target is [c].  The out-count of [c] is the number of
    distinct kept links of the pages titled [c], whatever their targets. *)
Definition distinct_links_to (c : string) (page : string) : nat :=
  length (remove_dups
            (filter (fun link => before_char "|" link = c) (page_links page))).

Definition distinct_links_of (c : string) (page : string) : nat :=
  match search_title page with
  | Some title =>
      if bool_decide (title = c) then length (remove_dups (page_links page))
      else 0
  | None => 0
  end.

Definition in_count_of_distinct_observations (lines : list string)
    (entities : gmap string Ent.t) (shards : list string) : Prop :=
  forall d d' c r,
    extract_candidates lines entities = Ok d ->
    extract_candidates_counts shards d = Ok d' ->
    ODict.get c d' = Some r ->
    Cand.inCount r = sum_list_with (distinct_links_to c) (all_pages shards).

Definition out_count_of_distinct_links (lines : list string)
    (entities : gmap string Ent.t) (shards : list string) : Prop :=
  forall d d' c r,
    extract_candidates lines entities = Ok d ->
    extract_candidates_counts shards d = Ok d' ->
    ODict.get c d' = Some r ->
    Cand.outCount r = sum_list_with (distinct_links_of c) (all_pages shards).

(** The page of the candidate Amsterdam with the same link to the
    candidate Rotterdam twice, and with one link to Rotterdam and one to
    Utrecht, which is not a candidate. *)
Definition twice_shard : string :=
  "<page><title>Amsterdam</title><id>5042</id>Zie [[Rotterdam]] en nog eens [[Rotterdam]].</page>".

Definition mixed_shard : string :=
  "<page><title>Amsterdam</title><id>5042</id>Zie [[Rotterdam]] en [[Utrecht]].</page>".

(** A shard whose only page, Utrecht, is not a candidate and links to the
    candidate Rotterdam. *)
Definition utrecht_shard : string :=
  "<page><title>Utrecht</title><id>3713</id>Zie ook [[Rotterdam]].</page>".

(** The shard of the spec's scenario: the page Amsterdam, id 5042, with one
    link to Rotterdam. *)
Definition amsterdam_shard : string :=
  "<page><title>Amsterdam</title><id>5042</id>Zie ook [[Rotterdam]].</page>".

(** ** Ranking *)

(** A list whose keys never increase. *)
Definition descending {A} (key : A -> nat) (l : list A) : Prop :=
  StronglySorted (fun a b => key b <= key a) l.

(** The value [export_data] stores as ['popularity']. *)
Definition with_popularity (c : Cand.t) : Cand.t :=
  Cand.set_popularity (Some (Cand.inCount c + Cand.outCount c)) c.

(** The entity table and the link corpus that make Rotterdam, and then
    Amsterdam, candidates. *)
Definition rotterdam_table : gmap string Ent.t :=
  {["rotterdam" := Ent.mk "Rotterdam" "https://nl.wikipedia.org/wiki/Rotterdam"
                     "Rotterdam" "/m/06hdk" "2747" []]}.

Definition two_city_table : gmap string Ent.t :=
  <["amsterdam" := Ent.mk "Amsterdam" "https://nl.wikipedia.org/wiki/Amsterdam"
                     "Amsterdam" "/m/0k3p" "5042" []]> rotterdam_table.

Definition two_city_lines : list string :=
  ["De stad [[Amsterdam|hoofdstad]] is druk"; "De haven van [[Rotterdam]]"].

(** The candidate map after the counter has read [amsterdam_shard] alone:
    Amsterdam is a page and links to Rotterdam, which is a page of no
    shard. *)
Definition amsterdam_counted : Cand.t :=
  Cand.mk (Some "5042") 0 1 {[Some "Rotterdam"]}
    "https://nl.wikipedia.org/wiki/Amsterdam" "Amsterdam" "amsterdam"
    "amsterdam" {["amsterdam"]} None.

Definition rotterdam_unresolved : Cand.t :=
  Cand.mk None 1 0 ∅
    "https://nl.wikipedia.org/wiki/Rotterdam" "Rotterdam" "rotterdam"
    "rotterdam" {["rotterdam"]} None.

Definition dangling_store : odict Cand.t :=
  [("Amsterdam", amsterdam_counted); ("Rotterdam", rotterdam_unresolved)].

(** A shard in which both cities are pages; Rotterdam links to nothing. *)
Definition rotterdam_page_shard : string :=
  "<page><title>Rotterdam</title><id>2747</id>Havenstad.</page>".

Definition amsterdam_resolved : Cand.t :=
  Cand.mk (Some "5042") 0 1 {[Some "2747"]}
    "https://nl.wikipedia.org/wiki/Amsterdam" "Amsterdam" "amsterdam"
    "amsterdam" {["amsterdam"]} None.

Definition rotterdam_resolved : Cand.t :=
  Cand.mk (Some "2747") 1 0 ∅
    "https://nl.wikipedia.org/wiki/Rotterdam" "Rotterdam" "rotterdam"
    "rotterdam" {["rotterdam"]} None.

Definition resolved_store : odict Cand.t :=
  [("Amsterdam", amsterdam_resolved); ("Rotterdam", rotterdam_resolved)].

(** The whole pipeline up to the split file, for sets enumerated by
    [elements]. *)
Definition pipeline (rows : list (list string)) (lines shards split : list string)
  : result (list string) :=
  entities <-- extract_entities rows ;;
  mined <-- extract_candidates lines entities ;;
  counted <-- extract_candidates_counts shards mined ;;
  resolved <-- replace_links elements counted ;;
  out <-- export_data elements split
            (add_candidates_to_entities elements entities resolved) resolved ;;
  Ok (fst out).

Definition rotterdam_row : list string :=
  ["Rotterdam"; "B-LOC"; "Rotterdam"; "Rotterdam";
   "https://nl.wikipedia.org/wiki/Rotterdam"; "2747"; "/m/06hdk"].

(** The same two candidates in the other insertion order. *)
Definition dangling_store_swapped : odict Cand.t :=
  [("Rotterdam", rotterdam_unresolved); ("Amsterdam", amsterdam_counted)].

(** An entity with three candidates of popularity 1, 3 and 1, and the
    store that holds them. *)
Definition ranked (id : string) (inc outc : nat) (title : string) : Cand.t :=
  Cand.mk (Some id) inc outc ∅
    ("https://nl.wikipedia.org/wiki/" +:+ title) title (lower title)
    (lower title) {["amstel"]} None.

Definition ranking_store : odict Cand.t :=
  [("Amstel", ranked "7001" 1 0 "Amstel");
   ("Amstel (rivier)", ranked "7002" 2 1 "Amstel_(rivier)");
   ("Amstel (bier)", ranked "7003" 0 1 "Amstel_(bier)")].

Definition ranking_table : gmap string Ent.t :=
  {["amstel" := Ent.mk "Amstel" "https://nl.wikipedia.org/wiki/Amstel" "Amstel"
                  "/m/0amst" "7001"
                  ["Amstel"; "Amstel (rivier)"; "Amstel (bier)"]]}.

(** Twenty-five candidates, named 0 to 24, where candidate [n] has
    popularity [n mod 3]. *)
Definition crowd_store : odict Cand.t :=
  map (fun n => (str_of_nat n, ranked (str_of_nat n) (n mod 3) 0 (str_of_nat n)))
    (seq 0 25).

(** An entity that has all twenty-five of them as candidates, in the order
    of the store. *)
Definition crowd_entity : Ent.t :=
  Ent.mk "Crowd" "https://nl.wikipedia.org/wiki/Crowd" "Crowd" "/m/0crwd"
    "7100" (ODict.keys crowd_store).

Definition crowd_table : gmap string Ent.t := {["crowd" := crowd_entity]}.

(** The line written for a candidate key is the candidate line of the
    record that the store holds under the key. *)
Definition line_of (links_iter : gset (option string) -> list (option string))
    (store : odict Cand.t) (k line : string) : Prop :=
  exists c, ODict.get k store = Some c /\ line = candidate_line links_iter c.

(** ** The resolver on any candidate map *)

(** Two candidate records that differ at most in their links. *)
Definition same_but_links (c c' : Cand.t) : Prop :=
  Cand.id c' = Cand.id c
  /\ Cand.inCount c' = Cand.inCount c
  /\ Cand.outCount c' = Cand.outCount c
  /\ Cand.url c' = Cand.url c
  /\ Cand.name c' = Cand.name c
  /\ Cand.normalName c' = Cand.normalName c
  /\ Cand.normalWikiTitle c' = Cand.normalWikiTitle c
  /\ Cand.references c' = Cand.references c
  /\ Cand.popularity c' = Cand.popularity c.

(** The candidate under [k] has an id that counts as true. *)
Definition resolved (d : odict Cand.t) (k : string) : bool :=
  match ODict.get k d with
  | Some c => truthy_id (Cand.id c)
  | None => false
  end.

(** [d'] holds, under the same keys, records that differ from those of [d]
    in their links at most. *)
Definition links_changed_only (d d' : odict Cand.t) : Prop :=
  ODict.keys d' = ODict.keys d
  /\ forall k c',
       ODict.get k d' = Some c' ->
       exists c, ODict.get k d = Some c /\ same_but_links c c'.

(** ** Document splits: [split_tsv_file] *)

(** The state of the loop of [split_tsv_file]: the documents closed so
    far, the keys of the open document, and the flag [first_doc]. *)
Record split_state : Type := mk_split_state {
  docs : list (list string);
  doc_ents : list string;
  first_doc : bool
}.

(** ["-DOCSTART-" in row]: one of the fields is the marker. *)
Definition is_docstart (row : list string) : bool :=
  bool_decide ("-DOCSTART-" ∈ row).

(** The body of [for row in reader] in [split_tsv_file]. *)
Definition split_tsv_row (st : split_state) (row : list string)
  : result split_state :=
  if is_docstart row then
    if first_doc st then Ok (mk_split_state (docs st) (doc_ents st) false)
    else Ok (mk_split_state (docs st ++ [doc_ents st])%list [] (first_doc st))
  else if (0 <? length row)%nat then
    gold <-- is_gold_mention row ;;
    if gold then
      field <-- index row 2 ;;
      entity <-- entity_dictname field ;;
      Ok (mk_split_state (docs st) (doc_ents st ++ [entity])%list (first_doc st))
    else Ok st
  else Ok st.

Definition split_tsv_file (rows : list (list string))
  : result (list (list string)) :=
  st <-- for_each split_tsv_row rows (mk_split_state [] [] true) ;;
  match doc_ents st with
  | [] => Ok (docs st)
  | _ => Ok (docs st ++ [doc_ents st])%list
  end.

(** The rows of a corpus cut at its marker rows, the way [str.split] cuts
    a string: one more segment than there are marker rows. *)
Fixpoint segments (rows : list (list string)) : list (list (list string)) :=
  match rows with
  | [] => [[]]
  | row :: rows' =>
      if is_docstart row then [] :: segments rows'
      else match segments rows' with
           | seg :: segs => (row :: seg) :: segs
           | [] => [[row]]
           end
  end.

(** The keys of the gold mentions among some rows, in order. *)
Definition mention_keys (rows : list (list string)) : list string :=
  omap mention_key rows.

(** The first marker row closes nothing: the first two segments make one
    document. *)
Definition merge_first_two (ks : list (list string)) : list (list string) :=
  match ks with
  | k0 :: k1 :: rest => (k0 ++ k1)%list :: rest
  | _ => ks
  end.

(** The last document is kept only when it has a key. *)
Fixpoint drop_empty_last (ks : list (list string)) : list (list string) :=
  match ks with
  | [] => []
  | [k] => match k with [] => [] | _ => [k] end
  | k :: ks' => k :: drop_empty_last ks'
  end.

(** The documents of a corpus, read off its segments. *)
Definition documents (rows : list (list string)) : list (list string) :=
  drop_empty_last (merge_first_two (map mention_keys (segments rows))).

(** ** Attaching candidates, and the whole program *)

(** The keys of the candidates that refer to the entity [k], in the order
    of the candidate map. *)
Definition referencing (k : string) (all_candidates : odict Cand.t)
  : list string :=
  map fst
    (List.filter (fun kc => bool_decide (k ∈ Cand.references (snd kc)))
       all_candidates).

(** An entity with more candidates at the end of its list. *)
Definition append_candidates (ks : list string) (e : Ent.t) : Ent.t :=
  Ent.mk (Ent.name e) (Ent.link e) (Ent.wname e) (Ent.fid e) (Ent.wid e)
    (Ent.candidates e ++ ks)%list.

(** The in-count plus the out-count of the candidate under a key (zero for
    no record), whatever its ['popularity'] field holds. *)
Definition pop_of (store : odict Cand.t) (k : string) : nat :=
  match ODict.get k store with
  | Some c => Cand.inCount c + Cand.outCount c
  | None => 0
  end.

(** Two stores with the same keys whose records differ at most in
    ['popularity']. *)
Definition popularity_changed_only (store store' : odict Cand.t) : Prop :=
  ODict.keys store' = ODict.keys store
  /\ forall k,
       match ODict.get k store, ODict.get k store' with
       | Some c, Some c' =>
           Cand.set_popularity (Cand.popularity c') c = c'
       | None, None => True
       | _, _ => False
       end.

Section whole_program.
Variable links_iter : gset (option string) -> list (option string).
Variable refs_iter : gset string -> list string.

(** The lines written for one entity, read off the store as it is before
    the export: the entity line, and the lines of the first 20 candidates of
    the entity ranked by in-count plus out-count. *)
Definition entity_block (entities : gmap string Ent.t) (store : odict Cand.t)
    (ent : string) : list string :=
  match entities !! ent with
  | Some e =>
      entity_line e
      :: candidate_lines links_iter store
           (take 20 (sorted_reverse (pop_of store) (Ent.candidates e)))
  | None => []
  end.

(** The loop [for split_nr, split in enumerate(doc_splits)] of [main]: the
    files written so far, in the order of their numbers, and the candidate
    store, which the exports share. *)
Definition export_splits (entities : gmap string Ent.t)
    (st : list (list string) * odict Cand.t) (split : list string)
  : result (list (list string) * odict Cand.t) :=
  out <-- export_data links_iter split entities (snd st) ;;
  Ok ((fst st ++ [fst out])%list, snd out).

(** [main]: the corpus rows, the lines of the link corpus and the contents
    of the shards go in, the lines of the split files come out. *)
Definition main (rows : list (list string)) (lines shards : list string)
  : result (list (list string)) :=
  entities <-- extract_entities rows ;;
  mined <-- extract_candidates lines entities ;;
  counted <-- extract_candidates_counts shards mined ;;
  resolved <-- replace_links links_iter counted ;;
  let entities_dict := add_candidates_to_entities refs_iter entities resolved in
  doc_splits <-- split_tsv_file rows ;;
  out <-- for_each (export_splits entities_dict) doc_splits ([], resolved) ;;
  Ok (fst out).

End whole_program.

(** ** What the counter leaves in a record *)

(** The links and the id stored under a key. *)
Definition links_of (d : odict Cand.t) (k : string) : gset (option string) :=
  match ODict.get k d with
  | Some c => Cand.links c
  | None => ∅
  end.

Definition id_of (d : odict Cand.t) (k : string) : option string :=
  match ODict.get k d with
  | Some c => Cand.id c
  | None => None
  end.

(** The members that some links add to a links set: the targets that are
    candidate keys. *)
Definition target_set (keys : list string) (links : list string)
  : gset (option string) :=
  list_to_set
    (map Some (filter (fun t => t ∈ keys) (map (before_char "|") links))).

(** The page is counted for the candidate [c]: its title is [c], a
    non-empty candidate key. *)
Definition page_of (keys : list string) (c : string) (page : string) : bool :=
  match search_title page with
  | Some title => bool_decide (title ≠ "" ∧ title ∈ keys ∧ title = c)
  | None => false
  end.

(** What one page adds to the links of [c], and the id it gives to [c]. *)
Definition page_link_set (keys : list string) (c : string) (page : string)
  : gset (option string) :=
  if page_of keys c page then target_set keys (page_links page) else ∅.

Definition page_id (keys : list string) (c : string) (page : string)
  : option string :=
  if page_of keys c page then
    match search_id page with
    | Some id => if truthy id then Some id else None
    | None => None
    end
  else None.

(** The id after some pages: the one of the last page that gives one. *)
Definition last_id (keys : list string) (c : string) (pages : list string)
    (start : option string) : option string :=
  fold_left
    (fun acc page =>
       match page_id keys c page with
       | Some id => Some id
       | None => acc
       end)
    pages start.

(** Two records that differ at most in what the counter writes: the id,
    the two counts and the links. *)
Definition same_but_counted (c c' : Cand.t) : Prop :=
  Cand.url c' = Cand.url c
  /\ Cand.name c' = Cand.name c
  /\ Cand.normalName c' = Cand.normalName c
  /\ Cand.normalWikiTitle c' = Cand.normalWikiTitle c
  /\ Cand.references c' = Cand.references c
  /\ Cand.popularity c' = Cand.popularity c.

Definition counted_only (d d' : odict Cand.t) : Prop :=
  ODict.keys d' = ODict.keys d
  /\ forall k c',
       ODict.get k d' = Some c' ->
       exists c, ODict.get k d = Some c /\ same_but_counted c c'.

(** ** Text that survives the export format *)

(** The character does not occur in the string. *)
Fixpoint free_of (c : ascii) (s : string) : Prop :=
  match s with
  | EmptyString => True
  | String a s' => a ≠ c /\ free_of c s'
  end.

(** The characters of an id that [repr] writes as they are and that the
    reader does not cut or strip: printable, and none of blank, comma,
    single quote and backslash. *)
Definition id_char (c : ascii) : bool :=
  printable c
  && negb (Ascii.eqb c " ") && negb (Ascii.eqb c ",")
  && negb (Ascii.eqb c squote) && negb (Ascii.eqb c backslash).

Fixpoint plain_id (s : string) : bool :=
  match s with
  | EmptyString => true
  | String c s' => id_char c && plain_id s'
  end.

(** The value of a string of decimal digits read from the left, on top of
    the value [acc] of the digits before it. *)
Fixpoint uint_value (d : Decimal.uint) (acc : N) : N :=
  match d with
  | Decimal.Nil => acc
  | Decimal.D0 d' => uint_value d' (acc * 10)
  | Decimal.D1 d' => uint_value d' (acc * 10 + 1)
  | Decimal.D2 d' => uint_value d' (acc * 10 + 2)
  | Decimal.D3 d' => uint_value d' (acc * 10 + 3)
  | Decimal.D4 d' => uint_value d' (acc * 10 + 4)
  | Decimal.D5 d' => uint_value d' (acc * 10 + 5)
  | Decimal.D6 d' => uint_value d' (acc * 10 + 6)
  | Decimal.D7 d' => uint_value d' (acc * 10 + 7)
  | Decimal.D8 d' => uint_value d' (acc * 10 + 8)
  | Decimal.D9 d' => uint_value d' (acc * 10 + 9)
  end%N.

(** No character of the string satisfies [p]: stripping by [p] leaves the
    string as it is. *)
Fixpoint none_of (p : ascii -> bool) (s : string) : Prop :=
  match s with
  | EmptyString => True
  | String a s' => p a = false /\ none_of p s'
  end.

(** The fields of a line with tabs between them. *)
Definition fields_line (items : list string) : string := join tab items.

(** What the reader makes of a written link: the text of the id, [None]
    as the word. *)
Definition plain_value (v : option string) : Prop :=
  match v with
  | Some s => plain_id s = true
  | None => True
  end.

(** The links of a candidate as the reader returns them. *)
Definition read_links (items : list (option string)) : list string :=
  match items with
  | [] => ["set()"]
  | _ => map str_value items
  end.

(** The reader's record of an entity and of a candidate. *)
Definition read_entity (e : Ent.t) : CandidateRecord.t :=
  CandidateRecord.mk [] (strip (Ent.name e)) (strip (Ent.link e))
    (strip (Ent.wname e)) (strip (Ent.wid e)) (strip (Ent.fid e))
    (strip (Ent.wname e))
    (length (split_char "_" (strip (Ent.wname e)))).

Definition read_candidate (items : list (option string)) (c : Cand.t)
  : Candidate.t :=
  Candidate.mk (strip (str_value (Cand.id c)))
    (Z.of_nat (Cand.inCount c)) (Z.of_nat (Cand.outCount c))
    (read_links items)
    (strip (Cand.url c)) (strip (Cand.name c)) (strip (Cand.normalName c))
    (rstrip_chars ")" (strip (Cand.normalWikiTitle c))).

(** What is written for a link, and what the reader does with it. *)
Record written (v : option string) (r : string) : Prop := mk_written {
  written_comma : free_of "," r;
  written_tab : free_of (ascii_of_N 9) r;
  written_newline : free_of newline r;
  written_head : exists c t, r = String c t /\ mem_char c "{} " = false /\
                             isspace c = false;
  written_last : exists y c, r = y +:+ String c "" /\
                             mem_char c "{} " = false;
  written_read : strip_chars " '" r = str_value v;
  written_read_blank : strip_chars " '" (String " " r) = str_value v
}.


(** A field that cannot break a line or spill into the next field. *)
Definition line_safe (s : string) : Prop :=
  free_of (ascii_of_N 9) s /\ free_of newline s.

Definition entity_safe (e : Ent.t) : Prop :=
  line_safe (Ent.name e) /\ line_safe (Ent.link e) /\ line_safe (Ent.wname e)
  /\ line_safe (Ent.wid e) /\ line_safe (Ent.fid e).

Definition candidate_safe (c : Cand.t) : Prop :=
  line_safe (str_value (Cand.id c)) /\ line_safe (Cand.name c)
  /\ line_safe (Cand.url c) /\ line_safe (Cand.normalName c)
  /\ line_safe (Cand.normalWikiTitle c)
  /\ forall v, v ∈ Cand.links c -> plain_value v.

(** A record with other candidates. *)
Definition with_candidates (cs : list Candidate.t) (r : CandidateRecord.t)
  : CandidateRecord.t :=
  CandidateRecord.mk cs (CandidateRecord.text r) (CandidateRecord.url r)
    (CandidateRecord.wname r) (CandidateRecord.id r)
    (CandidateRecord.freebase_id r) (CandidateRecord.orig_text r)
    (CandidateRecord.non_considered_word_count r).

Section reading_back.
Variable links_iter : gset (option string) -> list (option string).

Definition read_candidate_of (c : Cand.t) : Candidate.t :=
  read_candidate (links_iter (Cand.links c)) c.

(** The lines of an entity with the given candidates, and the record the
    reader makes of them. *)
Definition block_lines (b : Ent.t * list Cand.t) : list string :=
  entity_line b.1 :: map (candidate_line links_iter) b.2.

Definition block_record (b : Ent.t * list Cand.t) : CandidateRecord.t :=
  with_candidates (map read_candidate_of b.2) (read_entity b.1).

(** The entity of a split entry with the candidates that are exported for
    it: the first 20 by in-count plus out-count that have a record. *)
Definition exported_block (entities : gmap string Ent.t)
    (store : odict Cand.t) (ent : string) : list (Ent.t * list Cand.t) :=
  match entities !! ent with
  | Some e =>
      [(e, omap (fun k => ODict.get k store)
             (take 20 (sorted_reverse (pop_of store) (Ent.candidates e))))]
  | None => []
  end.

End reading_back.

(** ** A corpus of two documents *)

Definition docstart_row : list string := ["-DOCSTART-"].

Definition two_city_rows : list (list string) :=
  [docstart_row; amsterdam_row; docstart_row; rotterdam_row].

(** The two entities with the resolved candidates attached. *)
Definition two_city_entities : gmap string Ent.t :=
  add_candidates_to_entities elements two_city_table resolved_store.

Definition two_city_mined : odict Cand.t :=
  [("Amsterdam", new_candidate "amsterdam" "Amsterdam");
   ("Rotterdam", new_candidate "rotterdam" "Rotterdam")].

(** The candidate map of the two cities after the counter has read the
    pages of both. *)
Definition two_city_counted : odict Cand.t :=
  match extract_candidates_counts [amsterdam_shard; rotterdam_page_shard]
          two_city_mined with
  | Ok counted => counted
  | Raise _ => []
  end.

(** ** The corpus loader: [AnnotationRecord], [Document] and
    [MULTINERDDataset.load_dataset] of [spel/multinerd.py] *)

(** [s.replace(old, new)] for a non-empty [old]: the occurrences are found
    from the left and do not overlap; [skip] counts the characters of an
    occurrence that was just replaced. *)
Fixpoint replace_str_aux (old new : string) (skip : nat) (s : string) : string :=
  match s with
  | EmptyString => EmptyString
  | String c s' =>
      match skip with
      | S k => replace_str_aux old new k s'
      | O =>
          if String.prefix old s
          then new +:+ replace_str_aux old new (String.length old - 1) s'
          else String c (replace_str_aux old new O s')
      end
  end.

Definition replace_str (old new s : string) : string :=
  replace_str_aux old new O s.

(** Truth value of a [str]-or-[None] value: [if not e]. *)
Definition truthy_value (v : option string) : bool :=
  match v with
  | Some s => truthy s
  | None => false
  end.

(** [res[-1]] and [res[:-1]] *)
Fixpoint last_char (s : string) : result ascii :=
  match s with
  | EmptyString => Raise IndexError
  | String c EmptyString => Ok c
  | String _ s' => last_char s'
  end.

Fixpoint drop_last (s : string) : string :=
  match s with
  | EmptyString => EmptyString
  | String _ EmptyString => EmptyString
  | String c s' => String c (drop_last s')
  end.

Module AnnotationRecord.

(** [candidates] refers to one of the candidate records of the document:
    it is kept as the position of that record in the document's list. *)
Record t : Type := mk {
  token : option string;
  begin_inside_tag : option string;
  full_mention : option string;
  mn_entity : option string;
  wikipedia_url : option string;
  wikipedia_id : option string;
  freebase_mid : option string;
  candidates : option nat
}.

(** [AnnotationRecord(line)] *)
Definition init (line : string) : t :=
  let data_columns := split_char (ascii_of_N 9) line in
  mk (data_columns !! 0%nat) (data_columns !! 1%nat)
     ((fun s => replace_str " e " "e " (replace_str " - " "-" s))
        <$> data_columns !! 2%nat)
     (data_columns !! 3%nat) (data_columns !! 4%nat) (data_columns !! 5%nat)
     (data_columns !! 6%nat) None.

Definition with_candidates (i : nat) (ar : t) : t :=
  mk (token ar) (begin_inside_tag ar) (full_mention ar) (mn_entity ar)
     (wikipedia_url ar) (wikipedia_id ar) (freebase_mid ar) (Some i).

Definition fields (ar : t) : list (option string) :=
  [token ar; begin_inside_tag ar; full_mention ar; mn_entity ar;
   wikipedia_url ar; wikipedia_id ar; freebase_mid ar].

(** The loop of [__str__] from position [ind] on, for a list [t] of
    [len_t] values. *)
Fixpoint str_loop (len_t ind : nat) (t : list (option string)) (res : string)
  : string :=
  match t with
  | [] => res
  | e :: t' =>
      if negb (truthy_value e) then str_loop len_t (S ind) t' res
      else if (ind <? len_t - 1)%nat
      then str_loop len_t (S ind) t' (res +:+ str_value e +:+ "|")
      else str_loop len_t (S ind) t' (res +:+ str_value e)
  end.

(** [str(ar)] *)
Definition to_str (ar : t) : result string :=
  let t := fields ar in
  let res := str_loop (length t) 0 t "" in
  last <-- last_char res ;;
  if Ascii.eqb last "|" then Ok (drop_last res) else Ok res.

End AnnotationRecord.

(** A candidate record of a document as the loader holds it: the record
    that was read, and the current value of its
    [non_considered_word_count], which [set_candidates] lowers. *)
Record live_record : Type := mk_live {
  record : CandidateRecord.t;
  count : Z
}.

Definition load_record (r : CandidateRecord.t) : live_record :=
  mk_live r (Z.of_nat (CandidateRecord.non_considered_word_count r)).

(** [candidate_record.non_considered_word_count -= 1] of
    [set_candidates]. *)
Definition set_candidates (c : live_record) : live_record :=
  mk_live (record c) (count c - 1).

(** [normalize_mention_text] *)
Definition normalize_mention_text (s : string) : string :=
  if negb (truthy s) then ""
  else lower (strip (replace_char "_" " " s)).

(** The loop [for c in candidates] of [add_annotation] from position [i]
    on, for a record with the mention [mention]: the position of the
    candidate record that is attached, if one is, and the records
    afterwards. *)
Fixpoint attach (mention : string) (i : nat) (cands : list live_record)
  : option nat * list live_record :=
  match cands with
  | [] => (None, [])
  | c :: rest =>
      if (count c <? 1)%Z
      then let '(found, rest') := attach mention (S i) rest in (found, c :: rest')
      else if bool_decide
                (normalize_mention_text (CandidateRecord.orig_text (record c))
                 = normalize_mention_text mention)
      then (Some i, set_candidates c :: rest)
      else let '(found, rest') := attach mention (S i) rest in (found, c :: rest')
  end.

Module Document.

Record t : Type := mk {
  document_id : nat;
  annotations : list (list AnnotationRecord.t);
  current_annotation : list AnnotationRecord.t
}.

(** [Document(document_id)] *)
Definition init (document_id : nat) : t := mk document_id [] [].

Definition flush_current_annotation (d : t) : t :=
  mk (document_id d) (annotations d ++ [current_annotation d])%list [].

(** [document.add_annotation(line, candidates)]: the document and the
    candidate records afterwards. *)
Definition add_annotation (d : t) (candidates : list live_record)
    (line : string) : t * list live_record :=
  if negb (truthy (strip line))
     || (length (split_char (ascii_of_N 9) line) <? 3)%nat
  then (flush_current_annotation d, candidates)
  else
    let ar := AnnotationRecord.init line in
    let '(found, candidates') :=
      match AnnotationRecord.full_mention ar with
      | Some mention => attach mention 0 candidates
      | None => (None, candidates)
      end in
    let ar' :=
      match found with
      | Some i => AnnotationRecord.with_candidates i ar
      | None => ar
      end in
    (mk (document_id d) (annotations d) (current_annotation d ++ [ar'])%list,
     candidates').

End Document.

(** *** [load_dataset] *)

Definition TRAIN_START_LINE : string := "-SPLITSTART- train".
Definition TESTA_START_LINE : string := "-SPLITSTART- testa".
Definition TESTB_START_LINE : string := "-SPLITSTART- testb".

(** The state of the loop of [load_dataset].  A document that is being
    read goes with the candidate records of its file. *)
Record loader : Type := mk_loader {
  split_lists : list (list (Document.t * list live_record));
  current_document : option (Document.t * list live_record);
  data_split_id : Z;
  last_document_id : nat
}.

(** [annotations[data_split_id].append(current_document)] on a list of
    three lists: [-1] is the last one, and an index from 3 on raises. *)
Definition list_index (n : nat) (i : Z) : result nat :=
  if (0 <=? i)%Z && (i <? Z.of_nat n)%Z then Ok (Z.to_nat i)
  else if (i <? 0)%Z && (- Z.of_nat n <=? i)%Z then Ok (Z.to_nat (Z.of_nat n + i))
  else Raise IndexError.

Definition file_document (st : loader) (d : Document.t * list live_record)
  : result (list (list (Document.t * list live_record))) :=
  i <-- list_index (length (split_lists st)) (data_split_id st) ;;
  Ok (alter (fun l => l ++ [d])%list i (split_lists st)).

(** [multinerd_candidates_zip.read(name)] for the file of a document, and
    [get_candidates] on it; [zip] gives the decoded contents of the member
    for a document id, if the archive has it. *)
Definition read_candidates (zip : nat -> option string) (document_id : nat)
  : result (list live_record) :=
  match zip document_id with
  | None => Raise KeyError
  | Some contents =>
      records <-- get_candidates contents ;;
      Ok (map load_record records)
  end.

Definition is_split_start (line : string) : bool :=
  bool_decide (line = TRAIN_START_LINE) || bool_decide (line = TESTA_START_LINE)
  || bool_decide (line = TESTB_START_LINE).

(** The body of [for ind, line in enumerate(data_file)]. *)
Definition load_line (zip : nat -> option string) (st : loader)
    (raw_line : string) : result loader :=
  let line := strip raw_line in
  if is_split_start line then
    Ok (mk_loader (split_lists st) (current_document st)
          (data_split_id st + 1) (last_document_id st))
  else if String.prefix "-DOCSTART-" line then
    st1 <-- match current_document st with
            | Some d =>
                lists <-- file_document st d ;;
                Ok (mk_loader lists (current_document st) (data_split_id st)
                      (S (last_document_id st)))
            | None => Ok st
            end ;;
    candidates <-- read_candidates zip (last_document_id st1) ;;
    Ok (mk_loader (split_lists st1)
          (Some (Document.init (last_document_id st1), candidates))
          (data_split_id st1) (last_document_id st1))
  else
    match current_document st with
    | None => Raise AttributeError
    | Some (d, candidates) =>
        Ok (mk_loader (split_lists st)
              (Some (Document.add_annotation d candidates line))
              (data_split_id st) (last_document_id st))
    end.

(** [load_dataset]: the lists of the documents of train, testa and
    testb. *)
Definition load_dataset (zip : nat -> option string) (lines : list string)
  : result (list (list (Document.t * list live_record))) :=
  st <-- for_each (load_line zip) lines (mk_loader [[]; []; []] None (-1) 0) ;;
  match current_document st with
  | Some d => file_document st d
  | None => Ok (split_lists st)
  end.

(** *** Reference definitions for the loader *)

(** The texts of the values that count as true. *)
Definition texts (t : list (option string)) : list string :=
  omap (fun v => if truthy_value v then v else None) t.

(** The string ends with a bar. *)
Definition ends_with_bar (s : string) : bool :=
  match last_char s with
  | Ok c => Ascii.eqb c "|"
  | Raise _ => false
  end.

(** Every text followed by a bar. *)
Fixpoint barred (l : list string) : string :=
  match l with
  | [] => ""
  | x :: l' => x +:+ "|" +:+ barred l'
  end.

(** The lines of a document read one after the other. *)
Definition add_annotations (st : Document.t * list live_record)
    (lines : list string) : Document.t * list live_record :=
  fold_left (fun st line => Document.add_annotation st.1 st.2 line) lines st.

(** The annotation records of a document, flushed or not, and the number
    of those that refer to the candidate record at position [i]. *)
Definition records_of (d : Document.t) : list AnnotationRecord.t :=
  (concat (Document.annotations d) ++ Document.current_annotation d)%list.

Definition refers_to (i : nat) (ar : AnnotationRecord.t) : bool :=
  bool_decide (AnnotationRecord.candidates ar = Some i).

Definition attached (i : nat) (d : Document.t) : nat :=
  length (List.filter (refers_to i) (records_of d)).

(** The candidate record can still be attached to the mention. *)
Definition attachable (mention : string) (c : live_record) : bool :=
  (1 <=? count c)%Z
  && bool_decide
       (normalize_mention_text (CandidateRecord.orig_text (record c))
        = normalize_mention_text mention).

(** *** The layout of a corpus file *)

(** A line that starts a split, a line that starts a document, and any
    other line, as [load_dataset] tells them apart. *)
Definition marker_line (l : string) : Prop :=
  is_split_start (strip l) = true.

Definition docstart_line (l : string) : Prop :=
  String.prefix "-DOCSTART-" (strip l) = true.

Definition plain_line (l : string) : Prop :=
  is_split_start (strip l) = false
  /\ String.prefix "-DOCSTART-" (strip l) = false.

(** A document of the file: the line that starts it and the lines up to
    the next document or split. *)
Definition file_doc : Type := string * list string.

Definition well_formed (d : file_doc) : Prop :=
  docstart_line d.1 /\ Forall plain_line d.2.

Definition doc_lines (docs : list file_doc) : list string :=
  flat_map (fun d => d.1 :: d.2) docs.

(** The candidate records of the file of a document (none when the file
    cannot be read), and the document with the given id and lines. *)
Definition candidates_of (zip : nat -> option string) (document_id : nat)
  : list live_record :=
  match read_candidates zip document_id with
  | Ok candidates => candidates
  | Raise _ => []
  end.

Definition load_document (zip : nat -> option string) (document_id : nat)
    (body : list string) : Document.t * list live_record :=
  add_annotations (Document.init document_id, candidates_of zip document_id)
    (map strip body).

(** The documents of the file, numbered from [first] on. *)
Definition load_documents (zip : nat -> option string) (first : nat)
    (docs : list file_doc) : list (Document.t * list live_record) :=
  imap (fun k d => load_document zip (first + k) d.2) docs.

(** Every candidates file from [first] on, [n] of them, can be read. *)
Definition readable (zip : nat -> option string) (first n : nat) : Prop :=
  forall k, (first <= k < first + n)%nat ->
            exists candidates, read_candidates zip k = Ok candidates.

(** The lines of a corpus of three splits. *)
Definition corpus_lines (m1 m2 m3 : string) (train testa testb : list file_doc)
  : list string :=
  (m1 :: doc_lines train ++ m2 :: doc_lines testa ++ m3 :: doc_lines testb)%list.

(** A line that closes the current group of annotation records: a blank
    line or a line of fewer than three columns. *)
Definition is_break (line : string) : bool :=
  negb (truthy (strip line))
  || (length (split_char (ascii_of_N 9) line) <? 3)%nat.

(** An annotation record without its reference to a candidate record. *)
Definition without_candidates (ar : AnnotationRecord.t) : AnnotationRecord.t :=
  AnnotationRecord.mk (AnnotationRecord.token ar)
    (AnnotationRecord.begin_inside_tag ar) (AnnotationRecord.full_mention ar)
    (AnnotationRecord.mn_entity ar) (AnnotationRecord.wikipedia_url ar)
    (AnnotationRecord.wikipedia_id ar) (AnnotationRecord.freebase_mid ar) None.

(** *** A corpus file of three documents and its candidate files *)

Definition amsterdam_line : string :=
  "Amsterdam" +:+ tab +:+ "B-LOC" +:+ tab +:+ "Amsterdam" +:+ tab
  +:+ "Amsterdam" +:+ tab +:+ "https://nl.wikipedia.org/wiki/Amsterdam"
  +:+ tab +:+ "5042" +:+ tab +:+ "/m/0k3p".

Definition rotterdam_line : string :=
  "Rotterdam" +:+ tab +:+ "B-LOC" +:+ tab +:+ "Rotterdam" +:+ tab
  +:+ "Rotterdam" +:+ tab +:+ "https://nl.wikipedia.org/wiki/Rotterdam"
  +:+ tab +:+ "2747" +:+ tab +:+ "/m/06hdk".

Definition amsterdam_doc : file_doc := ("-DOCSTART- (1)", [amsterdam_line; ""]).
Definition rotterdam_doc : file_doc := ("-DOCSTART- (2)", [rotterdam_line; ""]).
Definition empty_doc : file_doc := ("-DOCSTART- (3)", []).

(** The candidate files of the three documents, as the exporter writes
    them for the two cities. *)
Definition two_city_zip (document_id : nat) : option string :=
  match document_id with
  | 0 => Some (file_contents
                 (entity_block elements two_city_entities resolved_store
                    "amsterdam"))
  | 1 => Some (file_contents
                 (entity_block elements two_city_entities resolved_store
                    "rotterdam"))
  | 2 => Some ""
  | _ => None
  end.

Definition amsterdam_record : CandidateRecord.t :=
  CandidateRecord.parse
    (entity_line (Ent.mk "Amsterdam" "https://nl.wikipedia.org/wiki/Amsterdam"
                    "Amsterdam" "/m/0k3p" "5042" [])).

(** * Properties *)

(** ** Python lists and strings *)

Lemma index_cons_0 {A} (x : A) l : index (x :: l) 0 = Ok x.
Proof. reflexivity. Qed.

Lemma index_cons_S {A} (x : A) l n : index (x :: l) (S n) = index l n.
Proof. reflexivity. Qed.

Lemma index_nil {A} n : index (@nil A) n = Raise IndexError.
Proof. reflexivity. Qed.

Lemma rbind_Ok {A B} (a : A) (k : A -> result B) : rbind (Ok a) k = k a.
Proof. reflexivity. Qed.

Lemma rbind_Raise {A B} e (k : A -> result B) : rbind (Raise e) k = Raise e.
Proof. reflexivity. Qed.

Ltac run_index :=
  repeat first
    [ rewrite index_cons_S | rewrite index_cons_0 | rewrite index_nil
    | rewrite rbind_Ok | rewrite rbind_Raise ].

Lemma index_split_char_0 sep s :
  index (split_char sep s) 0 = Ok (before_char sep s).
Proof.
  induction s as [|c s IH]; simpl; [done|].
  destruct (Ascii.eqb c sep); [done|].
  unfold index in IH. destruct (split_char sep s) as [|h t]; simpl in *.
  - discriminate.
  - by inversion IH.
Qed.

Lemma index_split_char_1 sep s :
  contains_char sep s = true ->
  index (split_char sep s) 1 = Ok (before_char sep (after_char sep s)).
Proof.
  unfold contains_char.
  induction s as [|c s IH]; simpl; [done|].
  rewrite Ascii.eqb_sym.
  destruct (Ascii.eqb c sep) eqn:E; intros H.
  - unfold index. simpl. pose proof (index_split_char_0 sep s) as H0.
    unfold index in H0. by destruct (split_char sep s).
  - specialize (IH H). unfold index in *.
    destruct (split_char sep s) as [|h t] eqn:Es; simpl in *; [done|].
    exact IH.
Qed.

Lemma lower_before_paren s :
  lower (before_char "(" s) = before_char "(" (lower s).
Proof.
  induction s as [|c s IH]; simpl; [done|].
  destruct (Ascii.eqb c "(") eqn:E.
  - apply Ascii.eqb_eq in E. subst c. done.
  - assert (Ascii.eqb (lower_char c) "(" = false) as ->.
    { revert E. destruct c as [[] [] [] [] [] [] [] []]; vm_compute; congruence. }
    simpl. by rewrite IH.
Qed.

Lemma entity_dictname_spec s : entity_dictname s = Ok (normalize_spec s).
Proof.
  unfold entity_dictname, normalize_spec.
  rewrite index_split_char_0. simpl. by rewrite lower_before_paren.
Qed.

(** ** Entity Table Builder *)

Lemma is_gold_mention_total row : exists b, is_gold_mention row = Ok b.
Proof.
  unfold is_gold_mention.
  destruct (4 <? length row)%nat eqn:E; [|eauto].
  destruct row as [|a [|b row]]; simpl in E; try discriminate.
  run_index. rewrite index_split_char_0. run_index. eauto.
Qed.

(** A row of four fields or fewer is passed over. *)
Lemma extract_entities_row_short entities row :
  length row <= 4 -> extract_entities_row entities row = Ok entities.
Proof.
  intros Hlen. unfold extract_entities_row, is_gold_mention.
  destruct (4 <? length row)%nat eqn:E; [|done].
  apply Nat.ltb_lt in E. lia.
Qed.

(** One iteration of the loop of [extract_entities], case by case. *)
Lemma extract_entities_row_cases entities row :
  extract_entities_row entities row =
  match mention_key row with
  | None => Ok entities
  | Some key =>
      if decide (key ∈ dom entities) then Ok entities
      else match row_record row with
           | Some e => Ok (<[key := e]> entities)
           | None => Raise IndexError
           end
  end.
Proof.
  unfold extract_entities_row, mention_key.
  destruct (is_gold_mention_total row) as [gold Hg]. rewrite Hg. simpl.
  destruct gold; [|done].
  assert (4 < length row) as Hlen.
  { unfold is_gold_mention in Hg.
    destruct (4 <? length row)%nat eqn:E; [by apply Nat.ltb_lt|discriminate]. }
  destruct row as [|f0 [|f1 [|f2 [|f3 [|f4 row]]]]]; simpl in Hlen; try lia.
  run_index. rewrite entity_dictname_spec. run_index.
  destruct (decide (normalize_spec f2 ∈ dom entities)); [done|].
  destruct row as [|f5 [|f6 row]]; run_index; done.
Qed.

Lemma extract_entities_from rows : forall start entities key,
  for_each extract_entities_row rows start = Ok entities ->
  entities !! key =
  match start !! key with
  | Some e => Some e
  | None => first_mention key rows ≫= row_record
  end.
Proof.
  induction rows as [|row rows IH]; intros start entities key Hrun.
  - simpl in Hrun. inversion Hrun. subst. by destruct (entities !! key).
  - simpl in Hrun. rewrite extract_entities_row_cases in Hrun.
    unfold first_mention. simpl. fold (first_mention key rows).
    destruct (mention_key row) as [k|] eqn:Hk.
    + destruct (decide (k ∈ dom start)) as [Hin|Hnin].
      * simpl in Hrun. rewrite (IH _ _ key Hrun).
        destruct (start !! key) eqn:Hs; [done|].
        rewrite bool_decide_eq_false_2; [done|].
        intros [= ->]. apply elem_of_dom in Hin. rewrite Hs in Hin.
        by destruct Hin.
      * destruct (row_record row) as [e|] eqn:Hr; [|discriminate].
        simpl in Hrun. rewrite (IH _ _ key Hrun).
        destruct (decide (k = key)) as [->|Hne].
        -- rewrite lookup_insert_eq.
           apply not_elem_of_dom in Hnin. rewrite Hnin.
           rewrite bool_decide_eq_true_2; [|done]. simpl. by rewrite Hr.
        -- rewrite lookup_insert_ne; [|done].
           rewrite bool_decide_eq_false_2; [done|congruence].
    + simpl in Hrun. rewrite (IH _ _ key Hrun).
      rewrite bool_decide_eq_false_2; [done|congruence].
Qed.

(** C7: the entity key is the name with its spaces removed, lower-cased and
    cut at the first opening parenthesis, so that the name
    Lionel Messi (footballer) is filed under lionelmessi; a gold mention
    whose key is already in the table leaves the table as it is; and the
    table built from a corpus holds, under every key, the record of the
    first gold mention with that key and nothing of the later ones. *)
Theorem C7_entity_key_first_occurrence_wins :
  entity_dictname "Lionel Messi (footballer)" = Ok "lionelmessi"
  /\ (forall field, entity_dictname field = Ok (normalize_spec field))
  /\ (forall entities row key,
        mention_key row = Some key -> key ∈ dom entities ->
        extract_entities_row entities row = Ok entities)
  /\ (forall rows entities key,
        extract_entities rows = Ok entities ->
        entities !! key = first_mention key rows ≫= row_record).
Proof.
  split; [reflexivity|]. split; [apply entity_dictname_spec|]. split.
  - intros entities row key Hk Hin.
    rewrite extract_entities_row_cases, Hk.
    by destruct (decide (key ∈ dom entities)).
  - intros rows entities key Hrun.
    unfold extract_entities in Hrun.
    rewrite (extract_entities_from _ _ _ key Hrun). by rewrite lookup_empty.
Qed.

Lemma C7_first_occurrence_witness :
  extract_entities [messi_first; messi_again]
  = Ok {["lionelmessi" := messi_record]}
  /\ ({["lionelmessi" := messi_record]} : gmap string Ent.t) !! "lionelmessi"
     = first_mention "lionelmessi" [messi_first; messi_again] ≫= row_record.
Proof.
  split.
  - vm_compute. reflexivity.
  - apply (proj2 (proj2 (proj2 C7_entity_key_first_occurrence_wins))).
    vm_compute. reflexivity.
Defined.

(** C3: a gold mention of five fields passes the length test of
    [extract_entities] and is not passed over: the read of the seventh
    field raises [IndexError]; a gold mention of six fields fails the same
    way. *)
Theorem C3_short_gold_row_raises :
  length short_gold_row = 5
  /\ is_gold_mention short_gold_row = Ok true
  /\ extract_entities [short_gold_row] = Raise IndexError
  /\ length six_field_gold_row = 6
  /\ extract_entities [six_field_gold_row] = Raise IndexError.
Proof.
  split; [reflexivity|]. split; [vm_compute; reflexivity|].
  split; [vm_compute; reflexivity|]. split; [reflexivity|].
  vm_compute; reflexivity.
Qed.

(** ** Insertion-ordered dictionaries *)

Section odict_facts.
Context {V : Type}.
Implicit Types (d : odict V) (k : string) (v : V).

Lemma odict_mem_get k d : ODict.mem k d = true <-> is_Some (ODict.get k d).
Proof.
  unfold ODict.mem. destruct (ODict.get k d); split; intros H; try done.
Qed.

Lemma odict_get_keys k d : is_Some (ODict.get k d) <-> k ∈ ODict.keys d.
Proof.
  induction d as [|[k' v] d IH]; simpl.
  - split; [by intros [? ?]|by intros ?%elem_of_nil].
  - destruct (decide (k = k')) as [->|Hne].
    + split; [intros _; left|by eexists].
    + rewrite IH. split; [by right|].
      intros [?|?]%elem_of_cons; [done|done].
Qed.

Lemma odict_get_alter f k k' d :
  ODict.get k (ODict.alter f k' d)
  = if decide (k = k') then f <$> ODict.get k d else ODict.get k d.
Proof.
  induction d as [|[k0 v] d IH]; simpl; [by case_decide|].
  destruct (decide (k' = k0)) as [->|Hne]; simpl;
    destruct (decide (k = k0)) as [->|Hne']; simpl; try done;
    rewrite ?IH; repeat case_decide; congruence.
Qed.

Lemma odict_keys_alter f k d : ODict.keys (ODict.alter f k d) = ODict.keys d.
Proof.
  induction d as [|[k0 v] d IH]; simpl; [done|].
  destruct (decide (k = k0)); simpl; [done|]. by f_equal.
Qed.

Lemma odict_get_set k k' v d :
  ODict.get k (ODict.set k' v d)
  = if decide (k = k') then Some v else ODict.get k d.
Proof.
  induction d as [|[k0 v0] d IH]; simpl; [by case_decide|].
  destruct (decide (k' = k0)) as [->|Hne]; simpl;
    destruct (decide (k = k0)) as [->|Hne']; simpl; try done;
    rewrite ?IH; repeat case_decide; congruence.
Qed.

Lemma odict_keys_set k v d :
  ODict.keys (ODict.set k v d)
  = if ODict.mem k d then ODict.keys d else (ODict.keys d ++ [k])%list.
Proof.
  unfold ODict.mem.
  induction d as [|[k0 v0] d IH]; simpl; [done|].
  destruct (decide (k = k0)) as [->|Hne]; simpl; [done|].
  rewrite IH. by destruct (ODict.get k d).
Qed.

Lemma odict_keys_del k d :
  ODict.keys (ODict.del k d) ⊆ ODict.keys d.
Proof.
  induction d as [|[k0 v0] d IH]; simpl; [done|].
  destruct (decide (k = k0)); simpl.
  - intros x Hx. by right.
  - intros x [->|Hx]%elem_of_cons; [left|right; by apply IH].
Qed.

Lemma odict_NoDup_del k d :
  NoDup (ODict.keys d) -> NoDup (ODict.keys (ODict.del k d)).
Proof.
  induction d as [|[k0 v0] d IH]; simpl; [done|].
  intros [Hnin Hnd]%NoDup_cons.
  destruct (decide (k = k0)); simpl; [done|].
  apply NoDup_cons. split; [|by apply IH].
  intros Hin. apply Hnin. by apply (odict_keys_del k d).
Qed.

Lemma odict_get_del k k' d :
  NoDup (ODict.keys d) ->
  ODict.get k (ODict.del k' d)
  = if decide (k = k') then None else ODict.get k d.
Proof.
  induction d as [|[k0 v0] d IH]; simpl; [by case_decide|].
  intros [Hnin Hnd]%NoDup_cons.
  destruct (decide (k' = k0)) as [->|Hne]; simpl;
    destruct (decide (k = k0)) as [->|Hne']; simpl; try done.
  - destruct (ODict.get k0 d) eqn:E; [|done].
    exfalso. apply Hnin. apply odict_get_keys. by eexists.
  - by rewrite decide_False by congruence.
  - by apply IH.
Qed.

Lemma odict_NoDup_set k v d :
  NoDup (ODict.keys d) -> NoDup (ODict.keys (ODict.set k v d)).
Proof.
  intros Hnd. rewrite odict_keys_set.
  destruct (ODict.mem k d) eqn:E; [done|].
  apply NoDup_app. split; [done|]. split; [|apply NoDup_singleton].
  intros x Hx ->%list_elem_of_singleton.
  apply odict_get_keys in Hx. apply odict_mem_get in Hx. congruence.
Qed.

End odict_facts.

(** ** Candidate Miner *)

Lemma truthy_nonempty s : truthy s = true <-> s ≠ "".
Proof. destruct s; simpl; split; congruence. Qed.

Lemma alias_test (names : gset string) alias :
  truthy alias && bool_decide (alias_key alias ∈ names)
  = bool_decide (alias ≠ "" ∧ alias_key alias ∈ names).
Proof.
  destruct alias as [|c alias]; cbn [truthy andb].
  - symmetry. apply bool_decide_eq_false_2. by intros [? _].
  - apply bool_decide_ext. split; [by intros ?|by intros [_ ?]].
Qed.

(** The alias loop adds the candidate of the first alias that is not empty
    and is known, under the name of the link, and nothing otherwise. *)
Lemma try_aliases_spec (names : gset string) line group aliases d :
  search_link line = Some group ->
  try_aliases names line aliases d
  = Ok (record_match (first_nonempty_known names aliases) group d).
Proof.
  intros Hs. induction aliases as [|[alias|] aliases IH]; simpl; [done| |done].
  rewrite alias_test.
  destruct (bool_decide (alias ≠ "" ∧ alias_key alias ∈ names)); [|done].
  rewrite Hs, index_split_char_0. reflexivity.
Qed.

Lemma mine_line_try_spec (names : gset string) line d :
  mine_line_try names line d
  = Ok match search_link line with
       | Some group =>
           record_match (first_nonempty_known names (link_aliases group)) group d
       | None => d
       end.
Proof.
  unfold mine_line_try. destruct (search_link line) as [group|] eqn:Hs; [|done].
  rewrite index_split_char_0. run_index.
  unfold link_aliases, link_alias_1, link_name, link_alias_2.
  destruct (contains_char "|" group) eqn:Hc.
  - rewrite (index_split_char_1 _ _ Hc). run_index.
    rewrite index_split_char_0. run_index.
    rewrite index_split_char_0. run_index.
    by apply try_aliases_spec.
  - run_index. rewrite index_split_char_0. run_index.
    by apply try_aliases_spec.
Qed.

(** The [try] of a line never raises, so the handler never runs: a line is
    settled by its first bracketed link alone. *)
Lemma mine_line_spec (names : gset string) d raw :
  mine_line names d raw
  = Ok match search_link (strip raw) with
       | Some group =>
           record_match (first_nonempty_known names (link_aliases group)) group d
       | None => d
       end.
Proof. unfold mine_line. by rewrite mine_line_try_spec. Qed.

Lemma add_candidate_keys entity_key candidate d :
  ODict.keys (add_candidate entity_key candidate d)
  = if ODict.mem candidate d then ODict.keys d
    else (ODict.keys d ++ [candidate])%list.
Proof.
  unfold add_candidate. destruct (ODict.mem candidate d) eqn:E.
  - apply odict_keys_alter.
  - by rewrite odict_keys_set, E.
Qed.

Lemma add_candidate_NoDup entity_key candidate d :
  NoDup (ODict.keys d) -> NoDup (ODict.keys (add_candidate entity_key candidate d)).
Proof.
  intros Hnd. unfold add_candidate. destruct (ODict.mem candidate d) eqn:E.
  - by rewrite odict_keys_alter.
  - by apply odict_NoDup_set.
Qed.

Lemma add_candidate_other entity_key candidate d k :
  k ≠ candidate ->
  ODict.get k (add_candidate entity_key candidate d) = ODict.get k d.
Proof.
  intros Hne. unfold add_candidate. destruct (ODict.mem candidate d).
  - by rewrite odict_get_alter, decide_False.
  - by rewrite odict_get_set, decide_False.
Qed.

Lemma add_candidate_known entity_key candidate d c :
  ODict.get candidate d = Some c ->
  ODict.get candidate (add_candidate entity_key candidate d)
  = Some (Cand.set_references ({[entity_key]} ∪ Cand.references c) c).
Proof.
  intros Hc. unfold add_candidate, ODict.mem. rewrite Hc.
  by rewrite odict_get_alter, decide_True, Hc.
Qed.

Lemma add_candidate_mem entity_key candidate d :
  ODict.mem candidate (add_candidate entity_key candidate d) = true.
Proof.
  apply odict_mem_get. unfold add_candidate.
  destruct (ODict.mem candidate d) eqn:E.
  - apply odict_mem_get in E. destruct E as [c Hc].
    rewrite odict_get_alter, decide_True, Hc by done. by eexists.
  - rewrite odict_get_set, decide_True by done. by eexists.
Qed.

Lemma record_match_NoDup found group d :
  NoDup (ODict.keys d) -> NoDup (ODict.keys (record_match found group d)).
Proof. destruct found; simpl; [apply add_candidate_NoDup|done]. Qed.

Lemma mine_lines_NoDup (names : gset string) lines : forall d,
  NoDup (ODict.keys d) ->
  exists d', for_each (mine_line names) lines d = Ok d' /\ NoDup (ODict.keys d').
Proof.
  induction lines as [|raw lines IH]; intros d Hnd; simpl; [by eauto|].
  rewrite mine_line_spec. run_index. apply IH.
  destruct (search_link (strip raw)); [by apply record_match_NoDup|done].
Qed.

Lemma set_references_same v c : same_but_references c (Cand.set_references v c).
Proof. by repeat split. Qed.

Lemma table_with_empty_key_built :
  extract_entities [parenthesis_row; amsterdam_row] = Ok table_with_empty_key.
Proof. vm_compute. reflexivity. Qed.

Lemma entity_names_singleton key e :
  entity_names_of {[key := e]} = {[alias_key key]}.
Proof.
  unfold entity_names_of. rewrite dom_singleton_L. apply set_map_singleton_L.
Qed.

(** C6, as the miner is written: a line with a bracketed link is settled by
    the first of name, alias_1, alias_2 that is not empty and whose
    normalisation is a known entity key, and the candidate is recorded under
    the name of the link with that key as reference; a line adds at most one
    candidate to the map; and with the entity table of key amsterdam the line
    The city [[Amsterdam|capital]] is busy creates one candidate, named
    Amsterdam, whose references are the set of amsterdam alone. *)
Theorem C6_first_nonempty_known_alias_wins :
  (forall (names : gset string) d raw group,
      search_link (strip raw) = Some group ->
      mine_line names d raw
      = Ok (record_match (first_nonempty_known names (link_aliases group))
              group d))
  /\ (forall (names : gset string) d raw,
        exists d',
          mine_line names d raw = Ok d'
          /\ (ODict.keys d' = ODict.keys d
              \/ exists candidate,
                   ODict.keys d' = (ODict.keys d ++ [candidate])%list))
  /\ (forall e,
        exists c,
          extract_candidates ["The city [[Amsterdam|capital]] is busy"]
            {["amsterdam" := e]}
          = Ok [("Amsterdam", c)]
          /\ Cand.name c = "Amsterdam"
          /\ Cand.references c = {["amsterdam"]}).
Proof.
  split; [|split].
  - intros names d raw group Hs. by rewrite mine_line_spec, Hs.
  - intros names d raw. rewrite mine_line_spec. eexists. split; [done|].
    destruct (search_link (strip raw)) as [group|]; [|by left].
    destruct (first_nonempty_known names (link_aliases group)) as [alias|];
      simpl; [|by left].
    rewrite add_candidate_keys. destruct (ODict.mem (link_name group) d); eauto.
  - intros e. exists (new_candidate "amsterdam" "Amsterdam").
    split; [|split; reflexivity].
    unfold extract_candidates. rewrite entity_names_singleton.
    vm_compute. reflexivity.
Qed.

Lemma C6_alias_2_witness :
  search_link (strip "[[Amsterdam (stad)|hoofdstad]]")
  = Some "Amsterdam (stad)|hoofdstad"
  /\ mine_line {["amsterdam"]} [] "[[Amsterdam (stad)|hoofdstad]]"
     = Ok (record_match
             (first_nonempty_known {["amsterdam"]}
                (link_aliases "Amsterdam (stad)|hoofdstad"))
             "Amsterdam (stad)|hoofdstad" []).
Proof.
  split.
  - vm_compute. reflexivity.
  - apply (proj1 C6_first_nonempty_known_alias_wins).
    vm_compute. reflexivity.
Defined.

(** C6, as it is worded, fails when the empty string is an entity key: on
    the line [[|Amsterdam]] the name of the link is empty, its
    normalisation is the known key, and yet the miner passes over it and
    files the candidate under the key of alias_1. *)
Lemma C6_empty_alias_counterexample :
  ~ stops_at_first_known (entity_names_of table_with_empty_key) []
      "[[|Amsterdam]]".
Proof.
  intros H.
  specialize (H "|Amsterdam" ltac:(vm_compute; reflexivity)).
  apply (f_equal only_references) in H.
  vm_compute in H. discriminate H.
Qed.

(** C10: when the name of the link does not match and alias_1 or alias_2
    does, the candidate is recorded under the text before the first bar of
    the first bracketed link of the line, stripped: that key is in the map
    afterwards, it is the only key the line can add, the matching alias is a
    different text, and the alias gets no record of its own. *)
Theorem C10_surface_form_is_link_target
    (names : gset string) d raw group alias :
  search_link (strip raw) = Some group ->
  ~ (link_name group ≠ "" /\ alias_key (link_name group) ∈ names) ->
  first_nonempty_known names (link_aliases group) = Some alias ->
  exists d',
    mine_line names d raw = Ok d'
    /\ (link_alias_1 group = Some alias \/ link_alias_2 group = alias)
    /\ ODict.mem (strip (before_char "|" group)) d' = true
    /\ (ODict.keys d' = ODict.keys d
        \/ ODict.keys d'
           = (ODict.keys d ++ [strip (before_char "|" group)])%list)
    /\ alias ≠ strip (before_char "|" group)
    /\ ODict.get alias d' = ODict.get alias d.
Proof.
  intros Hs Hname Hfirst.
  assert ((link_alias_1 group = Some alias \/ link_alias_2 group = alias)
          /\ alias ≠ link_name group) as [Hwhich Hne].
  { unfold link_aliases in Hfirst. simpl in Hfirst.
    rewrite (bool_decide_eq_false_2 _ Hname) in Hfirst.
    assert (forall a, bool_decide (a ≠ "" ∧ alias_key a ∈ names) = true ->
                      a ≠ link_name group) as Hdiff.
    { intros a Ha%bool_decide_eq_true_1 ->. by apply Hname. }
    destruct (link_alias_1 group) as [a1|].
    - destruct (bool_decide (a1 ≠ "" ∧ alias_key a1 ∈ names)) eqn:E1.
      + inversion Hfirst; subst. split; [by left|by apply Hdiff].
      + destruct (bool_decide (link_alias_2 group ≠ "" ∧ _)) eqn:E2;
          [|discriminate].
        inversion Hfirst; subst. split; [by right|by apply Hdiff].
    - destruct (bool_decide (link_alias_2 group ≠ "" ∧ _)) eqn:E2;
        [|discriminate].
      inversion Hfirst; subst. split; [by right|by apply Hdiff]. }
  exists (add_candidate (alias_key alias) (link_name group) d).
  split; [by rewrite mine_line_spec, Hs, Hfirst|].
  split; [done|]. fold (link_name group).
  split; [apply add_candidate_mem|].
  split.
  { rewrite add_candidate_keys. destruct (ODict.mem (link_name group) d); eauto. }
  split; [done|]. by apply add_candidate_other.
Qed.

Lemma C10_alias_2_witness :
  exists d',
    mine_line {["amsterdam"]} [] "Zie [[Amsterdam (stad)|hoofdstad]]." = Ok d'
    /\ (link_alias_1 "Amsterdam (stad)|hoofdstad" = Some "Amsterdam"
        \/ link_alias_2 "Amsterdam (stad)|hoofdstad" = "Amsterdam")
    /\ ODict.mem (strip (before_char "|" "Amsterdam (stad)|hoofdstad")) d' = true
    /\ (ODict.keys d' = ODict.keys ([] : odict Cand.t)
        \/ ODict.keys d'
           = (ODict.keys ([] : odict Cand.t)
              ++ [strip (before_char "|" "Amsterdam (stad)|hoofdstad")])%list)
    /\ "Amsterdam" ≠ strip (before_char "|" "Amsterdam (stad)|hoofdstad")
    /\ ODict.get "Amsterdam" d' = ODict.get "Amsterdam" ([] : odict Cand.t).
Proof.
  apply (C10_surface_form_is_link_target {["amsterdam"]} []
           "Zie [[Amsterdam (stad)|hoofdstad]]."
           "Amsterdam (stad)|hoofdstad" "Amsterdam").
  - vm_compute. reflexivity.
  - intros [_ H]. apply elem_of_singleton in H. vm_compute in H.
    discriminate H.
  - vm_compute. reflexivity.
Defined.

(** The miner always returns, and the keys of its map are pairwise
    distinct. *)
Lemma extract_candidates_NoDup lines entities :
  exists d, extract_candidates lines entities = Ok d /\ NoDup (ODict.keys d).
Proof. apply mine_lines_NoDup. constructor. Qed.

(** C9: the keys of the candidate map stay pairwise distinct throughout the
    miner pass; and a line whose link name is already a key of the map
    leaves the list of keys and every other record as they are, and changes
    the record under that key in its references only, which gain the
    matching entity key when an alias matches. *)
Theorem C9_candidate_key_unique :
  (forall lines entities,
      exists d,
        extract_candidates lines entities = Ok d /\ NoDup (ODict.keys d))
  /\ (forall (names : gset string) d raw group c,
        search_link (strip raw) = Some group ->
        ODict.get (link_name group) d = Some c ->
        exists d' c',
          mine_line names d raw = Ok d'
          /\ ODict.keys d' = ODict.keys d
          /\ (forall k, k ≠ link_name group -> ODict.get k d' = ODict.get k d)
          /\ ODict.get (link_name group) d' = Some c'
          /\ same_but_references c c'
          /\ Cand.references c'
             = match first_nonempty_known names (link_aliases group) with
               | Some alias => {[alias_key alias]} ∪ Cand.references c
               | None => Cand.references c
               end).
Proof.
  split.
  - apply extract_candidates_NoDup.
  - intros names d raw group c Hs Hc.
    rewrite mine_line_spec, Hs.
    destruct (first_nonempty_known names (link_aliases group)) as [alias|];
      simpl.
    + eexists _, _. split; [done|].
      split.
      { rewrite add_candidate_keys. unfold ODict.mem. by rewrite Hc. }
      split; [intros k Hk; by apply add_candidate_other|].
      split; [by apply add_candidate_known|].
      split; [apply set_references_same|done].
    + exists d, c. repeat split; done.
Qed.

Lemma C9_rediscovery_witness :
  search_link (strip "[[Amsterdam|hoofdstad]]") = Some "Amsterdam|hoofdstad"
  /\ ODict.get (link_name "Amsterdam|hoofdstad")
       [("Amsterdam", new_candidate "amsterdam" "Amsterdam")]
     = Some (new_candidate "amsterdam" "Amsterdam")
  /\ exists d' c',
       mine_line {["amsterdam"; "hoofdstad"]}
         [("Amsterdam", new_candidate "amsterdam" "Amsterdam")]
         "[[Amsterdam|hoofdstad]]" = Ok d'
       /\ ODict.keys d'
          = ODict.keys [("Amsterdam", new_candidate "amsterdam" "Amsterdam")]
       /\ (forall k, k ≠ link_name "Amsterdam|hoofdstad" ->
             ODict.get k d'
             = ODict.get k [("Amsterdam", new_candidate "amsterdam" "Amsterdam")])
       /\ ODict.get (link_name "Amsterdam|hoofdstad") d' = Some c'
       /\ same_but_references (new_candidate "amsterdam" "Amsterdam") c'
       /\ Cand.references c'
          = match first_nonempty_known {["amsterdam"; "hoofdstad"]}
                    (link_aliases "Amsterdam|hoofdstad") with
            | Some alias =>
                {[alias_key alias]}
                ∪ Cand.references (new_candidate "amsterdam" "Amsterdam")
            | None => Cand.references (new_candidate "amsterdam" "Amsterdam")
            end.
Proof.
  split; [vm_compute; reflexivity|]. split; [vm_compute; reflexivity|].
  apply (proj2 C9_candidate_key_unique); vm_compute; reflexivity.
Defined.

(** ** Exporter: the ranking *)

Section ranking.
Context {A : Type} (key : A -> nat).

Lemma insert_desc_perm x l : insert_desc key x l ≡ₚ x :: l.
Proof.
  induction l as [|y l IH]; simpl; [done|].
  destruct (key x <? key y)%nat; [|done].
  rewrite IH. apply Permutation_swap.
Qed.

Lemma sorted_reverse_perm l : sorted_reverse key l ≡ₚ l.
Proof.
  induction l as [|x l IH]; simpl; [done|].
  rewrite insert_desc_perm. by rewrite IH.
Qed.

Lemma insert_desc_descending x l :
  descending key l -> descending key (insert_desc key x l).
Proof.
  unfold descending. induction l as [|y l IH]; simpl; intros Hl.
  - repeat constructor.
  - apply StronglySorted_inv in Hl as [Hl Hy].
    destruct (key x <? key y)%nat eqn:E.
    + apply Nat.ltb_lt in E. constructor; [by apply IH|].
      rewrite insert_desc_perm. constructor; [lia|done].
    + apply Nat.ltb_ge in E. constructor; [by constructor|].
      constructor; [done|].
      eapply Forall_impl; [exact Hy|]. simpl. intros; lia.
Qed.

Lemma sorted_reverse_descending l : descending key (sorted_reverse key l).
Proof.
  induction l as [|x l IH]; simpl; [constructor|].
  by apply insert_desc_descending.
Qed.

(** Stability: the elements of one key keep their order. *)
Lemma insert_desc_stable p x l :
  filter (fun a => key a = p) (insert_desc key x l)
  = filter (fun a => key a = p) (x :: l).
Proof.
  induction l as [|y l IH]; simpl; [done|].
  destruct (key x <? key y)%nat eqn:E; [|done].
  apply Nat.ltb_lt in E.
  rewrite filter_cons, IH, !filter_cons.
  destruct (decide (key y = p)), (decide (key x = p)); try done. lia.
Qed.

Lemma sorted_reverse_stable p l :
  filter (fun a => key a = p) (sorted_reverse key l)
  = filter (fun a => key a = p) l.
Proof.
  induction l as [|x l IH]; simpl; [done|].
  by rewrite insert_desc_stable, !filter_cons, IH.
Qed.

Lemma descending_take n l : descending key l -> descending key (take n l).
Proof.
  unfold descending. revert n. induction l as [|x l IH]; intros [|n] Hl;
    simpl; try constructor.
  - apply IH. by apply StronglySorted_inv in Hl as [? _].
  - apply StronglySorted_inv in Hl as [_ Hx].
    apply Forall_take. done.
Qed.

Lemma filter_take_prefix (P : A -> Prop) `{!forall a, Decision (P a)} n l :
  filter P (take n l) `prefix_of` filter P l.
Proof.
  exists (filter P (drop n l)). by rewrite <- filter_app, take_drop.
Qed.

End ranking.

(** ** Exporter: one entity *)

Lemma store_popularity_get l : forall store k,
  ODict.get k (fold_left store_popularity l store)
  = if decide (k ∈ l) then with_popularity <$> ODict.get k store
    else ODict.get k store.
Proof.
  induction l as [|x l IH]; intros store k; cbn [fold_left].
  - rewrite decide_False; [done|]. apply not_elem_of_nil.
  - rewrite IH. unfold store_popularity at 1 2. rewrite odict_get_alter.
    fold with_popularity.
    destruct (decide (k = x)) as [->|Hne].
    + rewrite (decide_True (P := x ∈ x :: l)) by left.
      destruct (decide (x ∈ l)); [|done].
      by destruct (ODict.get x store).
    + destruct (decide (k ∈ l)) as [Hin|Hnin].
      * rewrite decide_True; [done|by right].
      * rewrite decide_False; [done|].
        intros [?|?]%elem_of_cons; done.
Qed.

Lemma popularity_stored l store k c :
  k ∈ l -> ODict.get k store = Some c ->
  popularity_of (fold_left store_popularity l store) k
  = Cand.inCount c + Cand.outCount c.
Proof.
  intros Hin Hc. unfold popularity_of.
  by rewrite store_popularity_get, decide_True, Hc.
Qed.

Lemma candidate_lines_length links_iter store top :
  length (candidate_lines links_iter store top) <= length top.
Proof.
  unfold candidate_lines. induction top as [|k top IH]; simpl; [done|].
  destruct (ODict.get k store); simpl; unfold omap in IH; lia.
Qed.

Lemma candidate_lines_of links_iter l store top :
  (forall k, k ∈ top -> k ∈ l) ->
  (forall k, k ∈ l -> is_Some (ODict.get k store)) ->
  Forall2 (line_of links_iter store) top
    (candidate_lines links_iter (fold_left store_popularity l store) top).
Proof.
  intros Hsub Hall. unfold candidate_lines.
  induction top as [|k top IH]; [constructor|].
  change (omap ?f (k :: top))
    with (match f k with Some y => y :: omap f top | None => omap f top end).
  cbv beta. rewrite store_popularity_get, decide_True by (apply Hsub; left).
  destruct (Hall k) as [c Hc]; [apply Hsub; left|]. rewrite Hc. cbn.
  constructor.
  - by exists c.
  - apply IH. intros k' Hk'. apply Hsub. by right.
Qed.

(** C5: for an entity of the split, the exporter writes the entity line and
    then the candidate lines of a list [top] that is pinned down as
    follows.  With the popularity of a candidate its in-count plus its
    out-count, [top] is the front of a rearrangement [top ++ rest] of all
    candidates of the entity that never increases in popularity and in
    which the candidates of one popularity keep the order they have in the
    entity's list; [top] has 20 candidates, or all of them when the entity
    has fewer, so that the cut comes after the ranking and no candidate left
    out is more popular than one that is written.  At most 20 candidate
    lines are written, and when every candidate of the entity has a record
    in the store, there is one line for every candidate of [top], in the
    order of [top], each the line of the record of its candidate. *)
Theorem C5_top_candidates_ranked links_iter entities st ent e :
  entities !! ent = Some e ->
  exists store' top rest,
    export_entity links_iter entities st ent
    = Ok ((fst st ++ entity_line e :: candidate_lines links_iter store' top)%list,
          store')
    /\ (top ++ rest)%list ≡ₚ Ent.candidates e
    /\ length top = Nat.min 20 (length (Ent.candidates e))
    /\ (forall k c,
          k ∈ Ent.candidates e -> ODict.get k (snd st) = Some c ->
          popularity_of store' k = Cand.inCount c + Cand.outCount c)
    /\ descending (popularity_of store') (top ++ rest)%list
    /\ (forall p,
          filter (fun k => popularity_of store' k = p) (top ++ rest)%list
          = filter (fun k => popularity_of store' k = p) (Ent.candidates e))
    /\ length (candidate_lines links_iter store' top) <= 20
    /\ ((forall k, k ∈ Ent.candidates e -> is_Some (ODict.get k (snd st))) ->
        Forall2 (line_of links_iter (snd st)) top
          (candidate_lines links_iter store' top)).
Proof.
  intros He.
  set (store' := fold_left store_popularity (Ent.candidates e) (snd st)).
  set (ranking := sorted_reverse (popularity_of store') (Ent.candidates e)).
  exists store', (take 20 ranking), (drop 20 ranking).
  rewrite take_drop.
  split; [unfold export_entity; by rewrite He|].
  split; [apply sorted_reverse_perm|].
  split.
  { rewrite length_take. unfold ranking.
    by rewrite (Permutation_length (sorted_reverse_perm _ _)). }
  split; [intros k c; apply popularity_stored|].
  split; [apply sorted_reverse_descending|].
  split; [intros p; apply sorted_reverse_stable|].
  split.
  { etransitivity; [apply candidate_lines_length|].
    rewrite length_take. lia. }
  intros Hall. apply candidate_lines_of; [|done].
  intros k Hk. apply elem_of_take in Hk as (i & Hk & _).
  apply list_elem_of_lookup_2 in Hk.
  by rewrite <- (sorted_reverse_perm (popularity_of store') (Ent.candidates e)).
Qed.

(** ** Link-Graph Counter *)

Lemma odict_mem_keys {V} k (d : odict V) :
  ODict.mem k d = bool_decide (k ∈ ODict.keys d).
Proof.
  destruct (ODict.mem k d) eqn:E; symmetry.
  - apply bool_decide_eq_true_2, odict_get_keys, odict_mem_get, E.
  - apply bool_decide_eq_false_2. intros Hin%odict_get_keys%odict_mem_get.
    congruence.
Qed.

Lemma inCount_of_alter f k d c :
  (forall r, Cand.inCount (f r) = Cand.inCount r) ->
  inCount_of (ODict.alter f k d) c = inCount_of d c.
Proof.
  intros Hf. unfold inCount_of. rewrite odict_get_alter.
  destruct (decide (c = k)); [|done].
  destruct (ODict.get c d); simpl; [apply Hf|done].
Qed.

Lemma outCount_of_alter f k d c :
  (forall r, Cand.outCount (f r) = Cand.outCount r) ->
  outCount_of (ODict.alter f k d) c = outCount_of d c.
Proof.
  intros Hf. unfold outCount_of. rewrite odict_get_alter.
  destruct (decide (c = k)); [|done].
  destruct (ODict.get c d); simpl; [apply Hf|done].
Qed.

Lemma inCount_of_incr target d c :
  target ∈ ODict.keys d ->
  inCount_of (ODict.alter incr_inCount target d) c
  = inCount_of d c + (if decide (target = c) then 1 else 0).
Proof.
  intros [r Hr]%odict_get_keys. unfold inCount_of. rewrite odict_get_alter.
  destruct (decide (c = target)) as [->|Hne].
  - rewrite decide_True, Hr by done. reflexivity.
  - rewrite decide_False by congruence. lia.
Qed.

Lemma outCount_of_incr title d c :
  title ∈ ODict.keys d ->
  outCount_of (ODict.alter incr_outCount title d) c
  = outCount_of d c + (if decide (title = c) then 1 else 0).
Proof.
  intros [r Hr]%odict_get_keys. unfold outCount_of. rewrite odict_get_alter.
  destruct (decide (c = title)) as [->|Hne].
  - rewrite decide_True, Hr by done. reflexivity.
  - rewrite decide_False by congruence. lia.
Qed.

(** One link of the page of [title]. *)
Lemma count_link_spec title d link :
  title ∈ ODict.keys d ->
  exists d',
    count_link title d link = Ok d'
    /\ ODict.keys d' = ODict.keys d
    /\ (forall c, inCount_of d' c = inCount_of d c + in_hits (ODict.keys d) c [link])
    /\ (forall c, outCount_of d' c
                  = outCount_of d c
                    + (if decide (title = c) then out_hits (ODict.keys d) [link]
                       else 0)).
Proof.
  intros Ht. unfold count_link, link_target.
  rewrite index_split_char_0. run_index.
  unfold in_hits, out_hits. rewrite odict_mem_keys.
  destruct (decide (before_char "|" link ∈ ODict.keys d)) as [Hin|Hnin].
  - rewrite bool_decide_eq_true_2 by done. eexists. split; [done|].
    split; [by rewrite !odict_keys_alter|]. split; intros c.
    + rewrite !inCount_of_alter by done. rewrite inCount_of_incr by done.
      f_equal. rewrite filter_cons, filter_nil.
      destruct (decide (before_char "|" link = c)) as [Heq|Hne].
      * rewrite decide_True; [done|]. split; [done|]. by rewrite <- Heq.
      * rewrite decide_False; [done|]. by intros [? _].
    + rewrite outCount_of_alter by done.
      rewrite outCount_of_incr by (by rewrite odict_keys_alter).
      rewrite outCount_of_alter by done. f_equal.
      rewrite filter_cons, filter_nil.
      rewrite (decide_True (P := before_char "|" link ∈ ODict.keys d)) by done.
      reflexivity.
  - rewrite bool_decide_eq_false_2 by done. exists d. split; [done|].
    split; [done|]. split; intros c.
    + rewrite filter_cons, filter_nil, decide_False; [simpl; lia|].
      intros [<- ?]. done.
    + rewrite filter_cons, filter_nil.
      rewrite (decide_False (P := before_char "|" link ∈ ODict.keys d)) by done.
      destruct (decide (title = c)); simpl; lia.
Qed.

Lemma in_hits_cons keys c link links :
  in_hits keys c (link :: links) = in_hits keys c [link] + in_hits keys c links.
Proof.
  unfold in_hits. rewrite !filter_cons, filter_nil.
  destruct (decide (before_char "|" link = c ∧ c ∈ keys)); simpl; lia.
Qed.

Lemma out_hits_cons keys link links :
  out_hits keys (link :: links) = out_hits keys [link] + out_hits keys links.
Proof.
  unfold out_hits. rewrite !filter_cons, filter_nil.
  destruct (decide (before_char "|" link ∈ keys)); simpl; lia.
Qed.

(** All the links of the page of [title]. *)
Lemma count_links_spec title links : forall d,
  title ∈ ODict.keys d ->
  exists d',
    for_each (count_link title) links d = Ok d'
    /\ ODict.keys d' = ODict.keys d
    /\ (forall c, inCount_of d' c = inCount_of d c + in_hits (ODict.keys d) c links)
    /\ (forall c, outCount_of d' c
                  = outCount_of d c
                    + (if decide (title = c) then out_hits (ODict.keys d) links
                       else 0)).
Proof.
  induction links as [|link links IH]; intros d Ht; simpl.
  - exists d. repeat split; try done; intros c; unfold in_hits, out_hits;
      try destruct (decide (title = c)); simpl; lia.
  - destruct (count_link_spec title d link Ht) as (d1 & -> & Hk1 & Hi1 & Ho1).
    run_index.
    destruct (IH d1) as (d2 & -> & Hk2 & Hi2 & Ho2); [by rewrite Hk1|].
    exists d2. split; [done|]. split; [congruence|]. split; intros c.
    + rewrite Hi2, Hi1, Hk1, (in_hits_cons _ _ link links). lia.
    + rewrite Ho2, Ho1, Hk1, (out_hits_cons _ link links).
      destruct (decide (title = c)); lia.
Qed.

(** One page. *)
Lemma count_page_spec d page :
  exists d',
    count_page d page = Ok d'
    /\ ODict.keys d' = ODict.keys d
    /\ (forall c, inCount_of d' c = inCount_of d c + page_in (ODict.keys d) c page)
    /\ (forall c, outCount_of d' c = outCount_of d c + page_out (ODict.keys d) c page).
Proof.
  unfold count_page, page_in, page_out.
  destruct (search_title page) as [title|];
    [|exists d; repeat split; try done; intros; lia].
  rewrite odict_mem_keys.
  destruct (decide (title ≠ "" ∧ title ∈ ODict.keys d)) as [[Hne Hin]|Hno].
  - rewrite (proj2 (truthy_nonempty title) Hne).
    rewrite (bool_decide_eq_true_2 (title ∈ ODict.keys d)) by done.
    rewrite (bool_decide_eq_true_2 (title ≠ "" ∧ _)) by done.
    cbn [andb].
    set (with_id := match search_id page with
                    | Some id =>
                        if truthy id
                        then ODict.alter (Cand.set_id (Some id)) title d
                        else d
                    | None => d
                    end).
    assert (ODict.keys with_id = ODict.keys d) as Hk.
    { unfold with_id. destruct (search_id page) as [id|]; [|done].
      destruct (truthy id); [apply odict_keys_alter|done]. }
    assert (forall c, inCount_of with_id c = inCount_of d c) as Hi.
    { intros c. unfold with_id. destruct (search_id page) as [id|]; [|done].
      destruct (truthy id); [by apply inCount_of_alter|done]. }
    assert (forall c, outCount_of with_id c = outCount_of d c) as Ho.
    { intros c. unfold with_id. destruct (search_id page) as [id|]; [|done].
      destruct (truthy id); [by apply outCount_of_alter|done]. }
    destruct (count_links_spec title (page_links page) with_id)
      as (d' & -> & Hk' & Hi' & Ho'); [by rewrite Hk|].
    exists d'. split; [done|]. split; [congruence|]. split; intros c.
    + by rewrite Hi', Hi, Hk.
    + rewrite Ho', Ho, Hk. f_equal.
      destruct (decide (title = c)) as [->|Hc].
      * by rewrite bool_decide_eq_true_2.
      * rewrite bool_decide_eq_false_2; [done|]. by intros (_ & _ & ?).
  - assert (truthy title && bool_decide (title ∈ ODict.keys d) = false) as ->.
    { destruct (truthy title) eqn:Et; [|done].
      apply truthy_nonempty in Et. cbn [andb].
      apply bool_decide_eq_false_2. intros ?. by apply Hno. }
    rewrite (bool_decide_eq_false_2 (title ≠ "" ∧ _)) by done.
    exists d. repeat split; try done; intros c; try lia.
    rewrite bool_decide_eq_false_2; [lia|].
    intros (? & ? & _). by apply Hno.
Qed.

(** A list of pages. *)
Lemma count_pages_spec pages : forall d,
  exists d',
    for_each count_page pages d = Ok d'
    /\ ODict.keys d' = ODict.keys d
    /\ (forall c, inCount_of d' c
                  = inCount_of d c + sum_list_with (page_in (ODict.keys d) c) pages)
    /\ (forall c, outCount_of d' c
                  = outCount_of d c + sum_list_with (page_out (ODict.keys d) c) pages).
Proof.
  induction pages as [|page pages IH]; intros d; simpl.
  - exists d. repeat split; try done; intros; lia.
  - destruct (count_page_spec d page) as (d1 & -> & Hk1 & Hi1 & Ho1).
    run_index.
    destruct (IH d1) as (d2 & -> & Hk2 & Hi2 & Ho2).
    exists d2. split; [done|]. split; [congruence|]. split; intros c.
    + rewrite Hi2, Hi1, Hk1. lia.
    + rewrite Ho2, Ho1, Hk1. lia.
Qed.

(** The whole pass: it always returns, keeps the keys, and adds to every
    count the contributions of the pages of all shards. *)
Lemma extract_candidates_counts_spec shards : forall d,
  exists d',
    extract_candidates_counts shards d = Ok d'
    /\ ODict.keys d' = ODict.keys d
    /\ (forall c, inCount_of d' c
                  = inCount_of d c
                    + sum_list_with (page_in (ODict.keys d) c) (all_pages shards))
    /\ (forall c, outCount_of d' c
                  = outCount_of d c
                    + sum_list_with (page_out (ODict.keys d) c) (all_pages shards)).
Proof.
  unfold extract_candidates_counts, all_pages.
  induction shards as [|shard shards IH]; intros d; simpl.
  - exists d. repeat split; try done; intros; lia.
  - destruct (count_pages_spec (shard_pages shard) d) as (d1 & -> & Hk1 & Hi1 & Ho1).
    run_index.
    destruct (IH d1) as (d2 & -> & Hk2 & Hi2 & Ho2).
    exists d2. split; [done|]. split; [congruence|].
    split; intros c; rewrite sum_list_with_app.
    + rewrite Hi2, Hi1, Hk1. lia.
    + rewrite Ho2, Ho1, Hk1. lia.
Qed.

Lemma inCount_of_set k v d c :
  inCount_of (ODict.set k v d) c
  = if decide (c = k) then Cand.inCount v else inCount_of d c.
Proof. unfold inCount_of. rewrite odict_get_set. by destruct (decide (c = k)). Qed.

Lemma outCount_of_set k v d c :
  outCount_of (ODict.set k v d) c
  = if decide (c = k) then Cand.outCount v else outCount_of d c.
Proof. unfold outCount_of. rewrite odict_get_set. by destruct (decide (c = k)). Qed.

(** The miner creates every candidate with both counts at zero. *)
Lemma add_candidate_zero entity_key candidate d :
  (forall c, inCount_of d c = 0 /\ outCount_of d c = 0) ->
  forall c, inCount_of (add_candidate entity_key candidate d) c = 0
            /\ outCount_of (add_candidate entity_key candidate d) c = 0.
Proof.
  intros Hz c. unfold add_candidate. destruct (ODict.mem candidate d).
  - rewrite inCount_of_alter, outCount_of_alter by done. apply Hz.
  - rewrite inCount_of_set, outCount_of_set.
    destruct (decide (c = candidate)); [done|apply Hz].
Qed.

Lemma mine_lines_zero (names : gset string) lines : forall d d',
  (forall c, inCount_of d c = 0 /\ outCount_of d c = 0) ->
  for_each (mine_line names) lines d = Ok d' ->
  forall c, inCount_of d' c = 0 /\ outCount_of d' c = 0.
Proof.
  induction lines as [|raw lines IH]; intros d d' Hz Hrun;
    cbn [for_each] in Hrun.
  - by inversion Hrun; subst.
  - rewrite mine_line_spec, rbind_Ok in Hrun.
    eapply IH; [|exact Hrun].
    destruct (search_link (strip raw)) as [group|]; [|exact Hz].
    destruct (first_nonempty_known names (link_aliases group));
      unfold record_match; [|exact Hz].
    by apply add_candidate_zero.
Qed.

Lemma extract_candidates_zero lines entities d :
  extract_candidates lines entities = Ok d ->
  forall c, inCount_of d c = 0 /\ outCount_of d c = 0.
Proof. apply mine_lines_zero. intros c. done. Qed.

(** C1, as the counter is written: after the pass over every shard, the
    in-count of a candidate is the number of link occurrences, over the
    pages whose title is a non-empty candidate key, of kept links whose
    target (the text before any bar) is that candidate, and its out-count
    is the number of link occurrences on the pages titled as the candidate
    whose target is a candidate key.  A link on a page whose title is not a
    candidate is not counted. *)
Theorem C1_counts_of_candidate_pages lines entities shards d :
  extract_candidates lines entities = Ok d ->
  exists d',
    extract_candidates_counts shards d = Ok d'
    /\ ODict.keys d' = ODict.keys d
    /\ forall c r,
         ODict.get c d' = Some r ->
         Cand.inCount r
         = sum_list_with (page_in (ODict.keys d) c) (all_pages shards)
         /\ Cand.outCount r
            = sum_list_with (page_out (ODict.keys d) c) (all_pages shards).
Proof.
  intros Hmine.
  destruct (extract_candidates_counts_spec shards d) as (d' & Hrun & Hk & Hi & Ho).
  exists d'. split; [done|]. split; [done|].
  intros c r Hr.
  destruct (extract_candidates_zero _ _ _ Hmine c) as [Hi0 Ho0].
  specialize (Hi c). specialize (Ho c).
  unfold inCount_of in Hi at 1. unfold outCount_of in Ho at 1.
  rewrite Hr in Hi, Ho. lia.
Qed.

Lemma C1_scenario_witness :
  extract_candidates two_city_lines two_city_table
  = Ok [("Amsterdam", new_candidate "amsterdam" "Amsterdam");
        ("Rotterdam", new_candidate "rotterdam" "Rotterdam")]
  /\ exists d',
       extract_candidates_counts [amsterdam_shard; utrecht_shard]
         [("Amsterdam", new_candidate "amsterdam" "Amsterdam");
          ("Rotterdam", new_candidate "rotterdam" "Rotterdam")]
       = Ok d'
       /\ ODict.keys d'
          = ODict.keys [("Amsterdam", new_candidate "amsterdam" "Amsterdam");
                        ("Rotterdam", new_candidate "rotterdam" "Rotterdam")]
       /\ forall c r,
            ODict.get c d' = Some r ->
            Cand.inCount r
            = sum_list_with
                (page_in
                   (ODict.keys
                      [("Amsterdam", new_candidate "amsterdam" "Amsterdam");
                       ("Rotterdam", new_candidate "rotterdam" "Rotterdam")]) c)
                (all_pages [amsterdam_shard; utrecht_shard])
            /\ Cand.outCount r
               = sum_list_with
                   (page_out
                      (ODict.keys
                         [("Amsterdam", new_candidate "amsterdam" "Amsterdam");
                          ("Rotterdam", new_candidate "rotterdam" "Rotterdam")]) c)
                   (all_pages [amsterdam_shard; utrecht_shard]).
Proof.
  split; [vm_compute; reflexivity|].
  apply (C1_counts_of_candidate_pages two_city_lines two_city_table).
  vm_compute. reflexivity.
Defined.

(** The scenario of the specification: the page Amsterdam with one link to
    Rotterdam adds one to the in-count of Rotterdam and one to the out-count
    of Amsterdam, and the link of the page Utrecht adds nothing. *)
Lemma counter_scenario :
  exists d',
    extract_candidates_counts [amsterdam_shard; utrecht_shard]
      [("Amsterdam", new_candidate "amsterdam" "Amsterdam");
       ("Rotterdam", new_candidate "rotterdam" "Rotterdam")]
    = Ok d'
    /\ inCount_of d' "Rotterdam" = 1 /\ outCount_of d' "Amsterdam" = 1
    /\ inCount_of d' "Amsterdam" = 0 /\ outCount_of d' "Rotterdam" = 0.
Proof. eexists. split; [vm_compute; reflexivity|]. by vm_compute. Qed.

(** Counting every occurrence does not save the reading that takes the
    links of every page: the page Utrecht, which is not a candidate, links
    to the candidate Rotterdam, one link on all pages has Rotterdam as
    target, and the in-count of Rotterdam stays 0. *)
Lemma foreign_page_not_counted :
  ~ counts_links_of_every_page ["De haven van [[Rotterdam]]"] rotterdam_table
      [utrecht_shard].
Proof.
  intros H.
  specialize (H [("Rotterdam", new_candidate "rotterdam" "Rotterdam")]
                [("Rotterdam", new_candidate "rotterdam" "Rotterdam")]
                "Rotterdam" (new_candidate "rotterdam" "Rotterdam")
                ltac:(vm_compute; reflexivity) ltac:(vm_compute; reflexivity)
                ltac:(vm_compute; reflexivity)).
  vm_compute in H. discriminate H.
Qed.

(** C1, as it is worded, fails in three ways, each on an input that leaves
    the other two out.  (1) A page whose title is not a candidate: the page
    Utrecht links to the candidate Rotterdam, which is one observation with
    target Rotterdam, and the in-count of Rotterdam stays 0.  (2) A repeated
    link: the page of the candidate Amsterdam holds the link to Rotterdam
    twice, which is one distinct observation and one distinct link, and the
    in-count of Rotterdam and the out-count of Amsterdam are 2.  (3) A link
    to a page that is not a candidate: the page of Amsterdam links to
    Rotterdam and to Utrecht, two distinct links, and the out-count of
    Amsterdam is 1. *)
Lemma C1_distinct_reading_counterexample :
  (exists d',
     extract_candidates_counts [utrecht_shard]
       [("Rotterdam", new_candidate "rotterdam" "Rotterdam")] = Ok d'
     /\ inCount_of d' "Rotterdam" = 0
     /\ sum_list_with (distinct_links_to "Rotterdam") (all_pages [utrecht_shard])
        = 1)
  /\ ~ in_count_of_distinct_observations ["De haven van [[Rotterdam]]"]
        rotterdam_table [utrecht_shard]
  /\ (exists d',
        extract_candidates_counts [twice_shard]
          [("Amsterdam", new_candidate "amsterdam" "Amsterdam");
           ("Rotterdam", new_candidate "rotterdam" "Rotterdam")] = Ok d'
        /\ inCount_of d' "Rotterdam" = 2 /\ outCount_of d' "Amsterdam" = 2
        /\ sum_list_with (distinct_links_to "Rotterdam") (all_pages [twice_shard])
           = 1
        /\ sum_list_with (distinct_links_of "Amsterdam") (all_pages [twice_shard])
           = 1)
  /\ ~ in_count_of_distinct_observations two_city_lines two_city_table
        [twice_shard]
  /\ ~ out_count_of_distinct_links two_city_lines two_city_table [twice_shard]
  /\ (exists d',
        extract_candidates_counts [mixed_shard]
          [("Amsterdam", new_candidate "amsterdam" "Amsterdam");
           ("Rotterdam", new_candidate "rotterdam" "Rotterdam")] = Ok d'
        /\ inCount_of d' "Rotterdam" = 1 /\ outCount_of d' "Amsterdam" = 1
        /\ sum_list_with (distinct_links_of "Amsterdam") (all_pages [mixed_shard])
           = 2)
  /\ ~ out_count_of_distinct_links two_city_lines two_city_table [mixed_shard].
Proof.
  split.
  { eexists. split; [vm_compute; reflexivity|]. split; vm_compute; reflexivity. }
  split.
  { intros H.
    specialize (H [("Rotterdam", new_candidate "rotterdam" "Rotterdam")]
                  [("Rotterdam", new_candidate "rotterdam" "Rotterdam")]
                  "Rotterdam" (new_candidate "rotterdam" "Rotterdam")
                  ltac:(vm_compute; reflexivity) ltac:(vm_compute; reflexivity)
                  ltac:(vm_compute; reflexivity)).
    vm_compute in H. discriminate H. }
  split.
  { eexists. split; [vm_compute; reflexivity|].
    repeat (split; [vm_compute; reflexivity|]). vm_compute. reflexivity. }
  split.
  { intros H.
    specialize (H [("Amsterdam", new_candidate "amsterdam" "Amsterdam");
                   ("Rotterdam", new_candidate "rotterdam" "Rotterdam")]
                  [("Amsterdam",
                    Cand.set_links {[Some "Rotterdam"]}
                      (Cand.set_outCount 2
                         (Cand.set_id (Some "5042")
                            (new_candidate "amsterdam" "Amsterdam"))));
                   ("Rotterdam",
                    Cand.set_inCount 2 (new_candidate "rotterdam" "Rotterdam"))]
                  "Rotterdam"
                  (Cand.set_inCount 2 (new_candidate "rotterdam" "Rotterdam"))
                  ltac:(vm_compute; reflexivity) ltac:(vm_compute; reflexivity)
                  ltac:(vm_compute; reflexivity)).
    vm_compute in H. discriminate H. }
  split.
  { intros H.
    specialize (H [("Amsterdam", new_candidate "amsterdam" "Amsterdam");
                   ("Rotterdam", new_candidate "rotterdam" "Rotterdam")]
                  [("Amsterdam",
                    Cand.set_links {[Some "Rotterdam"]}
                      (Cand.set_outCount 2
                         (Cand.set_id (Some "5042")
                            (new_candidate "amsterdam" "Amsterdam"))));
                   ("Rotterdam",
                    Cand.set_inCount 2 (new_candidate "rotterdam" "Rotterdam"))]
                  "Amsterdam"
                  (Cand.set_links {[Some "Rotterdam"]}
                     (Cand.set_outCount 2
                        (Cand.set_id (Some "5042")
                           (new_candidate "amsterdam" "Amsterdam"))))
                  ltac:(vm_compute; reflexivity) ltac:(vm_compute; reflexivity)
                  ltac:(vm_compute; reflexivity)).
    vm_compute in H. discriminate H. }
  split.
  { eexists. split; [vm_compute; reflexivity|].
    repeat (split; [vm_compute; reflexivity|]). vm_compute. reflexivity. }
  intros H.
  specialize (H [("Amsterdam", new_candidate "amsterdam" "Amsterdam");
                 ("Rotterdam", new_candidate "rotterdam" "Rotterdam")]
                [("Amsterdam",
                  Cand.set_links {[Some "Rotterdam"]}
                    (Cand.set_outCount 1
                       (Cand.set_id (Some "5042")
                          (new_candidate "amsterdam" "Amsterdam"))));
                 ("Rotterdam",
                  Cand.set_inCount 1 (new_candidate "rotterdam" "Rotterdam"))]
                "Amsterdam"
                (Cand.set_links {[Some "Rotterdam"]}
                   (Cand.set_outCount 1
                      (Cand.set_id (Some "5042")
                         (new_candidate "amsterdam" "Amsterdam"))))
                ltac:(vm_compute; reflexivity) ltac:(vm_compute; reflexivity)
                ltac:(vm_compute; reflexivity)).
  vm_compute in H. discriminate H.
Qed.

Lemma all_pages_perm shards shards' :
  shards ≡ₚ shards' -> all_pages shards ≡ₚ all_pages shards'.
Proof.
  unfold all_pages. induction 1 as [|s l l' _ IH|s t l|l1 l2 l3 _ IH1 _ IH2];
    simpl.
  - done.
  - by rewrite IH.
  - rewrite !(assoc_L (++)). f_equiv. apply Permutation_app_comm.
  - by etransitivity.
Qed.

(** C8: processing the shard files in any other order ends with the same
    candidate keys and, under every key, the same in-count and the same
    out-count. *)
Theorem C8_counts_independent_of_shard_order shards shards' d :
  shards ≡ₚ shards' ->
  exists d1 d2,
    extract_candidates_counts shards d = Ok d1
    /\ extract_candidates_counts shards' d = Ok d2
    /\ ODict.keys d1 = ODict.keys d2
    /\ forall c,
         Cand.inCount <$> ODict.get c d1 = Cand.inCount <$> ODict.get c d2
         /\ Cand.outCount <$> ODict.get c d1 = Cand.outCount <$> ODict.get c d2.
Proof.
  intros Hperm.
  destruct (extract_candidates_counts_spec shards d) as (d1 & H1 & Hk1 & Hi1 & Ho1).
  destruct (extract_candidates_counts_spec shards' d) as (d2 & H2 & Hk2 & Hi2 & Ho2).
  exists d1, d2. split; [done|]. split; [done|]. split; [congruence|].
  intros c.
  assert (inCount_of d1 c = inCount_of d2 c) as Hi.
  { rewrite Hi1, Hi2. f_equal. by rewrite (all_pages_perm _ _ Hperm). }
  assert (outCount_of d1 c = outCount_of d2 c) as Ho.
  { rewrite Ho1, Ho2. f_equal. by rewrite (all_pages_perm _ _ Hperm). }
  assert (is_Some (ODict.get c d1) <-> is_Some (ODict.get c d2)) as Hsome.
  { rewrite !odict_get_keys. by rewrite Hk1, Hk2. }
  unfold inCount_of in Hi. unfold outCount_of in Ho.
  destruct (ODict.get c d1) as [r1|], (ODict.get c d2) as [r2|]; simpl.
  - by rewrite Hi, Ho.
  - destruct Hsome as [Hs _]. by destruct Hs.
  - destruct Hsome as [_ Hs]. by destruct Hs.
  - done.
Qed.

Lemma C8_two_shards_witness :
  [amsterdam_shard; utrecht_shard] ≡ₚ [utrecht_shard; amsterdam_shard]
  /\ exists d1 d2,
       extract_candidates_counts [amsterdam_shard; utrecht_shard]
         [("Amsterdam", new_candidate "amsterdam" "Amsterdam");
          ("Rotterdam", new_candidate "rotterdam" "Rotterdam")] = Ok d1
       /\ extract_candidates_counts [utrecht_shard; amsterdam_shard]
            [("Amsterdam", new_candidate "amsterdam" "Amsterdam");
             ("Rotterdam", new_candidate "rotterdam" "Rotterdam")] = Ok d2
       /\ ODict.keys d1 = ODict.keys d2
       /\ forall c,
            Cand.inCount <$> ODict.get c d1 = Cand.inCount <$> ODict.get c d2
            /\ Cand.outCount <$> ODict.get c d1
               = Cand.outCount <$> ODict.get c d2.
Proof.
  split; [apply Permutation_swap|].
  apply C8_counts_independent_of_shard_order. apply Permutation_swap.
Defined.

Lemma C5_crowd_witness :
  crowd_table !! "crowd" = Some crowd_entity
  /\ exists store' top rest,
       export_entity elements crowd_table ([], crowd_store) "crowd"
       = Ok ((fst ([] : list string, crowd_store)
              ++ entity_line crowd_entity
              :: candidate_lines elements store' top)%list, store')
       /\ (top ++ rest)%list ≡ₚ Ent.candidates crowd_entity
       /\ length top = Nat.min 20 (length (Ent.candidates crowd_entity))
       /\ (forall k c,
             k ∈ Ent.candidates crowd_entity ->
             ODict.get k (snd ([] : list string, crowd_store)) = Some c ->
             popularity_of store' k = Cand.inCount c + Cand.outCount c)
       /\ descending (popularity_of store') (top ++ rest)%list
       /\ (forall p,
             filter (fun k => popularity_of store' k = p) (top ++ rest)%list
             = filter (fun k => popularity_of store' k = p)
                 (Ent.candidates crowd_entity))
       /\ length (candidate_lines elements store' top) <= 20
       /\ ((forall k, k ∈ Ent.candidates crowd_entity ->
                      is_Some (ODict.get k (snd ([] : list string, crowd_store)))) ->
           Forall2 (line_of elements (snd ([] : list string, crowd_store))) top
             (candidate_lines elements store' top)).
Proof.
  split; [vm_compute; reflexivity|].
  apply (C5_top_candidates_ranked elements crowd_table ([], crowd_store)
           "crowd" crowd_entity).
  vm_compute. reflexivity.
Defined.

(** The ranking on the three candidates of popularity 1, 3 and 1: the
    popular one first, the other two in the order of the entity's list; and
    on twenty-five candidates the ranking keeps twenty, the popular ones
    first and the lower names first among equals. *)
Lemma ranking_examples :
  top_candidates (fold_left store_popularity
                    ["Amstel"; "Amstel (rivier)"; "Amstel (bier)"] ranking_store)
    ["Amstel"; "Amstel (rivier)"; "Amstel (bier)"]
  = ["Amstel (rivier)"; "Amstel"; "Amstel (bier)"]
  /\ top_candidates (fold_left store_popularity (ODict.keys crowd_store) crowd_store)
       (ODict.keys crowd_store)
     = ["2"; "5"; "8"; "11"; "14"; "17"; "20"; "23";
        "1"; "4"; "7"; "10"; "13"; "16"; "19"; "22";
        "0"; "3"; "6"; "9"].
Proof. split; vm_compute; reflexivity. Qed.

(** ** Redirect Resolver *)

Lemma iter_singleton (links_iter : gset (option string) -> list (option string)) x :
  (forall s, links_iter s ≡ₚ elements s) -> links_iter {[x]} = [x].
Proof.
  intros H. apply Permutation_singleton_r.
  rewrite H. by rewrite elements_singleton.
Qed.

Lemma iter_empty (links_iter : gset (option string) -> list (option string)) :
  (forall s, links_iter s ≡ₚ elements s) -> links_iter ∅ = [].
Proof.
  intros H. apply Permutation_nil_r. rewrite H. by rewrite elements_empty.
Qed.

Lemma dangling_store_built :
  extract_candidates two_city_lines two_city_table
  = Ok [("Amsterdam", new_candidate "amsterdam" "Amsterdam");
        ("Rotterdam", new_candidate "rotterdam" "Rotterdam")]
  /\ extract_candidates_counts [amsterdam_shard]
       [("Amsterdam", new_candidate "amsterdam" "Amsterdam");
        ("Rotterdam", new_candidate "rotterdam" "Rotterdam")]
     = Ok dangling_store.
Proof. split; vm_compute; reflexivity. Qed.

(** C2: on the candidate map in which Amsterdam has an id and links to
    Rotterdam, and Rotterdam, mined after it, has none, the resolver removes
    Rotterdam and leaves [None] as the one member of the links of Amsterdam,
    whatever the order in which sets are enumerated; with the two candidates
    mined in the other order the link is dropped. *)
Theorem C2_unresolved_link_becomes_None links_iter :
  (forall s, links_iter s ≡ₚ elements s) ->
  (exists r,
     replace_links links_iter dangling_store = Ok [("Amsterdam", r)]
     /\ Cand.links r = {[None]})
  /\ (exists r,
        replace_links links_iter dangling_store_swapped = Ok [("Amsterdam", r)]
        /\ Cand.links r = ∅).
Proof.
  intros H.
  assert (replace_links_candidate links_iter dangling_store "Amsterdam"
          = for_each (replace_link "Amsterdam") [Some "Rotterdam"] dangling_store)
    as Hfirst.
  { unfold replace_links_candidate.
    change (ODict.get "Amsterdam" dangling_store) with (Some amsterdam_counted).
    cbv beta iota.
    change (negb (truthy_id (Cand.id amsterdam_counted))) with false.
    cbv beta iota.
    change (Cand.links amsterdam_counted)
      with ({[Some "Rotterdam"]} : gset (option string)).
    by rewrite (iter_singleton _ _ H). }
  assert (replace_links_candidate links_iter [("Amsterdam", amsterdam_counted)]
            "Amsterdam"
          = for_each (replace_link "Amsterdam") [Some "Rotterdam"]
              [("Amsterdam", amsterdam_counted)])
    as Hsecond.
  { unfold replace_links_candidate.
    change (ODict.get "Amsterdam" [("Amsterdam", amsterdam_counted)])
      with (Some amsterdam_counted).
    cbv beta iota.
    change (negb (truthy_id (Cand.id amsterdam_counted))) with false.
    cbv beta iota.
    change (Cand.links amsterdam_counted)
      with ({[Some "Rotterdam"]} : gset (option string)).
    by rewrite (iter_singleton _ _ H). }
  split.
  - unfold replace_links.
    change (ODict.keys dangling_store) with ["Amsterdam"; "Rotterdam"].
    cbn [for_each]. rewrite Hfirst.
    eexists. split; vm_compute; reflexivity.
  - unfold replace_links.
    change (ODict.keys dangling_store_swapped) with ["Rotterdam"; "Amsterdam"].
    cbn [for_each].
    change (replace_links_candidate links_iter dangling_store_swapped "Rotterdam")
      with (Ok [("Amsterdam", amsterdam_counted)]).
    rewrite rbind_Ok, Hsecond.
    eexists. split; vm_compute; reflexivity.
Qed.

Lemma C2_elements_witness :
  (forall s : gset (option string), elements s ≡ₚ elements s)
  /\ (exists r,
        replace_links elements dangling_store = Ok [("Amsterdam", r)]
        /\ Cand.links r = {[None]})
  /\ (exists r,
        replace_links elements dangling_store_swapped = Ok [("Amsterdam", r)]
        /\ Cand.links r = ∅).
Proof.
  split; [intros s; reflexivity|].
  apply (C2_unresolved_link_becomes_None elements). intros s. reflexivity.
Defined.

(** ** Export and read back *)

Lemma resolved_store_built :
  (counted <-- extract_candidates_counts [amsterdam_shard; rotterdam_page_shard]
                 [("Amsterdam", new_candidate "amsterdam" "Amsterdam");
                  ("Rotterdam", new_candidate "rotterdam" "Rotterdam")] ;;
   replace_links elements counted)
  = Ok resolved_store.
Proof. vm_compute. reflexivity. Qed.

(** C4: the candidate Rotterdam, whose links are the empty set after the
    resolver, is written with the links text set(), and the reader makes of
    that line a candidate with the same id and counts and with one link,
    the text set() itself, whatever the order in which sets are enumerated;
    the non-empty links of Amsterdam are read back as they were. *)
Theorem C4_empty_links_read_back_as_text links_iter :
  (forall s, links_iter s ≡ₚ elements s) ->
  Cand.links rotterdam_resolved = ∅
  /\ (exists parsed,
        Candidate.parse (candidate_line links_iter rotterdam_resolved) = Ok parsed
        /\ Candidate.id parsed = "2747"
        /\ Candidate.in_count parsed = 1%Z
        /\ Candidate.out_count parsed = 0%Z
        /\ Candidate.links parsed = ["set()"])
  /\ (exists parsed,
        Candidate.parse (candidate_line links_iter amsterdam_resolved) = Ok parsed
        /\ Candidate.id parsed = "5042"
        /\ Candidate.in_count parsed = 0%Z
        /\ Candidate.out_count parsed = 1%Z
        /\ Candidate.links parsed = ["2747"]).
Proof.
  intros H. split; [reflexivity|]. split.
  - unfold candidate_line, str_set.
    change (Cand.links rotterdam_resolved) with (∅ : gset (option string)).
    rewrite (iter_empty _ H).
    exists (Candidate.mk "2747" 1 0 ["set()"]
              "https://nl.wikipedia.org/wiki/Rotterdam" "Rotterdam"
              "rotterdam" "rotterdam").
    split; [vm_compute; reflexivity|]. by repeat split.
  - unfold candidate_line, str_set.
    change (Cand.links amsterdam_resolved)
      with ({[Some "2747"]} : gset (option string)).
    rewrite (iter_singleton _ _ H).
    exists (Candidate.mk "5042" 0 1 ["2747"]
              "https://nl.wikipedia.org/wiki/Amsterdam" "Amsterdam"
              "amsterdam" "amsterdam").
    split; [vm_compute; reflexivity|]. by repeat split.
Qed.

Lemma C4_elements_witness :
  (forall s : gset (option string), elements s ≡ₚ elements s)
  /\ Cand.links rotterdam_resolved = ∅
  /\ (exists parsed,
        Candidate.parse (candidate_line elements rotterdam_resolved) = Ok parsed
        /\ Candidate.id parsed = "2747"
        /\ Candidate.in_count parsed = 1%Z
        /\ Candidate.out_count parsed = 0%Z
        /\ Candidate.links parsed = ["set()"])
  /\ (exists parsed,
        Candidate.parse (candidate_line elements amsterdam_resolved) = Ok parsed
        /\ Candidate.id parsed = "5042"
        /\ Candidate.in_count parsed = 0%Z
        /\ Candidate.out_count parsed = 1%Z
        /\ Candidate.links parsed = ["2747"]).
Proof.
  split; [intros s; reflexivity|].
  apply (C4_empty_links_read_back_as_text elements). intros s. reflexivity.
Defined.

(** The same on the split file of the whole pipeline: the file is read back
    as two records of one candidate each; the links of Amsterdam are the id
    of Rotterdam, and the links of Rotterdam are the one text set(). *)
Lemma pipeline_round_trip :
  (lines <-- pipeline [amsterdam_row; rotterdam_row] two_city_lines
               [amsterdam_shard; rotterdam_page_shard] ["amsterdam"; "rotterdam"] ;;
   records <-- get_candidates (file_contents lines) ;;
   Ok (map (fun r => map Candidate.links (CandidateRecord.candidates r)) records))
  = Ok [[["2747"]]; [["set()"]]].
Proof. vm_compute. reflexivity. Qed.

(** ** Redirect Resolver on any candidate map *)

Lemma same_but_links_refl c : same_but_links c c.
Proof. by repeat split. Qed.

Lemma same_but_links_trans c1 c2 c3 :
  same_but_links c1 c2 -> same_but_links c2 c3 -> same_but_links c1 c3.
Proof.
  unfold same_but_links. intros H1 H2.
  destruct H1 as (? & ? & ? & ? & ? & ? & ? & ? & ?).
  destruct H2 as (? & ? & ? & ? & ? & ? & ? & ? & ?).
  repeat split; congruence.
Qed.

Lemma links_changed_only_refl d : links_changed_only d d.
Proof. split; [done|]. intros k c Hc. exists c. by split; [|apply same_but_links_refl]. Qed.

Lemma links_changed_only_trans d1 d2 d3 :
  links_changed_only d1 d2 -> links_changed_only d2 d3 ->
  links_changed_only d1 d3.
Proof.
  intros [Hk1 H1] [Hk2 H2]. split; [congruence|].
  intros k c3 Hc3. destruct (H2 k c3 Hc3) as (c2 & Hc2 & Hs2).
  destruct (H1 k c2 Hc2) as (c1 & Hc1 & Hs1).
  exists c1. split; [done|]. by eapply same_but_links_trans.
Qed.

Lemma links_changed_only_alter f k d :
  (forall c, same_but_links c (f c)) ->
  links_changed_only d (ODict.alter f k d).
Proof.
  intros Hf. split; [apply odict_keys_alter|].
  intros k' c'. rewrite odict_get_alter.
  destruct (decide (k' = k)) as [->|Hne].
  - destruct (ODict.get k d) as [c|]; [|done]. simpl. intros [= <-].
    exists c. by split.
  - intros Hc. exists c'. by split; [|apply same_but_links_refl].
Qed.

Lemma links_changed_only_resolved d d' k :
  links_changed_only d d' -> resolved d' k = resolved d k.
Proof.
  intros [Hk H]. unfold resolved.
  destruct (ODict.get k d') as [c'|] eqn:Hc'.
  - destruct (H k c' Hc') as (c & -> & Hs). by destruct Hs as [-> _].
  - destruct (ODict.get k d) as [c|] eqn:Hc; [|done].
    assert (is_Some (ODict.get k d')) as [? ?]; [|congruence].
    apply odict_get_keys. rewrite Hk. apply odict_get_keys. by eexists.
Qed.

Section resolver.
Variable links_iter : gset (option string) -> list (option string).
Hypothesis links_iter_elements : forall s, links_iter s ≡ₚ elements s.

Lemma links_iter_NoDup s : NoDup (links_iter s).
Proof. rewrite links_iter_elements. apply NoDup_elements. Qed.

Lemma links_iter_elem x s : x ∈ links_iter s -> x ∈ s.
Proof. rewrite links_iter_elements. apply elem_of_elements. Qed.

(** One link of the snapshot: the link is still in the set, so [remove]
    does not raise; the other members of the set stay. *)
Lemma replace_link_spec candidate d c link :
  ODict.get candidate d = Some c ->
  link ∈ Cand.links c ->
  exists d' c',
    replace_link candidate d link = Ok d'
    /\ links_changed_only d d'
    /\ ODict.get candidate d' = Some c'
    /\ forall x, x ∈ Cand.links c -> x ≠ link -> x ∈ Cand.links c'.
Proof.
  intros Hc Hin. unfold replace_link, links_remove. rewrite Hc.
  rewrite decide_True by done.
  set (removed := ODict.alter (Cand.set_links (Cand.links c ∖ {[link]}))
                    candidate d).
  assert (links_changed_only d removed) as Hrem.
  { apply links_changed_only_alter. intros ?. by repeat split. }
  assert (ODict.get candidate removed
          = Some (Cand.set_links (Cand.links c ∖ {[link]}) c)) as Hget.
  { unfold removed. by rewrite odict_get_alter, decide_True, Hc. }
  destruct (link ≫= (fun l => ODict.get l d)) as [linked|].
  - rewrite rbind_Ok.
    exists (ODict.alter (add_link (Cand.id linked)) candidate removed).
    eexists. split; [done|]. split.
    { eapply links_changed_only_trans; [exact Hrem|].
      apply links_changed_only_alter. intros ?. by repeat split. }
    split.
    { by rewrite odict_get_alter, decide_True, Hget. }
    intros x Hx Hne. simpl. set_solver.
  - exists removed. eexists. split; [done|]. split; [done|].
    split; [exact Hget|]. intros x Hx Hne. simpl. set_solver.
Qed.

(** The loop over the snapshot of the links of one candidate. *)
Lemma replace_link_loop candidate links : forall d c,
  ODict.get candidate d = Some c ->
  NoDup links ->
  (forall x, x ∈ links -> x ∈ Cand.links c) ->
  exists d',
    for_each (replace_link candidate) links d = Ok d'
    /\ links_changed_only d d'.
Proof.
  induction links as [|link links IH]; intros d c Hc Hnd Hsub; simpl.
  - exists d. split; [done|apply links_changed_only_refl].
  - apply NoDup_cons in Hnd as [Hnin Hnd].
    destruct (replace_link_spec candidate d c link Hc) as (d1 & c1 & -> & Hch & Hc1 & Hkeep).
    { apply Hsub. left. }
    rewrite rbind_Ok.
    destruct (IH d1 c1 Hc1 Hnd) as (d2 & -> & Hch2).
    { intros x Hx. apply Hkeep; [apply Hsub; by right|]. by intros ->. }
    exists d2. split; [done|]. by eapply links_changed_only_trans.
Qed.

Lemma odict_keys_del_elem {V} k k' (d : odict V) :
  NoDup (ODict.keys d) ->
  k' ∈ ODict.keys (ODict.del k d) <-> k' ∈ ODict.keys d /\ k' ≠ k.
Proof.
  intros Hnd. rewrite <- !odict_get_keys, odict_get_del by done.
  destruct (decide (k' = k)) as [->|Hne].
  - split; [by intros [? ?]|by intros [_ ?]].
  - split; [by intros ?|by intros [? _]].
Qed.

(** The loop over the snapshot of the keys. *)
Lemma replace_links_loop ks : forall d,
  NoDup (ODict.keys d) -> NoDup ks ->
  (forall k, k ∈ ks -> k ∈ ODict.keys d) ->
  exists d',
    for_each (replace_links_candidate links_iter) ks d = Ok d'
    /\ NoDup (ODict.keys d')
    /\ (forall k, k ∈ ODict.keys d'
                  <-> k ∈ ODict.keys d /\ (k ∈ ks -> resolved d k = true))
    /\ forall k c',
         ODict.get k d' = Some c' ->
         exists c, ODict.get k d = Some c /\ same_but_links c c'.
Proof.
  induction ks as [|k ks IH]; intros d Hnd Hks Hsub; simpl.
  - exists d. split; [done|]. split; [done|]. split.
    + intros k. split; [intros ?; split; [done|by intros ?%elem_of_nil]|by intros [? _]].
    + intros k c' Hc'. exists c'. by split; [|apply same_but_links_refl].
  - apply NoDup_cons in Hks as [Hnin Hks].
    assert (k ∈ ODict.keys d) as Hk by (apply Hsub; left).
    apply odict_get_keys in Hk as [c Hc].
    unfold replace_links_candidate at 1. rewrite Hc.
    destruct (truthy_id (Cand.id c)) eqn:Hid; cbn [negb].
    + destruct (replace_link_loop k (links_iter (Cand.links c)) d c Hc)
        as (d1 & -> & Hch);
        [apply links_iter_NoDup|intros x Hx; by apply links_iter_elem|].
      rewrite rbind_Ok. destruct Hch as [Hk1 Hrec1].
      destruct (IH d1) as (d' & -> & Hnd' & Hkeys & Hrec);
        [by rewrite Hk1|done|intros k' Hk'; rewrite Hk1; apply Hsub; by right|].
      exists d'. split; [done|]. split; [done|]. split.
      * intros k'. rewrite Hkeys, Hk1.
        rewrite (links_changed_only_resolved d d1 k') by done.
        split; intros [Hin Hres]; (split; [done|]).
        -- intros [->|Hin']%elem_of_cons; [|by apply Hres].
           unfold resolved. by rewrite Hc.
        -- intros Hin'. apply Hres. by right.
      * intros k' c' Hc'. destruct (Hrec k' c' Hc') as (c1 & Hc1 & Hs1).
        destruct (Hrec1 k' c1 Hc1) as (c0 & Hc0 & Hs0).
        exists c0. split; [done|]. by eapply same_but_links_trans.
    + rewrite rbind_Ok.
      destruct (IH (ODict.del k d)) as (d' & -> & Hnd' & Hkeys & Hrec).
      { by apply odict_NoDup_del. }
      { done. }
      { intros k' Hk'. apply odict_keys_del_elem; [done|].
        split; [apply Hsub; by right|]. by intros ->. }
      exists d'. split; [done|]. split; [done|]. split.
      * intros k'. rewrite Hkeys, odict_keys_del_elem by done.
        assert (forall k', k' ≠ k -> resolved (ODict.del k d) k' = resolved d k') as Hres.
        { intros k0 Hne. unfold resolved. by rewrite odict_get_del, decide_False. }
        split.
        -- intros [[Hin Hne] Hr]. split; [done|].
           intros [->|Hin']%elem_of_cons; [done|]. rewrite <- Hres by done. by apply Hr.
        -- intros [Hin Hr].
           assert (k' ≠ k) as Hne.
           { intros ->. specialize (Hr ltac:(left)).
             unfold resolved in Hr. rewrite Hc in Hr. congruence. }
           split; [done|]. intros Hin'. rewrite Hres by done. apply Hr. by right.
      * intros k' c' Hc'. destruct (Hrec k' c' Hc') as (c1 & Hc1 & Hs1).
        rewrite odict_get_del in Hc1 by done.
        destruct (decide (k' = k)); [done|]. by exists c1.
Qed.

(** X1: the resolver on any candidate map with distinct keys, for any
    enumeration of the sets: it returns; the keys that survive are those of
    the candidates with an id; and a surviving record differs from the one
    before in its links only. *)
Theorem replace_links_removes_unresolved d :
  NoDup (ODict.keys d) ->
  exists d',
    replace_links links_iter d = Ok d'
    /\ NoDup (ODict.keys d')
    /\ (forall k, k ∈ ODict.keys d' <-> k ∈ ODict.keys d /\ resolved d k = true)
    /\ forall k c',
         ODict.get k d' = Some c' ->
         exists c,
           ODict.get k d = Some c /\ same_but_links c c'
           /\ truthy_id (Cand.id c') = true.
Proof.
  intros Hnd. unfold replace_links.
  destruct (replace_links_loop (ODict.keys d) d Hnd Hnd) as (d' & Hrun & Hnd' & Hkeys & Hrec);
    [done|].
  exists d'. split; [done|]. split; [done|]. split.
  - intros k. rewrite Hkeys. split.
    + intros [Hin Hr]. split; [done|]. by apply Hr.
    + intros [Hin Hr]. by split.
  - intros k c' Hc'. destruct (Hrec k c' Hc') as (c & Hc & Hs).
    exists c. split; [done|]. split; [done|].
    assert (k ∈ ODict.keys d') as Hin by (apply odict_get_keys; by eexists).
    apply Hkeys in Hin as [_ Hr]. specialize (Hr ltac:(apply odict_get_keys; by eexists)).
    unfold resolved in Hr. rewrite Hc in Hr.
    destruct Hs as [-> _]. exact Hr.
Qed.

End resolver.

Lemma replace_links_dangling_witness :
  (forall s : gset (option string), elements s ≡ₚ elements s)
  /\ NoDup (ODict.keys dangling_store)
  /\ exists d',
       replace_links elements dangling_store = Ok d'
       /\ NoDup (ODict.keys d')
       /\ (forall k, k ∈ ODict.keys d'
                     <-> k ∈ ODict.keys dangling_store
                         /\ resolved dangling_store k = true)
       /\ forall k c',
            ODict.get k d' = Some c' ->
            exists c,
              ODict.get k dangling_store = Some c /\ same_but_links c c'
              /\ truthy_id (Cand.id c') = true.
Proof.
  assert (NoDup (ODict.keys dangling_store)) as Hnd.
  { change (NoDup ["Amsterdam"; "Rotterdam"]).
    apply NoDup_cons. split; [|apply NoDup_singleton].
    intros Hin%list_elem_of_singleton. discriminate Hin. }
  split; [intros s; reflexivity|]. split; [exact Hnd|].
  apply (replace_links_removes_unresolved elements); [|exact Hnd].
  intros s. reflexivity.
Defined.

(** X2: the [try] of the miner never raises: the second piece of the split is
    read only when the bar is there, and every split has a first piece.  So
    the [except IndexError] handler with its single-bracket extraction is
    never run, and a line is settled by the [try] alone. *)
Theorem mine_line_handler_unreachable (names : gset string) d raw :
  exists d',
    mine_line_try names (strip raw) d = Ok d'
    /\ mine_line names d raw = Ok d'.
Proof.
  eexists. split; [apply mine_line_try_spec|apply mine_line_spec].
Qed.

(** ** The three candidate stages together *)

(** X3: whatever the entity table, the link corpus and the shards, and for
    any enumeration of the sets, the miner, the counter and the resolver
    return one after the other; the final candidate map has distinct keys,
    all of them mined, and every candidate in it has an id. *)
Theorem candidate_stages_return links_iter entities lines shards :
  (forall s, links_iter s ≡ₚ elements s) ->
  exists mined counted final,
    extract_candidates lines entities = Ok mined
    /\ extract_candidates_counts shards mined = Ok counted
    /\ replace_links links_iter counted = Ok final
    /\ NoDup (ODict.keys final)
    /\ (forall k, k ∈ ODict.keys final -> k ∈ ODict.keys mined)
    /\ forall k c, ODict.get k final = Some c -> truthy_id (Cand.id c) = true.
Proof.
  intros Hiter.
  destruct (extract_candidates_NoDup lines entities) as (mined & Hmine & Hnd).
  destruct (extract_candidates_counts_spec shards mined) as (counted & Hcount & Hk & _).
  assert (NoDup (ODict.keys counted)) as Hndc by (by rewrite Hk).
  destruct (replace_links_loop links_iter Hiter (ODict.keys counted) counted)
    as (final & Hres & Hnd' & Hkeys & Hrec); [done|done|done|].
  exists mined, counted, final.
  split; [done|]. split; [done|]. split; [exact Hres|]. split; [done|]. split.
  - intros k Hin. apply Hkeys in Hin as [Hin _]. by rewrite <- Hk.
  - intros k c Hc.
    assert (k ∈ ODict.keys final) as Hin by (apply odict_get_keys; by eexists).
    apply Hkeys in Hin as [Hin Hr]. specialize (Hr Hin).
    destruct (Hrec k c Hc) as (c0 & Hc0 & Hs).
    unfold resolved in Hr. rewrite Hc0 in Hr.
    destruct Hs as [-> _]. exact Hr.
Qed.

Lemma candidate_stages_witness :
  (forall s : gset (option string), elements s ≡ₚ elements s)
  /\ exists mined counted final,
       extract_candidates two_city_lines two_city_table = Ok mined
       /\ extract_candidates_counts [amsterdam_shard] mined = Ok counted
       /\ replace_links elements counted = Ok final
       /\ NoDup (ODict.keys final)
       /\ (forall k, k ∈ ODict.keys final -> k ∈ ODict.keys mined)
       /\ forall k c, ODict.get k final = Some c -> truthy_id (Cand.id c) = true.
Proof.
  split; [intros s; reflexivity|].
  apply (candidate_stages_return elements). intros s. reflexivity.
Defined.

(** ** Document splits *)

Lemma mention_key_docstart_free row :
  mention_keys [row]
  = match mention_key row with Some k => [k] | None => [] end.
Proof. unfold mention_keys. simpl. by destruct (mention_key row). Qed.

Lemma mention_keys_cons row rows :
  mention_keys (row :: rows) = (mention_keys [row] ++ mention_keys rows)%list.
Proof. unfold mention_keys. simpl. by destruct (mention_key row). Qed.

(** One row that is not a marker row appends its key, if it has one. *)
Lemma split_tsv_row_plain st row :
  is_docstart row = false ->
  split_tsv_row st row
  = Ok (mk_split_state (docs st) (doc_ents st ++ mention_keys [row])
          (first_doc st)).
Proof.
  intros Hd. unfold split_tsv_row. rewrite Hd.
  rewrite mention_key_docstart_free. unfold mention_key.
  destruct row as [|f0 row].
  - simpl. rewrite app_nil_r. by destruct st.
  - cbn [length Nat.ltb Nat.leb].
    destruct (is_gold_mention_total (f0 :: row)) as [gold Hg]. rewrite Hg.
    rewrite rbind_Ok. destruct gold.
    + assert (4 < length (f0 :: row)) as Hlen.
      { unfold is_gold_mention in Hg.
        destruct (4 <? length (f0 :: row))%nat eqn:E;
          [by apply Nat.ltb_lt|discriminate]. }
      destruct row as [|f1 [|f2 row]]; simpl in Hlen; try lia.
      run_index. rewrite entity_dictname_spec. by run_index.
    + rewrite app_nil_r. by destruct st.
Qed.

(** A marker row: the first one only lowers the flag, a later one closes
    the open document. *)
Lemma split_tsv_row_marker st row :
  is_docstart row = true ->
  split_tsv_row st row
  = Ok (if first_doc st
        then mk_split_state (docs st) (doc_ents st) false
        else mk_split_state (docs st ++ [doc_ents st]) [] false).
Proof.
  intros Hd. unfold split_tsv_row. rewrite Hd.
  by destruct (first_doc st) eqn:Hf.
Qed.

Lemma segments_nonempty rows : segments rows ≠ [].
Proof.
  destruct rows as [|row rows]; simpl; [done|].
  destruct (is_docstart row); [done|]. by destruct (segments rows).
Qed.

(** The loop once the first marker row is behind: every marker row closes
    the open document. *)
Lemma split_tsv_loop_later rows : forall st,
  first_doc st = false ->
  exists st',
    for_each split_tsv_row rows st = Ok st'
    /\ first_doc st' = false
    /\ (docs st' ++ [doc_ents st'])%list
       = match map mention_keys (segments rows) with
         | k0 :: rest => (docs st ++ (doc_ents st ++ k0) :: rest)%list
         | [] => []
         end.
Proof.
  induction rows as [|row rows IH]; intros st Hf; cbn [for_each].
  - exists st. split; [done|]. split; [done|]. simpl. by rewrite app_nil_r.
  - cbn [segments]. destruct (is_docstart row) eqn:Hd.
    + rewrite split_tsv_row_marker, Hf, rbind_Ok by done.
      destruct (IH (mk_split_state (docs st ++ [doc_ents st]) [] false))
        as (st' & -> & Hf' & Hdocs); [done|].
      exists st'. split; [done|]. split; [done|].
      rewrite Hdocs. cbn [docs doc_ents map mention_keys omap list_omap].
      pose proof (segments_nonempty rows) as Hne.
      destruct (segments rows) as [|seg segs]; [done|].
      cbn [map]. rewrite app_nil_r, <- app_assoc. reflexivity.
    + rewrite split_tsv_row_plain, rbind_Ok by done.
      destruct (IH (mk_split_state (docs st)
                      (doc_ents st ++ mention_keys [row]) (first_doc st)))
        as (st' & -> & Hf' & Hdocs); [done|].
      exists st'. split; [done|]. split; [done|].
      rewrite Hdocs. cbn [docs doc_ents].
      pose proof (segments_nonempty rows) as Hne.
      destruct (segments rows) as [|seg segs]; [done|].
      cbn [map]. by rewrite (mention_keys_cons row seg), app_assoc.
Qed.

(** The loop from its start. *)
Lemma split_tsv_loop_first rows : forall st,
  first_doc st = true ->
  exists st',
    for_each split_tsv_row rows st = Ok st'
    /\ (docs st' ++ [doc_ents st'])%list
       = match map mention_keys (segments rows) with
         | [k0] => (docs st ++ [doc_ents st ++ k0])%list
         | k0 :: k1 :: rest => (docs st ++ (doc_ents st ++ k0 ++ k1) :: rest)%list
         | [] => []
         end.
Proof.
  induction rows as [|row rows IH]; intros st Hf; cbn [for_each].
  - exists st. split; [done|]. simpl. by rewrite app_nil_r.
  - cbn [segments]. destruct (is_docstart row) eqn:Hd.
    + rewrite split_tsv_row_marker, Hf, rbind_Ok by done.
      destruct (split_tsv_loop_later rows
                  (mk_split_state (docs st) (doc_ents st) false))
        as (st' & -> & _ & Hdocs); [done|].
      exists st'. split; [done|]. rewrite Hdocs. cbn [docs doc_ents].
      pose proof (segments_nonempty rows) as Hne.
      destruct (segments rows) as [|seg segs]; [done|].
      cbn [map mention_keys omap list_omap]. reflexivity.
    + rewrite split_tsv_row_plain, rbind_Ok by done.
      destruct (IH (mk_split_state (docs st)
                      (doc_ents st ++ mention_keys [row]) (first_doc st)))
        as (st' & -> & Hdocs); [done|].
      exists st'. split; [done|]. rewrite Hdocs. cbn [docs doc_ents].
      pose proof (segments_nonempty rows) as Hne.
      destruct (segments rows) as [|seg [|seg' segs]]; [done| |];
        cbn [map]; by rewrite (mention_keys_cons row seg), !app_assoc.
Qed.

Lemma drop_empty_last_snoc ks k :
  drop_empty_last (ks ++ [k])
  = (ks ++ match k with [] => [] | _ => [k] end)%list.
Proof.
  induction ks as [|k' ks IH]; simpl; [by destruct k|].
  rewrite IH. destruct (ks ++ [k])%list eqn:E; [|done].
  by destruct ks.
Qed.

Lemma split_tsv_file_run rows :
  split_tsv_file rows = Ok (documents rows).
Proof.
  unfold split_tsv_file, documents.
  destruct (split_tsv_loop_first rows (mk_split_state [] [] true))
    as (st & -> & Hdocs); [done|].
  rewrite rbind_Ok.
  assert ((docs st ++ [doc_ents st])%list
          = merge_first_two (map mention_keys (segments rows))) as <-.
  { rewrite Hdocs. pose proof (segments_nonempty rows) as Hne.
    destruct (segments rows) as [|seg [|seg' segs]]; done. }
  rewrite drop_empty_last_snoc. destruct (doc_ents st); [|done].
  by rewrite app_nil_r.
Qed.

(** X5: [split_tsv_file] always returns, and its documents are those of the
    segments of the corpus: the rows up to the second marker row make the
    first document (the first marker row closes nothing), every later
    marker row closes a document, empty or not, and the rows after the last
    marker row make a document only when they hold a gold mention. *)
Theorem split_tsv_file_documents rows :
  split_tsv_file rows = Ok (documents rows).
Proof. exact (split_tsv_file_run rows). Qed.

Lemma concat_drop_empty_last ks : concat (drop_empty_last ks) = concat ks.
Proof.
  induction ks as [|k ks IH]; [done|].
  destruct ks as [|k' ks].
  - simpl. destruct k; [done|]. simpl. by rewrite app_nil_r.
  - change (drop_empty_last (k :: k' :: ks))
      with (k :: drop_empty_last (k' :: ks)).
    cbn [concat]. by rewrite IH.
Qed.

Lemma concat_merge_first_two ks : concat (merge_first_two ks) = concat ks.
Proof. destruct ks as [|k0 [|k1 ks]]; simpl; try done. by rewrite app_assoc. Qed.

Lemma concat_segments rows :
  concat (map mention_keys (segments rows))
  = mention_keys (List.filter (fun row => negb (is_docstart row)) rows).
Proof.
  induction rows as [|row rows IH]; [done|].
  cbn [segments List.filter]. destruct (is_docstart row); cbn [negb].
  - cbn [map concat]. exact IH.
  - pose proof (segments_nonempty rows) as Hne.
    destruct (segments rows) as [|seg segs]; [done|].
    cbn [map concat] in *.
    rewrite (mention_keys_cons row seg), (mention_keys_cons row (List.filter _ rows)).
    by rewrite <- app_assoc, IH.
Qed.

(** The table of [extract_entities] holds the key of every gold mention of
    the corpus. *)
Lemma extract_entities_dom rows : forall start entities,
  for_each extract_entities_row rows start = Ok entities ->
  dom start ⊆ dom entities
  /\ forall row key,
       row ∈ rows -> mention_key row = Some key -> key ∈ dom entities.
Proof.
  induction rows as [|row rows IH]; intros start entities Hrun;
    cbn [for_each] in Hrun.
  - inversion Hrun; subst. split; [done|]. by intros ? ? ?%elem_of_nil.
  - rewrite extract_entities_row_cases in Hrun.
    destruct (mention_key row) as [k|] eqn:Hk.
    + destruct (decide (k ∈ dom start)) as [Hin|Hnin].
      * rewrite rbind_Ok in Hrun. destruct (IH _ _ Hrun) as [Hsub Hrows].
        split; [done|]. intros row' key [->|Hin']%elem_of_cons Hkey.
        -- rewrite Hk in Hkey. inversion Hkey; subst. by apply Hsub.
        -- by eapply Hrows.
      * destruct (row_record row) as [e|]; [|discriminate].
        rewrite rbind_Ok in Hrun. destruct (IH _ _ Hrun) as [Hsub Hrows].
        rewrite dom_insert_L in Hsub.
        split; [intros x Hx; apply Hsub, elem_of_union; by right|].
        intros row' key [->|Hin']%elem_of_cons Hkey.
        -- rewrite Hk in Hkey. inversion Hkey; subst.
           apply Hsub, elem_of_union. left. by apply elem_of_singleton.
        -- by eapply Hrows.
    + rewrite rbind_Ok in Hrun. destruct (IH _ _ Hrun) as [Hsub Hrows].
      split; [done|]. intros row' key [->|Hin']%elem_of_cons Hkey.
      * congruence.
      * by eapply Hrows.
Qed.

Lemma elem_of_concat {A} (x : A) l ls : x ∈ l -> l ∈ ls -> x ∈ concat ls.
Proof.
  intros Hx. induction ls as [|l' ls IH]; [by intros ?%elem_of_nil|].
  intros [->|Hl]%elem_of_cons; simpl; apply elem_of_app; [by left|right; auto].
Qed.

Lemma mention_keys_elem key rows :
  key ∈ mention_keys rows ->
  exists row, row ∈ rows /\ mention_key row = Some key.
Proof. unfold mention_keys. intros Hin. by apply list_elem_of_omap in Hin. Qed.

Lemma split_tsv_file_keys_known rows table :
  extract_entities rows = Ok table ->
  exists splits,
    split_tsv_file rows = Ok splits
    /\ concat splits
       = mention_keys (List.filter (fun row => negb (is_docstart row)) rows)
    /\ forall split key, split ∈ splits -> key ∈ split -> key ∈ dom table.
Proof.
  intros Htable. exists (documents rows).
  split; [apply split_tsv_file_run|].
  assert (concat (documents rows)
          = mention_keys (List.filter (fun row => negb (is_docstart row)) rows))
    as Hflat.
  { unfold documents.
    by rewrite concat_drop_empty_last, concat_merge_first_two, concat_segments. }
  split; [done|].
  intros split key Hsplit Hkey.
  assert (key ∈ concat (documents rows)) as Hin.
  { by apply (elem_of_concat key split). }
  rewrite Hflat in Hin.
  destruct (mention_keys_elem _ _ Hin) as (row & Hrow & Hk).
  apply list_elem_of_In, filter_In in Hrow as [Hrow _].
  apply list_elem_of_In in Hrow.
  by destruct (extract_entities_dom rows ∅ table Htable) as [_ H]; eapply H.
Qed.

(** X6: no key is lost or repeated by the split: the documents of
    [split_tsv_file], one after the other, are the keys of the gold mentions
    of the rows that are not marker rows, in corpus order; and when
    [extract_entities] returns a table for the same corpus, every key of
    every document is a key of that table. *)
Theorem split_tsv_file_keys rows table :
  extract_entities rows = Ok table ->
  exists splits,
    split_tsv_file rows = Ok splits
    /\ concat splits
       = mention_keys (List.filter (fun row => negb (is_docstart row)) rows)
    /\ forall split key, split ∈ splits -> key ∈ split -> key ∈ dom table.
Proof. exact (split_tsv_file_keys_known rows table). Qed.

Lemma length_segments rows :
  length (segments rows) = S (length (List.filter is_docstart rows)).
Proof.
  induction rows as [|row rows IH]; [done|].
  cbn [segments List.filter]. destruct (is_docstart row); cbn [length].
  - by rewrite IH.
  - pose proof (segments_nonempty rows) as Hne.
    destruct (segments rows) as [|seg segs]; [done|]. exact IH.
Qed.

Lemma length_drop_empty_last k ks :
  length (drop_empty_last (k :: ks))
  = match List.last (k :: ks) [] with
    | [] => length ks
    | _ => S (length ks)
    end.
Proof.
  revert k. induction ks as [|k' ks IH]; intros k.
  - simpl. by destruct k.
  - change (drop_empty_last (k :: k' :: ks))
      with (k :: drop_empty_last (k' :: ks)).
    change (List.last (k :: k' :: ks) []) with (List.last (k' :: ks) []).
    cbn [length]. rewrite IH. by destruct (List.last (k' :: ks) []).
Qed.

Lemma last_map_mention_keys segs :
  List.last (map mention_keys segs) [] = mention_keys (List.last segs []).
Proof.
  induction segs as [|seg segs IH]; [done|].
  destruct segs as [|seg' segs]; [done|]. exact IH.
Qed.

(** X7: a corpus with at least two marker rows yields as many documents as
    it has marker rows when a gold mention follows the last marker row, and
    one fewer when none does: the last document of the corpus then gets no
    split. *)
Theorem split_tsv_file_count rows splits :
  2 <= length (List.filter is_docstart rows) ->
  split_tsv_file rows = Ok splits ->
  length splits
  = match mention_keys (List.last (segments rows) []) with
    | [] => length (List.filter is_docstart rows) - 1
    | _ => length (List.filter is_docstart rows)
    end.
Proof.
  intros Hn. rewrite split_tsv_file_run. intros [= <-].
  unfold documents. pose proof (length_segments rows) as Hlen.
  rewrite <- last_map_mention_keys.
  rewrite <- (length_map mention_keys) in Hlen.
  destruct (map mention_keys (segments rows)) as [|k0 [|k1 [|k2 ks]]];
    cbn [length] in Hlen; try lia.
  change (merge_first_two (k0 :: k1 :: k2 :: ks)) with ((k0 ++ k1)%list :: k2 :: ks).
  rewrite length_drop_empty_last.
  change (List.last ((k0 ++ k1)%list :: k2 :: ks) []) with (List.last (k2 :: ks) []).
  change (List.last (k0 :: k1 :: k2 :: ks) []) with (List.last (k2 :: ks) []).
  cbn [length].
  destruct (List.last (k2 :: ks) []); lia.
Qed.

(** ** Attaching candidates to entities *)

Lemma attach_ref_lookup candidate entities ref k :
  attach_ref candidate entities ref !! k
  = if decide (k = ref) then Ent.append_candidate candidate <$> entities !! k
    else entities !! k.
Proof.
  unfold attach_ref. destruct (decide (ref ∈ dom entities)) as [Hin|Hnin].
  - rewrite lookup_alter. destruct (decide (k = ref)) as [->|Hne].
    + by rewrite decide_True.
    + by rewrite decide_False.
  - destruct (decide (k = ref)) as [->|Hne]; [|done].
    apply not_elem_of_dom in Hnin. by rewrite Hnin.
Qed.

Lemma attach_refs_lookup candidate refs : forall entities k,
  NoDup refs ->
  fold_left (attach_ref candidate) refs entities !! k
  = if decide (k ∈ refs) then Ent.append_candidate candidate <$> entities !! k
    else entities !! k.
Proof.
  induction refs as [|ref refs IH]; intros entities k Hnd; cbn [fold_left].
  - rewrite decide_False; [done|]. apply not_elem_of_nil.
  - apply NoDup_cons in Hnd as [Hnin Hnd]. rewrite IH by done.
    rewrite attach_ref_lookup.
    destruct (decide (k = ref)) as [->|Hne].
    + rewrite (decide_False (P := ref ∈ refs)) by done.
      rewrite decide_True; [done|left].
    + destruct (decide (k ∈ refs)) as [Hin|Hnin'].
      * rewrite decide_True; [done|by right].
      * rewrite decide_False; [done|].
        by intros [?|?]%elem_of_cons.
Qed.

Lemma append_candidates_nil e : append_candidates [] e = e.
Proof. unfold append_candidates. rewrite app_nil_r. by destruct e. Qed.

Lemma append_candidates_app ks ks' e :
  append_candidates ks' (append_candidates ks e) = append_candidates (ks ++ ks') e.
Proof. unfold append_candidates. simpl. by rewrite app_assoc. Qed.

Section attach.
Variable refs_iter : gset string -> list string.
Hypothesis refs_iter_elements : forall s, refs_iter s ≡ₚ elements s.

Lemma add_candidates_lookup all_candidates : forall entities k,
  add_candidates_to_entities refs_iter entities all_candidates !! k
  = append_candidates (referencing k all_candidates) <$> entities !! k.
Proof.
  unfold add_candidates_to_entities, referencing.
  induction all_candidates as [|[key c] cs IH]; intros entities k;
    cbn [fold_left List.filter map].
  - destruct (entities !! k) as [e|]; [|done]. simpl.
    by rewrite append_candidates_nil.
  - rewrite IH. cbn [fst snd].
    rewrite attach_refs_lookup
      by (rewrite refs_iter_elements; apply NoDup_elements).
    assert (k ∈ refs_iter (Cand.references c) <-> k ∈ Cand.references c) as Hiff.
    { rewrite refs_iter_elements. apply elem_of_elements. }
    destruct (decide (k ∈ Cand.references c)) as [Hin|Hnin].
    + rewrite decide_True by (by apply Hiff).
      rewrite bool_decide_eq_true_2 by done. cbn [map fst].
      destruct (entities !! k) as [e|]; [|done]. simpl. f_equal.
      change (Ent.append_candidate key e) with (append_candidates [key] e).
      by rewrite append_candidates_app.
    + rewrite decide_False by (by rewrite Hiff).
      by rewrite bool_decide_eq_false_2.
Qed.

Lemma add_candidates_to_entities_fields entities all_candidates :
  dom (add_candidates_to_entities refs_iter entities all_candidates)
  = dom entities
  /\ forall k e,
       entities !! k = Some e ->
       add_candidates_to_entities refs_iter entities all_candidates !! k
       = Some (Ent.mk (Ent.name e) (Ent.link e) (Ent.wname e) (Ent.fid e)
                 (Ent.wid e)
                 (Ent.candidates e ++ referencing k all_candidates)).
Proof.
  split.
  - apply set_eq. intros k. rewrite !elem_of_dom, add_candidates_lookup.
    by rewrite fmap_is_Some.
  - intros k e He. by rewrite add_candidates_lookup, He.
Qed.

(** X8: [add_candidates_to_entities] keeps the keys and the provenance
    fields of the entity table, and gives every entity, after the candidates
    it had, the keys of the candidates whose references hold the entity key,
    each once and in the order of the candidate map, whatever the order in
    which the reference sets are enumerated. *)
Theorem add_candidates_to_entities_spec entities all_candidates :
  dom (add_candidates_to_entities refs_iter entities all_candidates)
  = dom entities
  /\ forall k e,
       entities !! k = Some e ->
       add_candidates_to_entities refs_iter entities all_candidates !! k
       = Some (Ent.mk (Ent.name e) (Ent.link e) (Ent.wname e) (Ent.fid e)
                 (Ent.wid e)
                 (Ent.candidates e ++ referencing k all_candidates)).
Proof. exact (add_candidates_to_entities_fields entities all_candidates). Qed.

End attach.

(** ** Exporter: the shared popularity field is never observed *)

Lemma popularity_changed_only_refl store : popularity_changed_only store store.
Proof.
  split; [done|]. intros k. destruct (ODict.get k store) as [c|]; [|done].
  by destruct c.
Qed.

Lemma popularity_changed_only_trans s1 s2 s3 :
  popularity_changed_only s1 s2 -> popularity_changed_only s2 s3 ->
  popularity_changed_only s1 s3.
Proof.
  intros [Hk1 H1] [Hk2 H2]. split; [congruence|]. intros k.
  specialize (H1 k). specialize (H2 k).
  destruct (ODict.get k s1) as [c1|], (ODict.get k s2) as [c2|],
    (ODict.get k s3) as [c3|]; try done.
  rewrite <- H2, <- H1. by destruct c1.
Qed.

Lemma store_popularity_changed_only store k :
  popularity_changed_only store (store_popularity store k).
Proof.
  unfold store_popularity. split; [apply odict_keys_alter|].
  intros k'. rewrite odict_get_alter.
  destruct (decide (k' = k)) as [->|Hne];
    destruct (ODict.get _ store) as [c|]; simpl; try done; by destruct c.
Qed.

Lemma store_popularity_fold_changed_only ks : forall store,
  popularity_changed_only store (fold_left store_popularity ks store).
Proof.
  induction ks as [|k ks IH]; intros store; cbn [fold_left].
  - apply popularity_changed_only_refl.
  - eapply popularity_changed_only_trans;
      [apply store_popularity_changed_only|apply IH].
Qed.

Lemma pop_of_changed_only store store' k :
  popularity_changed_only store store' -> pop_of store' k = pop_of store k.
Proof.
  intros [_ H]. specialize (H k). unfold pop_of.
  destruct (ODict.get k store) as [c|], (ODict.get k store') as [c'|];
    try done.
  by rewrite <- H.
Qed.

Lemma candidate_line_popularity links_iter v c :
  candidate_line links_iter (Cand.set_popularity v c)
  = candidate_line links_iter c.
Proof. reflexivity. Qed.

Lemma candidate_lines_changed_only links_iter store store' top :
  popularity_changed_only store store' ->
  candidate_lines links_iter store' top = candidate_lines links_iter store top.
Proof.
  intros [_ H]. unfold candidate_lines.
  induction top as [|k top IH]; [done|].
  change (omap ?f (k :: top))
    with (match f k with Some y => y :: omap f top | None => omap f top end).
  rewrite IH. specialize (H k).
  destruct (ODict.get k store) as [c|], (ODict.get k store') as [c'|];
    try done.
  simpl. by rewrite <- H, candidate_line_popularity.
Qed.

Lemma popularity_of_stored ks store k :
  k ∈ ks ->
  popularity_of (fold_left store_popularity ks store) k = pop_of store k.
Proof.
  intros Hin. unfold popularity_of, pop_of.
  rewrite store_popularity_get, decide_True by done.
  by destruct (ODict.get k store).
Qed.

Lemma insert_desc_ext {A} (key key' : A -> nat) x l :
  key x = key' x -> (forall y, y ∈ l -> key y = key' y) ->
  insert_desc key x l = insert_desc key' x l.
Proof.
  intros Hx. induction l as [|y l IH]; intros Hl; [done|].
  simpl. rewrite Hx, (Hl y) by left.
  destruct (key' x <? key' y)%nat; [|done].
  f_equal. apply IH. intros z Hz. apply Hl. by right.
Qed.

Lemma sorted_reverse_ext {A} (key key' : A -> nat) l :
  (forall y, y ∈ l -> key y = key' y) ->
  sorted_reverse key l = sorted_reverse key' l.
Proof.
  induction l as [|x l IH]; intros Hl; [done|].
  unfold sorted_reverse in *. cbn [foldr].
  rewrite IH by (intros y Hy; apply Hl; by right).
  apply insert_desc_ext; [apply Hl; left|].
  intros y Hy. apply Hl. right.
  by rewrite <- (sorted_reverse_perm key' l).
Qed.

Section export_blocks.
Variable links_iter : gset (option string) -> list (option string).

(** One entity: the block is the one read off the store as it was
    before any export. *)
Lemma export_entity_block entities store0 lines store ent :
  popularity_changed_only store0 store ->
  is_Some (entities !! ent) ->
  exists store',
    export_entity links_iter entities (lines, store) ent
    = Ok ((lines ++ entity_block links_iter entities store0 ent)%list, store')
    /\ popularity_changed_only store0 store'.
Proof.
  intros Hch [e He]. unfold export_entity, entity_block. rewrite He.
  cbn [fst snd].
  set (store' := fold_left store_popularity (Ent.candidates e) store).
  assert (popularity_changed_only store0 store') as Hch'.
  { eapply popularity_changed_only_trans;
      [exact Hch|apply store_popularity_fold_changed_only]. }
  exists store'. split; [|done].
  unfold top_candidates.
  rewrite (sorted_reverse_ext (popularity_of store') (pop_of store0)).
  - by rewrite (candidate_lines_changed_only links_iter store0 store').
  - intros k Hk. unfold store'. rewrite popularity_of_stored by done.
    by apply pop_of_changed_only.
Qed.

(** One split. *)
Lemma export_data_blocks_from entities store0 split : forall lines store,
  popularity_changed_only store0 store ->
  (forall ent, ent ∈ split -> is_Some (entities !! ent)) ->
  exists store',
    for_each (export_entity links_iter entities) split (lines, store)
    = Ok ((lines ++ flat_map (entity_block links_iter entities store0) split)%list,
          store')
    /\ popularity_changed_only store0 store'.
Proof.
  induction split as [|ent split IH]; intros lines store Hch Hin;
    cbn [for_each flat_map].
  - exists store. by rewrite app_nil_r.
  - destruct (export_entity_block entities store0 lines store ent Hch)
      as (store1 & -> & Hch1); [apply Hin; left|].
    rewrite rbind_Ok.
    destruct (IH (lines ++ entity_block links_iter entities store0 ent)%list
                store1 Hch1) as (store2 & -> & Hch2);
      [intros ? ?; apply Hin; by right|].
    exists store2. by rewrite <- app_assoc.
Qed.

(** All the splits of [main]. *)
Lemma export_splits_blocks entities store0 splits : forall files store,
  popularity_changed_only store0 store ->
  (forall split ent, split ∈ splits -> ent ∈ split -> is_Some (entities !! ent)) ->
  exists store',
    for_each (export_splits links_iter entities) splits (files, store)
    = Ok ((files
           ++ map (flat_map (entity_block links_iter entities store0)) splits)%list,
          store')
    /\ popularity_changed_only store0 store'.
Proof.
  induction splits as [|split splits IH]; intros files store Hch Hin;
    cbn [for_each map].
  - exists store. by rewrite app_nil_r.
  - unfold export_splits at 1. cbn [fst snd]. unfold export_data.
    destruct (export_data_blocks_from entities store0 split [] store Hch)
      as (store1 & -> & Hch1); [intros ent Hent; eapply Hin; [left|done]|].
    rewrite !rbind_Ok. cbn [fst snd app].
    destruct (IH (files ++ [flat_map (entity_block links_iter entities store0) split])%list
                store1 Hch1) as (store2 & -> & Hch2);
      [intros ? ? ? ?; eapply Hin; [by right|done]|].
    exists store2. by rewrite <- app_assoc.
Qed.

Lemma export_data_lines entities store0 store split :
  popularity_changed_only store0 store ->
  (forall ent, ent ∈ split -> is_Some (entities !! ent)) ->
  exists store',
    export_data links_iter split entities store
    = Ok (flat_map (entity_block links_iter entities store0) split, store')
    /\ popularity_changed_only store0 store'.
Proof.
  intros Hch Hin. unfold export_data.
  destruct (export_data_blocks_from entities store0 split [] store Hch Hin)
    as (store' & -> & Hch').
  by exists store'.
Qed.

(** X9: when every key of the split is a key of the entity table,
    [export_data] returns, and the lines it writes are, entity after entity,
    the entity line followed by the lines of the (at most 20) best
    candidates, ranked by in-count plus out-count as the store held them
    before the call: the ['popularity'] field that the export writes into
    the shared candidate records, in this call or in an earlier one, changes
    nothing of what is written, and nothing else of the store changes. *)
Theorem export_data_blocks entities store0 store split :
  popularity_changed_only store0 store ->
  (forall ent, ent ∈ split -> is_Some (entities !! ent)) ->
  exists store',
    export_data links_iter split entities store
    = Ok (flat_map (entity_block links_iter entities store0) split, store')
    /\ popularity_changed_only store0 store'.
Proof. exact (export_data_lines entities store0 store split). Qed.

(** X24: the first key of the split that is not in the entity table stops
    the export with [KeyError], whatever comes after it. *)
Theorem export_data_missing_key entities store split ent rest :
  (forall k, k ∈ split -> is_Some (entities !! k)) ->
  entities !! ent = None ->
  export_data links_iter (split ++ ent :: rest) entities store = Raise KeyError.
Proof.
  intros Hin Hnone. unfold export_data.
  generalize (@nil string). revert store Hin.
  induction split as [|k split IH]; intros store Hin lines; cbn [app for_each].
  - unfold export_entity at 1. by rewrite Hnone.
  - destruct (export_entity_block entities store lines store k
                (popularity_changed_only_refl store))
      as (store1 & -> & _); [apply Hin; left|].
    rewrite rbind_Ok. apply IH. intros ? ?. apply Hin. by right.
Qed.

End export_blocks.

(** ** The whole program *)

Section main_facts.
Variable links_iter : gset (option string) -> list (option string).
Variable refs_iter : gset string -> list string.
Hypothesis links_iter_elements : forall s, links_iter s ≡ₚ elements s.
Hypothesis refs_iter_elements : forall s, refs_iter s ≡ₚ elements s.

(** X10: [main] raises exactly when [extract_entities] does (a gold mention
    of five or six fields with a new key): once the entity table is built,
    the miner, the counter, the resolver, the split and every export return,
    no export meets a key that is missing from the table, and the files
    written are, split after split and entity after entity, the blocks read
    off the resolved candidate map. *)
Theorem main_files rows lines shards :
  match extract_entities rows with
  | Raise e => main links_iter refs_iter rows lines shards = Raise e
  | Ok entities =>
      exists mined counted resolved,
        extract_candidates lines entities = Ok mined
        /\ extract_candidates_counts shards mined = Ok counted
        /\ replace_links links_iter counted = Ok resolved
        /\ main links_iter refs_iter rows lines shards
           = Ok (map
                   (flat_map
                      (entity_block links_iter
                         (add_candidates_to_entities refs_iter entities resolved)
                         resolved))
                   (documents rows))
  end.
Proof.
  unfold main.
  destruct (extract_entities rows) as [entities|e] eqn:Hents; [|done].
  destruct (extract_candidates_NoDup lines entities) as (mined & Hmine & Hnd).
  destruct (extract_candidates_counts_spec shards mined)
    as (counted & Hcount & Hk & _).
  assert (NoDup (ODict.keys counted)) as Hndc by (by rewrite Hk).
  destruct (replace_links_loop links_iter links_iter_elements
              (ODict.keys counted) counted)
    as (resolved & Hres & _); [done|done|done|].
  exists mined, counted, resolved.
  split; [done|]. split; [done|]. split; [exact Hres|].
  rewrite rbind_Ok, Hmine, rbind_Ok, Hcount, rbind_Ok.
  fold (replace_links links_iter counted) in Hres.
  rewrite Hres, rbind_Ok.
  cbv zeta.
  destruct (split_tsv_file_keys_known rows entities Hents)
    as (splits & Hsplit & _ & Hkeys).
  rewrite split_tsv_file_run in Hsplit. inversion Hsplit; subst splits.
  rewrite split_tsv_file_run, rbind_Ok.
  destruct (export_splits_blocks links_iter
              (add_candidates_to_entities refs_iter entities resolved)
              resolved (documents rows) [] resolved
              (popularity_changed_only_refl resolved))
    as (store' & -> & _).
  - intros split ent Hs He. apply elem_of_dom.
    rewrite (proj1 (add_candidates_to_entities_fields refs_iter
                      refs_iter_elements entities resolved)).
    by eapply Hkeys.
  - by rewrite rbind_Ok.
Qed.

End main_facts.

(** ** Link-Graph Counter: ids, links and the fields it leaves alone *)

Lemma same_but_counted_refl c : same_but_counted c c.
Proof. by repeat split. Qed.

Lemma same_but_counted_trans c1 c2 c3 :
  same_but_counted c1 c2 -> same_but_counted c2 c3 -> same_but_counted c1 c3.
Proof.
  unfold same_but_counted. intros (? & ? & ? & ? & ? & ?) (? & ? & ? & ? & ? & ?).
  repeat split; congruence.
Qed.

Lemma counted_only_refl d : counted_only d d.
Proof.
  split; [done|]. intros k c Hc. exists c.
  by split; [|apply same_but_counted_refl].
Qed.

Lemma counted_only_trans d1 d2 d3 :
  counted_only d1 d2 -> counted_only d2 d3 -> counted_only d1 d3.
Proof.
  intros [Hk1 H1] [Hk2 H2]. split; [congruence|].
  intros k c3 Hc3. destruct (H2 k c3 Hc3) as (c2 & Hc2 & Hs2).
  destruct (H1 k c2 Hc2) as (c1 & Hc1 & Hs1).
  exists c1. split; [done|]. by eapply same_but_counted_trans.
Qed.

Lemma counted_only_alter f k d :
  (forall c, same_but_counted c (f c)) -> counted_only d (ODict.alter f k d).
Proof.
  intros Hf. split; [apply odict_keys_alter|].
  intros k' c'. rewrite odict_get_alter.
  destruct (decide (k' = k)) as [->|Hne].
  - destruct (ODict.get k d) as [c|]; [|done]. simpl. intros [= <-].
    exists c. by split.
  - intros Hc. exists c'. by split; [|apply same_but_counted_refl].
Qed.

Lemma links_of_alter f k d c :
  (forall r, Cand.links (f r) = Cand.links r) ->
  links_of (ODict.alter f k d) c = links_of d c.
Proof.
  intros Hf. unfold links_of. rewrite odict_get_alter.
  destruct (decide (c = k)); [|done].
  destruct (ODict.get c d); simpl; [apply Hf|done].
Qed.

Lemma id_of_alter f k d c :
  (forall r, Cand.id (f r) = Cand.id r) ->
  id_of (ODict.alter f k d) c = id_of d c.
Proof.
  intros Hf. unfold id_of. rewrite odict_get_alter.
  destruct (decide (c = k)); [|done].
  destruct (ODict.get c d); simpl; [apply Hf|done].
Qed.

Lemma links_of_add_link target title d c :
  title ∈ ODict.keys d ->
  links_of (ODict.alter (add_link target) title d) c
  = links_of d c ∪ (if decide (title = c) then {[target]} else ∅).
Proof.
  intros [r Hr]%odict_get_keys. unfold links_of. rewrite odict_get_alter.
  destruct (decide (c = title)) as [->|Hne].
  - rewrite decide_True, Hr by done. simpl. set_solver.
  - rewrite decide_False by congruence.
    destruct (ODict.get c d); set_solver.
Qed.

Lemma id_of_set_id id title d c :
  title ∈ ODict.keys d ->
  id_of (ODict.alter (Cand.set_id (Some id)) title d) c
  = if decide (title = c) then Some id else id_of d c.
Proof.
  intros [r Hr]%odict_get_keys. unfold id_of. rewrite odict_get_alter.
  destruct (decide (c = title)) as [->|Hne].
  - by rewrite decide_True, Hr.
  - by rewrite decide_False by congruence.
Qed.

Lemma target_set_cons keys link links :
  target_set keys (link :: links)
  = target_set keys [link] ∪ target_set keys links.
Proof.
  unfold target_set. cbn [map]. rewrite !filter_cons, filter_nil.
  destruct (decide (before_char "|" link ∈ keys)); cbn [map list_to_set];
    set_solver.
Qed.

Lemma target_set_nil keys : target_set keys [] = ∅.
Proof. reflexivity. Qed.

(** One link of the page of [title]. *)
Lemma count_link_record title d link :
  title ∈ ODict.keys d ->
  exists d',
    count_link title d link = Ok d'
    /\ counted_only d d'
    /\ (forall c, id_of d' c = id_of d c)
    /\ (forall c, links_of d' c
                  = links_of d c
                    ∪ (if decide (title = c) then target_set (ODict.keys d) [link]
                       else ∅)).
Proof.
  intros Ht. unfold count_link, link_target.
  rewrite index_split_char_0, rbind_Ok, odict_mem_keys.
  unfold target_set. cbn [map]. rewrite filter_cons, filter_nil.
  destruct (decide (before_char "|" link ∈ ODict.keys d)) as [Hin|Hnin].
  - rewrite bool_decide_eq_true_2 by done. eexists. split; [done|].
    split.
    { eapply counted_only_trans; [|apply counted_only_alter; by intros ?].
      eapply counted_only_trans; apply counted_only_alter; by intros ?. }
    split; intros c.
    + by rewrite !id_of_alter.
    + rewrite links_of_add_link by (by rewrite !odict_keys_alter).
      rewrite !links_of_alter by done.
      destruct (decide (title = c)); cbn [map list_to_set]; set_solver.
  - rewrite bool_decide_eq_false_2 by done. exists d. split; [done|].
    split; [apply counted_only_refl|]. split; intros c; [done|].
    destruct (decide (title = c)); cbn [map list_to_set]; set_solver.
Qed.

(** All the links of the page of [title]. *)
Lemma count_links_record title links : forall d,
  title ∈ ODict.keys d ->
  exists d',
    for_each (count_link title) links d = Ok d'
    /\ counted_only d d'
    /\ (forall c, id_of d' c = id_of d c)
    /\ (forall c, links_of d' c
                  = links_of d c
                    ∪ (if decide (title = c) then target_set (ODict.keys d) links
                       else ∅)).
Proof.
  induction links as [|link links IH]; intros d Ht; cbn [for_each].
  - exists d. split; [done|]. split; [apply counted_only_refl|].
    split; intros c; [done|].
    rewrite target_set_nil. destruct (decide (title = c)); set_solver.
  - destruct (count_link_record title d link Ht) as (d1 & -> & Hc1 & Hi1 & Hl1).
    rewrite rbind_Ok. pose proof (proj1 Hc1) as Hk1.
    destruct (IH d1) as (d2 & -> & Hc2 & Hi2 & Hl2); [by rewrite Hk1|].
    exists d2. split; [done|]. split; [by eapply counted_only_trans|].
    split; intros c.
    + by rewrite Hi2, Hi1.
    + rewrite Hl2, Hl1, Hk1, (target_set_cons _ link links).
      destruct (decide (title = c)); set_solver.
Qed.

(** One page. *)
Lemma count_page_record d page :
  exists d',
    count_page d page = Ok d'
    /\ counted_only d d'
    /\ (forall c, id_of d' c
                  = match page_id (ODict.keys d) c page with
                    | Some id => Some id
                    | None => id_of d c
                    end)
    /\ (forall c, links_of d' c
                  = links_of d c ∪ page_link_set (ODict.keys d) c page).
Proof.
  unfold count_page, page_id, page_link_set, page_of.
  destruct (search_title page) as [title|];
    [|exists d; split; [done|]; split; [apply counted_only_refl|];
      split; intros c; [done|set_solver]].
  rewrite odict_mem_keys.
  destruct (decide (title ≠ "" ∧ title ∈ ODict.keys d)) as [[Hne Hin]|Hno].
  - rewrite (proj2 (truthy_nonempty title) Hne).
    rewrite (bool_decide_eq_true_2 (title ∈ ODict.keys d)) by done.
    cbn [andb].
    set (with_id := match search_id page with
                    | Some id =>
                        if truthy id
                        then ODict.alter (Cand.set_id (Some id)) title d
                        else d
                    | None => d
                    end).
    assert (counted_only d with_id) as Hc0.
    { unfold with_id. destruct (search_id page) as [id|];
        [|apply counted_only_refl].
      destruct (truthy id); [|apply counted_only_refl].
      apply counted_only_alter. by intros ?. }
    assert (forall c, links_of with_id c = links_of d c) as Hl0.
    { intros c. unfold with_id. destruct (search_id page) as [id|]; [|done].
      destruct (truthy id); [by apply links_of_alter|done]. }
    assert (forall c, id_of with_id c
                      = match (if bool_decide (title ≠ "" ∧ title ∈ ODict.keys d ∧ title = c)
                               then match search_id page with
                                    | Some id => if truthy id then Some id else None
                                    | None => None
                                    end
                               else None) with
                        | Some id => Some id
                        | None => id_of d c
                        end) as Hi0.
    { intros c. unfold with_id.
      destruct (decide (title = c)) as [->|Hc].
      - rewrite bool_decide_eq_true_2 by done.
        destruct (search_id page) as [id|]; [|done].
        destruct (truthy id); [|done].
        by rewrite id_of_set_id, decide_True.
      - rewrite bool_decide_eq_false_2 by (by intros (_ & _ & ?)).
        destruct (search_id page) as [id|]; [|done].
        destruct (truthy id); [|done].
        by rewrite id_of_set_id, decide_False. }
    pose proof (proj1 Hc0) as Hk0.
    destruct (count_links_record title (page_links page) with_id)
      as (d' & -> & Hc' & Hi' & Hl'); [by rewrite Hk0|].
    exists d'. split; [done|]. split; [by eapply counted_only_trans|].
    split; intros c.
    + by rewrite Hi', Hi0.
    + rewrite Hl', Hl0, Hk0.
      destruct (decide (title = c)) as [->|Hc].
      * by rewrite bool_decide_eq_true_2.
      * rewrite bool_decide_eq_false_2; [done|]. by intros (_ & _ & ?).
  - assert (truthy title && bool_decide (title ∈ ODict.keys d) = false) as ->.
    { destruct (truthy title) eqn:Et; [|done].
      apply truthy_nonempty in Et. cbn [andb].
      apply bool_decide_eq_false_2. intros ?. by apply Hno. }
    exists d. split; [done|]. split; [apply counted_only_refl|].
    split; intros c;
      (rewrite bool_decide_eq_false_2;
       [|intros (? & ? & _); by apply Hno]); [done|set_solver].
Qed.

(** A list of pages. *)
Lemma count_pages_record pages : forall d,
  exists d',
    for_each count_page pages d = Ok d'
    /\ counted_only d d'
    /\ (forall c, id_of d' c = last_id (ODict.keys d) c pages (id_of d c))
    /\ (forall c, links_of d' c
                  = links_of d c
                    ∪ ⋃ (map (page_link_set (ODict.keys d) c) pages)).
Proof.
  induction pages as [|page pages IH]; intros d; cbn [for_each].
  - exists d. split; [done|]. split; [apply counted_only_refl|].
    split; intros c; [done|]. simpl. set_solver.
  - destruct (count_page_record d page) as (d1 & -> & Hc1 & Hi1 & Hl1).
    rewrite rbind_Ok. pose proof (proj1 Hc1) as Hk1.
    destruct (IH d1) as (d2 & -> & Hc2 & Hi2 & Hl2).
    exists d2. split; [done|]. split; [by eapply counted_only_trans|].
    split; intros c.
    + rewrite Hi2, Hi1, Hk1. reflexivity.
    + rewrite Hl2, Hl1, Hk1. cbn [map union_list foldr]. set_solver.
Qed.

Lemma last_id_app keys c pages pages' start :
  last_id keys c (pages ++ pages') start
  = last_id keys c pages' (last_id keys c pages start).
Proof. unfold last_id. apply fold_left_app. Qed.

Lemma union_list_map_app {A} (f : A -> gset (option string)) l l' :
  ⋃ (map f (l ++ l')) = ⋃ (map f l) ∪ ⋃ (map f l').
Proof. rewrite map_app. apply leibniz_equiv, union_list_app. Qed.

Lemma extract_candidates_counts_record shards : forall d,
  exists d',
    extract_candidates_counts shards d = Ok d'
    /\ counted_only d d'
    /\ (forall c, id_of d' c
                  = last_id (ODict.keys d) c (all_pages shards) (id_of d c))
    /\ (forall c, links_of d' c
                  = links_of d c
                    ∪ ⋃ (map (page_link_set (ODict.keys d) c) (all_pages shards))).
Proof.
  unfold extract_candidates_counts, all_pages.
  induction shards as [|shard shards IH]; intros d; cbn [for_each map concat].
  - exists d. split; [done|]. split; [apply counted_only_refl|].
    split; intros c; [done|]. simpl. set_solver.
  - destruct (count_pages_record (shard_pages shard) d)
      as (d1 & -> & Hc1 & Hi1 & Hl1).
    rewrite rbind_Ok. pose proof (proj1 Hc1) as Hk1.
    destruct (IH d1) as (d2 & -> & Hc2 & Hi2 & Hl2).
    exists d2. split; [done|]. split; [by eapply counted_only_trans|].
    split; intros c.
    + by rewrite Hi2, Hi1, Hk1, last_id_app.
    + rewrite Hl2, Hl1, Hk1, union_list_map_app. set_solver.
Qed.

(** X4: after the counter, the record of a candidate holds the links it had
    and, besides, the candidate-key targets of the kept links of the pages
    titled as the candidate; its id is the id of the last such page that has
    a non-empty one, or the id it had when there is none; and its url, name,
    normal names, references and popularity are as before. *)
Theorem counter_links_and_id shards d d' c r :
  extract_candidates_counts shards d = Ok d' ->
  ODict.get c d = Some r ->
  exists r',
    ODict.get c d' = Some r'
    /\ Cand.links r'
       = Cand.links r
         ∪ ⋃ (map (page_link_set (ODict.keys d) c) (all_pages shards))
    /\ Cand.id r' = last_id (ODict.keys d) c (all_pages shards) (Cand.id r)
    /\ same_but_counted r r'.
Proof.
  intros Hrun Hr.
  destruct (extract_candidates_counts_record shards d)
    as (d'' & Hrun' & [Hk Hrec] & Hi & Hl).
  rewrite Hrun in Hrun'. inversion Hrun'; subst d''.
  assert (is_Some (ODict.get c d')) as [r' Hr'].
  { apply odict_get_keys. rewrite Hk. apply odict_get_keys. by eexists. }
  exists r'. split; [done|].
  specialize (Hi c). specialize (Hl c).
  unfold links_of in Hl. unfold id_of in Hi. rewrite Hr, Hr' in Hi, Hl.
  split; [done|]. split; [done|].
  destruct (Hrec c r' Hr') as (r0 & Hr0 & Hs). congruence.
Qed.

(** ** Strings: cutting and stripping *)

Lemma app_str_assoc (a b c : string) : (a +:+ b) +:+ c = a +:+ (b +:+ c).
Proof.
  induction a as [|x a IH]; [done|].
  change (String x ((a +:+ b) +:+ c) = String x (a +:+ (b +:+ c))).
  by f_equal.
Qed.

Lemma app_str_nil_r (a : string) : a +:+ "" = a.
Proof.
  induction a as [|x a IH]; [done|].
  change (String x (a +:+ "") = String x a). by f_equal.
Qed.

Lemma free_of_app c a b : free_of c (a +:+ b) <-> free_of c a /\ free_of c b.
Proof.
  induction a as [|x a IH]; simpl; [tauto|]. rewrite IH. tauto.
Qed.

Lemma split_char_free sep s : free_of sep s -> split_char sep s = [s].
Proof.
  induction s as [|c s IH]; simpl; [done|]. intros [Hc Hs].
  rewrite (proj2 (Ascii.eqb_neq c sep)) by done. by rewrite IH.
Qed.

(** A separator after a piece that has none cuts the piece off. *)
Lemma split_char_app sep a b :
  free_of sep a ->
  split_char sep (a +:+ String sep b) = a :: split_char sep b.
Proof.
  induction a as [|c a IH]; simpl.
  - intros _. by rewrite Ascii.eqb_refl.
  - intros [Hc Ha]. rewrite (proj2 (Ascii.eqb_neq c sep)) by done.
    by rewrite IH.
Qed.

Lemma lstrip_by_false p c s : p c = false -> lstrip_by p (String c s) = String c s.
Proof. intros H. simpl. by rewrite H. Qed.

Lemma rstrip_by_snoc p s c :
  rstrip_by p (s +:+ String c "")
  = if p c then rstrip_by p s else s +:+ String c "".
Proof.
  induction s as [|a s IH]; simpl; [by destruct (p c)|].
  rewrite IH. destruct (p c); [done|].
  by destruct s.
Qed.

Lemma rstrip_by_none p s : none_of p s -> rstrip_by p s = s.
Proof.
  induction s as [|a s IH]; simpl; [done|]. intros [Ha Hs].
  rewrite IH by done. rewrite Ha. by destruct s.
Qed.

Lemma lstrip_by_none p s : none_of p s -> lstrip_by p s = s.
Proof. destruct s as [|a s]; simpl; [done|]. by intros [-> _]. Qed.

(** A string wrapped in characters that are stripped, around characters
    that are not, is stripped down to the inside. *)
Lemma strip_wrapped p pre s c :
  none_of p s -> p c = true ->
  (forall t, lstrip_by p (pre +:+ t) = lstrip_by p t) ->
  rstrip_by p (lstrip_by p (pre +:+ s +:+ String c "")) = s.
Proof.
  intros Hs Hc Hpre. rewrite Hpre.
  destruct s as [|a s].
  - simpl. by rewrite Hc.
  - destruct Hs as [Ha Hs]. change (String a s +:+ String c "")
      with (String a (s +:+ String c "")).
    rewrite lstrip_by_false by done.
    change (String a (s +:+ String c "")) with (String a s +:+ String c "").
    rewrite rstrip_by_snoc, Hc. apply rstrip_by_none. by split.
Qed.

Lemma truthy_strip_head c s : isspace c = false -> truthy (strip (String c s)) = true.
Proof.
  intros Hc. unfold strip. rewrite lstrip_by_false by done. simpl.
  destruct (rstrip_by isspace s); [by rewrite Hc|done].
Qed.

(** ** The split file as a list of lines *)

Lemma split_file_contents lines :
  Forall (free_of newline) lines ->
  split_char newline (file_contents lines) = (lines ++ [""])%list.
Proof.
  induction 1 as [|line lines Hline _ IH]; [done|].
  cbn [file_contents foldr app].
  change (foldr _ "" lines) with (file_contents lines).
  by rewrite split_char_app, IH.
Qed.

(** ** Counts written with [str] and read with [int] *)

Lemma digits_value_uint d acc :
  digits_value true acc (NilEmpty.string_of_uint d)
  = Some (uint_value d acc).
Proof.
  revert acc. induction d; intros acc; cbn [NilEmpty.string_of_uint uint_value];
    [done|..]; cbn [digits_value]; rewrite <- IHd; vm_compute is_digit;
    cbv beta iota; f_equal; vm_compute (code _ - 48)%N; lia.
Qed.

Lemma digits_value_first d acc :
  d ≠ Decimal.Nil ->
  digits_value false acc (NilEmpty.string_of_uint d)
  = Some (uint_value d acc).
Proof.
  intros Hd. rewrite <- digits_value_uint.
  destruct d; [done|..]; reflexivity.
Qed.

Lemma uint_value_of_uint_acc d acc :
  uint_value d (N.of_nat acc) = N.of_nat (Nat.of_uint_acc d acc).
Proof.
  revert acc. induction d; intros acc; cbn [uint_value Nat.of_uint_acc];
    [done|..]; rewrite <- IHd; f_equal; rewrite Nat.tail_mul_spec; lia.
Qed.

Lemma uint_value_to_uint n : uint_value (Nat.to_uint n) 0 = N.of_nat n.
Proof.
  change 0%N with (N.of_nat 0). rewrite uint_value_of_uint_acc.
  change (Nat.of_uint_acc (Nat.to_uint n) 0) with (Nat.of_uint (Nat.to_uint n)).
  by rewrite DecimalNat.Unsigned.of_to.
Qed.

Lemma digits_none_of (p : ascii -> bool) d :
  (forall c, is_digit c = true -> p c = false) ->
  none_of p (NilEmpty.string_of_uint d).
Proof.
  intros Hp. induction d; cbn [NilEmpty.string_of_uint none_of];
    [done|..]; (split; [by apply Hp|done]).
Qed.

Lemma digits_free_of c d :
  is_digit c = false -> free_of c (NilEmpty.string_of_uint d).
Proof.
  intros Hc. induction d; cbn [NilEmpty.string_of_uint free_of];
    [done|..]; (split; [by intros <-|done]).
Qed.

Lemma is_digit_not_space c : is_digit c = true -> isspace c = false.
Proof.
  unfold is_digit, isspace. cbv zeta. generalize (code c). intros n Hn.
  apply andb_prop in Hn as [H1 H2].
  apply N.leb_le in H1. apply N.leb_le in H2.
  repeat match goal with
  | |- context [(?a <=? ?b)%N] => destruct (N.leb_spec a b)
  | |- context [(?a =? ?b)%N] => destruct (N.eqb_spec a b)
  end; simpl; try done; lia.
Qed.

Lemma str_of_nat_cases n :
  str_of_nat n = "0" \/
  exists d, d ≠ Decimal.Nil /\ str_of_nat n = NilEmpty.string_of_uint d.
Proof.
  unfold str_of_nat, NilZero.string_of_uint.
  destruct (Nat.to_uint n) as [|d|d|d|d|d|d|d|d|d|d]; [by left|..]; right;
    [exists (Decimal.D0 d)|exists (Decimal.D1 d)|exists (Decimal.D2 d)
    |exists (Decimal.D3 d)|exists (Decimal.D4 d)|exists (Decimal.D5 d)
    |exists (Decimal.D6 d)|exists (Decimal.D7 d)|exists (Decimal.D8 d)
    |exists (Decimal.D9 d)]; done.
Qed.

Lemma strip_str_of_nat n : strip (str_of_nat n) = str_of_nat n.
Proof.
  destruct (str_of_nat_cases n) as [->|(d & _ & ->)]; [done|].
  unfold strip.
  rewrite lstrip_by_none by (apply digits_none_of, is_digit_not_space).
  apply rstrip_by_none, digits_none_of, is_digit_not_space.
Qed.

Lemma free_of_str_of_nat c n : is_digit c = false -> free_of c (str_of_nat n).
Proof.
  intros Hc.
  destruct (str_of_nat_cases n) as [->|(d & _ & ->)].
  - split; [|done]. by intros <-.
  - by apply digits_free_of.
Qed.

(** [int(str(n)) == n] for every count. *)
Lemma int_str_of_nat n : int (str_of_nat n) = Ok (Z.of_nat n).
Proof.
  unfold int. rewrite strip_str_of_nat. cbv zeta.
  assert (Hv : digits_value false 0 (str_of_nat n) = Some (N.of_nat n)).
  { unfold str_of_nat, NilZero.string_of_uint.
    destruct (Nat.to_uint n) eqn:Hd;
      [| rewrite <- Hd, digits_value_first, uint_value_to_uint;
         [done|by rewrite Hd] ..].
    pose proof (uint_value_to_uint n) as H0. rewrite Hd in H0.
    cbn [uint_value] in H0. rewrite <- H0. done. }
  destruct (str_of_nat_cases n) as [H|(d & Hnil & H)].
  - rewrite H in *. change (Some 0%N = Some (N.of_nat n)) in Hv.
    change (Ok 0%Z = Ok (Z.of_nat n)). injection Hv as Hv. f_equal. lia.
  - rewrite H in *. clear H.
    destruct d; [done|..]; cbn [NilEmpty.string_of_uint] in *;
      cbv beta iota; rewrite Hv; f_equal; lia.
Qed.

(** ** Lines of fields *)

Lemma partition_char_app sep a b :
  free_of sep a -> partition_char sep (a +:+ String sep b) = (a, b).
Proof.
  induction a as [|c a IH]; simpl.
  - intros _. by rewrite Ascii.eqb_refl.
  - intros [Hc Ha]. rewrite (proj2 (Ascii.eqb_neq c sep)) by done.
    by rewrite IH.
Qed.

Lemma join_cons sep x y l :
  join sep (x :: y :: l) = x +:+ sep +:+ join sep (y :: l).
Proof. done. Qed.

Lemma free_of_join c sep items :
  free_of c sep -> Forall (free_of c) items -> free_of c (join sep items).
Proof.
  intros Hsep. induction 1 as [|x l Hx Hl IH]; [done|].
  destruct l as [|y l]; [done|].
  rewrite join_cons. rewrite !free_of_app. auto.
Qed.

Lemma split_fields_line items :
  items ≠ [] -> Forall (free_of (ascii_of_N 9)) items ->
  split_char (ascii_of_N 9) (fields_line items) = items.
Proof.
  intros Hne H. induction H as [|x l Hx Hl IH]; [done|].
  destruct l as [|y l].
  - by apply split_char_free.
  - unfold fields_line in *. rewrite join_cons.
    change (tab +:+ join tab (y :: l))
      with (String (ascii_of_N 9) (join tab (y :: l))).
    rewrite split_char_app by done. by rewrite IH.
Qed.

Lemma entity_line_fields e :
  entity_line e
  = fields_line ["ENTITY"; "text:" +:+ Ent.name e; "url:" +:+ Ent.link e;
                 "wname:" +:+ Ent.wname e; "id:" +:+ Ent.wid e;
                 "freebaseId:" +:+ Ent.fid e].
Proof. reflexivity. Qed.

Ltac free_closed := cbn [free_of]; repeat split; discriminate.

Ltac header_item :=
  unfold CandidateRecord.parse_item;
  rewrite bool_decide_eq_false_2 by discriminate;
  match goal with
  | |- context [partition_char ":" (?k +:+ ?v)] =>
      let k' := eval vm_compute in (before_char ":" k) in
      change (k +:+ v) with (k' +:+ String ":" v);
      rewrite (partition_char_app ":" k' v) by free_closed;
      cbv beta iota zeta;
      let lk := eval vm_compute in (lower (strip k')) in
      change (lower (strip k')) with lk
  end;
  repeat (rewrite bool_decide_eq_false_2 by discriminate);
  rewrite bool_decide_eq_true_2 by reflexivity;
  reflexivity.

Lemma header_item_text h v :
  CandidateRecord.parse_item h ("text:" +:+ v)
  = CandidateRecord.mk_header (strip v) (CandidateRecord.h_url h)
      (CandidateRecord.h_wname h) (CandidateRecord.h_id h)
      (CandidateRecord.h_freebase_id h).
Proof. header_item. Qed.

Lemma header_item_url h v :
  CandidateRecord.parse_item h ("url:" +:+ v)
  = CandidateRecord.mk_header (CandidateRecord.h_text h) (strip v)
      (CandidateRecord.h_wname h) (CandidateRecord.h_id h)
      (CandidateRecord.h_freebase_id h).
Proof. header_item. Qed.

Lemma header_item_wname h v :
  CandidateRecord.parse_item h ("wname:" +:+ v)
  = CandidateRecord.mk_header (CandidateRecord.h_text h)
      (CandidateRecord.h_url h) (strip v) (CandidateRecord.h_id h)
      (CandidateRecord.h_freebase_id h).
Proof. header_item. Qed.

Lemma header_item_id h v :
  CandidateRecord.parse_item h ("id:" +:+ v)
  = CandidateRecord.mk_header (CandidateRecord.h_text h)
      (CandidateRecord.h_url h) (CandidateRecord.h_wname h) (strip v)
      (CandidateRecord.h_freebase_id h).
Proof. header_item. Qed.

Lemma header_item_freebaseId h v :
  CandidateRecord.parse_item h ("freebaseId:" +:+ v)
  = CandidateRecord.mk_header (CandidateRecord.h_text h)
      (CandidateRecord.h_url h) (CandidateRecord.h_wname h)
      (CandidateRecord.h_id h) (strip v).
Proof. header_item. Qed.

Lemma free_of_field c k v :
  free_of c k -> free_of c v -> free_of c (k +:+ v).
Proof. intros. by apply free_of_app. Qed.

Lemma parse_entity_line (e : Ent.t) :
  free_of (ascii_of_N 9) (Ent.name e) ->
  free_of (ascii_of_N 9) (Ent.link e) ->
  free_of (ascii_of_N 9) (Ent.wname e) ->
  free_of (ascii_of_N 9) (Ent.wid e) ->
  free_of (ascii_of_N 9) (Ent.fid e) ->
  CandidateRecord.parse (entity_line e) = read_entity e.
Proof.
  intros Hname Hlink Hwname Hwid Hfid.
  unfold CandidateRecord.parse. rewrite entity_line_fields.
  rewrite split_fields_line.
  - cbn [fold_left].
    change (CandidateRecord.parse_item (CandidateRecord.mk_header "" "" "" "" "") "ENTITY")
      with (CandidateRecord.mk_header "" "" "" "" "").
    rewrite header_item_text, header_item_url, header_item_wname,
      header_item_id, header_item_freebaseId.
    reflexivity.
  - done.
  - repeat apply Forall_cons_2; try apply Forall_nil_2;
      try (apply free_of_field; [free_closed|done]).
    free_closed.
Qed.

(** X11: an entity header written by the exporter is read back field by
    field, each value stripped of the white space at its ends, provided no
    field holds a tab. *)
Theorem entity_header_round_trip (e : Ent.t) :
  free_of (ascii_of_N 9) (Ent.name e) ->
  free_of (ascii_of_N 9) (Ent.link e) ->
  free_of (ascii_of_N 9) (Ent.wname e) ->
  free_of (ascii_of_N 9) (Ent.wid e) ->
  free_of (ascii_of_N 9) (Ent.fid e) ->
  CandidateRecord.parse (entity_line e) = read_entity e.
Proof. exact (parse_entity_line e). Qed.

(** ** Candidate lines *)

Lemma candidate_line_fields links_iter c :
  candidate_line links_iter c
  = fields_line
      ["CANDIDATE"; "id:" +:+ str_value (Cand.id c); "name:" +:+ Cand.name c;
       "inCount:" +:+ str_of_nat (Cand.inCount c);
       "outCount:" +:+ str_of_nat (Cand.outCount c);
       "links:" +:+ str_set links_iter (Cand.links c);
       "url:" +:+ Cand.url c; "normalName:" +:+ Cand.normalName c;
       "normalwikititle:" +:+ Cand.normalWikiTitle c].
Proof. reflexivity. Qed.

Ltac candidate_item :=
  unfold Candidate.parse_item;
  rewrite bool_decide_eq_false_2 by discriminate;
  match goal with
  | |- context [partition_char ":" (?k +:+ ?v)] =>
      let Ht := fresh "Ht" in
      assert (Ht : truthy (strip (k +:+ v)) = true)
        by (apply truthy_strip_head; reflexivity);
      rewrite Ht; clear Ht; cbn [negb orb];
      let k' := eval vm_compute in (before_char ":" k) in
      change (k +:+ v) with (k' +:+ String ":" v);
      rewrite (partition_char_app ":" k' v) by free_closed;
      cbv beta iota zeta;
      let lk := eval vm_compute in (lower (strip k')) in
      change (lower (strip k')) with lk
  end;
  repeat (rewrite bool_decide_eq_false_2 by discriminate);
  rewrite bool_decide_eq_true_2 by reflexivity.

Lemma candidate_item_id c v :
  Candidate.parse_item c ("id:" +:+ v)
  = Ok (Candidate.mk (strip v) (Candidate.in_count c) (Candidate.out_count c)
          (Candidate.links c) (Candidate.url c) (Candidate.name c)
          (Candidate.normal_name c) (Candidate.normal_wiki_title c)).
Proof. candidate_item. reflexivity. Qed.

Lemma candidate_item_name c v :
  Candidate.parse_item c ("name:" +:+ v)
  = Ok (Candidate.mk (Candidate.id c) (Candidate.in_count c)
          (Candidate.out_count c) (Candidate.links c) (Candidate.url c)
          (strip v) (Candidate.normal_name c) (Candidate.normal_wiki_title c)).
Proof. candidate_item. reflexivity. Qed.

Lemma candidate_item_inCount c n :
  Candidate.parse_item c ("inCount:" +:+ str_of_nat n)
  = Ok (Candidate.mk (Candidate.id c) (Z.of_nat n) (Candidate.out_count c)
          (Candidate.links c) (Candidate.url c) (Candidate.name c)
          (Candidate.normal_name c) (Candidate.normal_wiki_title c)).
Proof.
  candidate_item. by rewrite strip_str_of_nat, int_str_of_nat.
Qed.

Lemma candidate_item_outCount c n :
  Candidate.parse_item c ("outCount:" +:+ str_of_nat n)
  = Ok (Candidate.mk (Candidate.id c) (Candidate.in_count c) (Z.of_nat n)
          (Candidate.links c) (Candidate.url c) (Candidate.name c)
          (Candidate.normal_name c) (Candidate.normal_wiki_title c)).
Proof.
  candidate_item. by rewrite strip_str_of_nat, int_str_of_nat.
Qed.

Lemma candidate_item_links c v :
  Candidate.parse_item c ("links:" +:+ v)
  = Ok (Candidate.mk (Candidate.id c) (Candidate.in_count c)
          (Candidate.out_count c) (Candidate.parse_links (strip v))
          (Candidate.url c) (Candidate.name c)
          (Candidate.normal_name c) (Candidate.normal_wiki_title c)).
Proof. candidate_item. reflexivity. Qed.

Lemma candidate_item_url c v :
  Candidate.parse_item c ("url:" +:+ v)
  = Ok (Candidate.mk (Candidate.id c) (Candidate.in_count c)
          (Candidate.out_count c) (Candidate.links c) (strip v)
          (Candidate.name c) (Candidate.normal_name c)
          (Candidate.normal_wiki_title c)).
Proof. candidate_item. reflexivity. Qed.

Lemma candidate_item_normalName c v :
  Candidate.parse_item c ("normalName:" +:+ v)
  = Ok (Candidate.mk (Candidate.id c) (Candidate.in_count c)
          (Candidate.out_count c) (Candidate.links c) (Candidate.url c)
          (Candidate.name c) (strip v) (Candidate.normal_wiki_title c)).
Proof. candidate_item. reflexivity. Qed.

Lemma candidate_item_normalwikititle c v :
  Candidate.parse_item c ("normalwikititle:" +:+ v)
  = Ok (Candidate.mk (Candidate.id c) (Candidate.in_count c)
          (Candidate.out_count c) (Candidate.links c) (Candidate.url c)
          (Candidate.name c) (Candidate.normal_name c)
          (rstrip_chars ")" (strip v))).
Proof. candidate_item. reflexivity. Qed.

(** ** Link sets written with [str] and read by [Candidate] *)

Lemma id_char_facts c :
  id_char c = true ->
  repr_char squote c = String c "" /\ c ≠ ","%char /\ c ≠ ascii_of_N 9 /\
  c ≠ newline /\ c ≠ squote /\ mem_char c " '" = false.
Proof.
  destruct c as [[] [] [] [] [] [] [] []]; intros H; vm_compute in H;
    try discriminate H; repeat split; try reflexivity; discriminate.
Qed.

Lemma plain_id_facts s :
  plain_id s = true ->
  repr_chars squote s = s /\ contains_char squote s = false /\
  free_of "," s /\ free_of (ascii_of_N 9) s /\ free_of newline s /\
  none_of (fun c => mem_char c " '") s.
Proof.
  induction s as [|c s IH]; [done|].
  cbn [plain_id]. intros [Hc Hs]%andb_prop.
  destruct (IH Hs) as (Hr & Hq & Hcomma & Htab & Hnl & Hnone).
  destruct (id_char_facts c Hc) as (Hrc & Hc1 & Hc2 & Hc2' & Hc3 & Hc4).
  repeat split; try done.
  - cbn [repr_chars]. by rewrite Hrc, Hr.
  - unfold contains_char in *. cbn [mem_char].
    by rewrite (proj2 (Ascii.eqb_neq squote c)), Hq.
Qed.

Lemma repr_str_plain s :
  plain_id s = true -> repr_str s = String squote (s +:+ String squote "").
Proof.
  intros (Hr & Hq & _)%plain_id_facts. unfold repr_str.
  rewrite Hq. cbn [andb]. cbv zeta. by rewrite Hr.
Qed.

Lemma strip_chars_quoted s :
  none_of (fun c => mem_char c " '") s ->
  strip_chars " '" (String squote (s +:+ String squote "")) = s.
Proof.
  intros Hs. unfold strip_chars.
  change (String squote (s +:+ String squote ""))
    with (String squote "" +:+ s +:+ String squote "").
  by apply strip_wrapped.
Qed.

Lemma repr_value_written v : plain_value v -> written v (repr_value v).
Proof.
  destruct v as [s|]; cbn [plain_value repr_value str_value].
  - intros Hs. rewrite repr_str_plain by done.
    destruct (plain_id_facts s Hs) as (_ & _ & Hcomma & Htab & Hnl & Hnone).
    split.
    + split; [discriminate|]. apply free_of_app. split; [done|].
      split; [discriminate|done].
    + split; [discriminate|]. apply free_of_app. split; [done|].
      split; [discriminate|done].
    + split; [discriminate|]. apply free_of_app. split; [done|].
      split; [discriminate|done].
    + by eexists _, _.
    + exists (String squote s), squote. by split.
    + by apply strip_chars_quoted.
    + change (strip_chars " '" (String " " (String squote (s +:+ String squote ""))))
        with (strip_chars " '" (String squote (s +:+ String squote ""))).
      by apply strip_chars_quoted.
  - intros _. split; try (vm_compute; reflexivity); try free_closed.
    + by eexists _, _.
    + by exists "Non", "e"%char.
Qed.

Lemma split_char_cons_other sep c s :
  c ≠ sep ->
  split_char sep (String c s)
  = match split_char sep s with
    | h :: t => String c h :: t
    | [] => [String c ""]
    end.
Proof. intros Hc. cbn [split_char]. by rewrite (proj2 (Ascii.eqb_neq c sep)). Qed.

Lemma split_join_comma x items :
  Forall (free_of ",") (x :: items) ->
  split_char "," (join ", " (x :: items)) = x :: map (String " ") items.
Proof.
  revert x. induction items as [|y l IH]; intros x H.
  - apply split_char_free. by inversion H.
  - inversion H as [|? ? Hx Hl]; subst. rewrite join_cons.
    change (", " +:+ join ", " (y :: l))
      with (String "," (String " " (join ", " (y :: l)))).
    rewrite split_char_app by done.
    rewrite split_char_cons_other by discriminate.
    by rewrite IH.
Qed.

Lemma join_head sep x items c t :
  x = String c t -> exists t', join sep (x :: items) = String c t'.
Proof.
  intros ->. destruct items as [|y l]; [by eexists|].
  rewrite join_cons. by eexists.
Qed.

Lemma join_last (p : ascii -> bool) sep items :
  items ≠ [] ->
  Forall (fun r => exists y c, r = y +:+ String c "" /\ p c = false) items ->
  exists y c, join sep items = y +:+ String c "" /\ p c = false.
Proof.
  intros Hne H. induction H as [|x l Hx Hl IH]; [done|].
  destruct l as [|x' l].
  - done.
  - destruct IH as (y & c & Hy & Hc); [done|].
    rewrite join_cons, Hy. exists (x +:+ sep +:+ y), c.
    split; [|done]. by rewrite !app_str_assoc.
Qed.

Lemma strip_between (p : ascii -> bool) a c x t y z :
  p a = true -> p c = true -> p x = false -> p z = false ->
  String x t = y +:+ String z "" ->
  rstrip_by p (lstrip_by p (String a (String x t +:+ String c ""))) = String x t.
Proof.
  intros Ha Hc Hx Hz Heq. cbn [lstrip_by]. rewrite Ha.
  change (String x t +:+ String c "") with (String x (t +:+ String c "")).
  rewrite lstrip_by_false by done.
  change (String x (t +:+ String c "")) with (String x t +:+ String c "").
  rewrite rstrip_by_snoc, Hc, Heq, rstrip_by_snoc, Hz. done.
Qed.

Lemma strip_braced X :
  strip (String "{" (X +:+ "}")) = String "{" (X +:+ "}").
Proof.
  unfold strip. rewrite lstrip_by_false by done.
  change (String "{" (X +:+ "}")) with (String "{" X +:+ String "}" "").
  by rewrite rstrip_by_snoc.
Qed.

Lemma truthy_strip_written v r : written v r -> truthy (strip r) = true.
Proof.
  intros [_ _ _ (c & t & -> & _ & Hc) _ _ _]. by apply truthy_strip_head.
Qed.

Lemma truthy_strip_blank_written v r :
  written v r -> truthy (strip (String " " r)) = true.
Proof.
  intros H.
  change (strip (String " " r)) with (strip r). by eapply truthy_strip_written.
Qed.

(** The links of a candidate that has some: every id comes back, in the
    order in which the set was written. *)
Lemma parse_links_written x items :
  Forall plain_value (x :: items) ->
  Candidate.parse_links
    (strip ("{" +:+ join ", " (map repr_value (x :: items)) +:+ "}"))
  = map str_value (x :: items).
Proof.
  intros Hplain.
  set (X := join ", " (map repr_value (x :: items))).
  change ("{" +:+ X +:+ "}") with (String "{" (X +:+ "}")).
  rewrite strip_braced. unfold Candidate.parse_links.
  assert (Hx : written x (repr_value x)).
  { apply repr_value_written. by inversion Hplain. }
  destruct (written_head _ _ Hx) as (c & t & Hr & Hc & _).
  destruct (join_head ", " (repr_value x) (map repr_value items) c t Hr)
    as (t' & HX).
  destruct (join_last (fun c => mem_char c "{} ") ", "
              (map repr_value (x :: items))) as (y & z & Hy & Hz); [done| |].
  { apply Forall_fmap. eapply Forall_impl; [exact Hplain|].
    intros v Hv. exact (written_last _ _ (repr_value_written v Hv)). }
  assert (Hstrip : strip_chars "{} " (String "{" (X +:+ "}")) = X).
  { unfold strip_chars. change (map repr_value (x :: items))
      with (repr_value x :: map repr_value items) in *.
    fold X in Hy. unfold X at 1. cbn [map]. rewrite HX.
    rewrite (strip_between _ "{" "}" c t' y z); try done.
    rewrite <- HX. exact Hy. }
  rewrite Hstrip. cbv zeta.
  assert (Htruthy : truthy X = true).
  { unfold X. cbn [map]. by rewrite HX. }
  rewrite Htruthy. unfold X. cbn [map].
  rewrite split_join_comma.
  2: { change (Forall (free_of ",") (map repr_value (x :: items))).
       apply Forall_fmap. eapply Forall_impl; [exact Hplain|].
       intros v Hv. exact (written_comma _ _ (repr_value_written v Hv)). }
  cbn [List.filter]. rewrite (truthy_strip_written x) by done.
  cbn [map]. rewrite (written_read _ _ Hx). f_equal.
  inversion Hplain as [|? ? _ Hitems]; subst. clear -Hitems.
  induction Hitems as [|v l Hv Hl IH]; [done|].
  cbn [map List.filter].
  rewrite (truthy_strip_blank_written v) by by apply repr_value_written.
  cbn [map]. rewrite (written_read_blank _ _ (repr_value_written v Hv)).
  by rewrite IH.
Qed.

(** ** What the exporter writes, read back *)

Lemma for_each_app {A S} (step : S -> A -> result S) l1 l2 st :
  for_each step (l1 ++ l2)%list st = (st' <-- for_each step l1 st ;; for_each step l2 st').
Proof.
  revert st. induction l1 as [|x l1 IH]; intros st; cbn [for_each app]; [done|].
  destruct (step st x); cbn [rbind]; [apply IH|done].
Qed.

Ltac candidate_fields :=
  cbn [Candidate.id Candidate.in_count Candidate.out_count Candidate.links
       Candidate.url Candidate.name Candidate.normal_name
       Candidate.normal_wiki_title Candidate.init].

Section reading_back_facts.
Variable links_iter : gset (option string) -> list (option string).
Hypothesis links_iter_elements : forall s, links_iter s ≡ₚ elements s.

Lemma links_plain (c : Cand.t) :
  (forall v, v ∈ Cand.links c -> plain_value v) ->
  Forall plain_value (links_iter (Cand.links c)).
Proof.
  intros H. apply Forall_forall. intros v Hv. apply H.
  apply elem_of_elements. by rewrite <- links_iter_elements.
Qed.

Lemma str_set_free (a : ascii) (s : gset (option string)) :
  a ≠ "{"%char -> a ≠ "}"%char -> a ≠ ","%char -> a ≠ " "%char ->
  free_of a "set()" ->
  Forall (fun v => free_of a (repr_value v)) (links_iter s) ->
  free_of a (str_set links_iter s).
Proof.
  intros H1 H2 H3 H4 H5 H. unfold str_set.
  destruct (links_iter s) as [|x l] eqn:Heq; [done|].
  apply free_of_app. split; [split; [congruence|done]|].
  apply free_of_app. split; [|split; [congruence|done]].
  apply free_of_join; [repeat split; congruence|]. by apply Forall_fmap.
Qed.

Lemma parse_links_str_set (s : gset (option string)) :
  Forall plain_value (links_iter s) ->
  Candidate.parse_links (strip (str_set links_iter s))
  = read_links (links_iter s).
Proof.
  intros H. unfold str_set, read_links.
  destruct (links_iter s) as [|x l]; [by vm_compute|].
  by apply parse_links_written.
Qed.

Lemma parse_candidate_line (c : Cand.t) :
  free_of (ascii_of_N 9) (str_value (Cand.id c)) ->
  free_of (ascii_of_N 9) (Cand.name c) ->
  free_of (ascii_of_N 9) (Cand.url c) ->
  free_of (ascii_of_N 9) (Cand.normalName c) ->
  free_of (ascii_of_N 9) (Cand.normalWikiTitle c) ->
  (forall v, v ∈ Cand.links c -> plain_value v) ->
  Candidate.parse (candidate_line links_iter c) = Ok (read_candidate_of links_iter c).
Proof.
  intros Hid Hname Hurl Hnn Hnwt Hlinks%links_plain.
  unfold Candidate.parse. rewrite candidate_line_fields.
  rewrite split_fields_line.
  - cbn [for_each].
    change (Candidate.parse_item Candidate.init "CANDIDATE")
      with (Ok Candidate.init).
    rewrite rbind_Ok, candidate_item_id, rbind_Ok; candidate_fields.
    rewrite candidate_item_name, rbind_Ok; candidate_fields.
    rewrite candidate_item_inCount, rbind_Ok; candidate_fields.
    rewrite candidate_item_outCount, rbind_Ok; candidate_fields.
    rewrite candidate_item_links, rbind_Ok; candidate_fields.
    rewrite candidate_item_url, rbind_Ok; candidate_fields.
    rewrite candidate_item_normalName, rbind_Ok; candidate_fields.
    rewrite candidate_item_normalwikititle; candidate_fields.
    rewrite parse_links_str_set by done. reflexivity.
  - done.
  - repeat apply Forall_cons_2; try apply Forall_nil_2;
      try (apply free_of_field; [free_closed|done]).
    + free_closed.
    + apply free_of_field; [free_closed|]. by apply free_of_str_of_nat.
    + apply free_of_field; [free_closed|]. by apply free_of_str_of_nat.
    + apply free_of_field; [free_closed|].
      apply str_set_free; try discriminate; [free_closed|].
      eapply Forall_impl; [exact Hlinks|].
      intros v Hv. exact (written_tab _ _ (repr_value_written v Hv)).
Qed.

(** X12: a candidate line written by the exporter is read back field by
    field: the texts stripped of the white space at their ends, the counts
    as numbers, the links in the order in which the set was written.  The
    id [None] comes back as the word, and a candidate without links comes
    back with the one link [set()]. *)
Theorem candidate_line_round_trip (c : Cand.t) :
  free_of (ascii_of_N 9) (str_value (Cand.id c)) ->
  free_of (ascii_of_N 9) (Cand.name c) ->
  free_of (ascii_of_N 9) (Cand.url c) ->
  free_of (ascii_of_N 9) (Cand.normalName c) ->
  free_of (ascii_of_N 9) (Cand.normalWikiTitle c) ->
  (forall v, v ∈ Cand.links c -> plain_value v) ->
  Candidate.parse (candidate_line links_iter c) = Ok (read_candidate_of links_iter c).
Proof. exact (parse_candidate_line c). Qed.

(** *** Whole files *)

Lemma entity_line_newline e :
  entity_safe e -> free_of newline (entity_line e).
Proof.
  intros ((_ & H1) & (_ & H2) & (_ & H3) & (_ & H4) & (_ & H5)).
  unfold entity_line.
  repeat (apply free_of_app; split); try done; free_closed.
Qed.

Lemma candidate_line_newline c :
  candidate_safe c -> free_of newline (candidate_line links_iter c).
Proof.
  intros ((_ & H1) & (_ & H2) & (_ & H3) & (_ & H4) & (_ & H5) & Hl%links_plain).
  unfold candidate_line.
  repeat (apply free_of_app; split); try done; try free_closed.
  - by apply free_of_str_of_nat.
  - by apply free_of_str_of_nat.
  - apply str_set_free; try discriminate; [free_closed|].
    eapply Forall_impl; [exact Hl|].
    intros v Hv. exact (written_newline _ _ (repr_value_written v Hv)).
Qed.

Lemma get_candidates_line_entity rev_records e :
  entity_safe e ->
  get_candidates_line rev_records (entity_line e)
  = Ok (read_entity e :: rev_records).
Proof.
  intros ((H1 & _) & (H2 & _) & (H3 & _) & (H4 & _) & (H5 & _)).
  unfold get_candidates_line.
  assert (Ht : truthy (strip (entity_line e)) = true)
    by (apply truthy_strip_head; reflexivity).
  rewrite Ht. cbn [negb].
  change (String.prefix "ENTITY" (entity_line e)) with true. cbv iota.
  by rewrite parse_entity_line.
Qed.

Lemma get_candidates_line_candidate r rev_records c :
  candidate_safe c ->
  get_candidates_line (r :: rev_records) (candidate_line links_iter c)
  = Ok (with_candidates
          (CandidateRecord.candidates r ++ [read_candidate_of links_iter c])%list r
        :: rev_records).
Proof.
  intros ((H1 & _) & (H2 & _) & (H3 & _) & (H4 & _) & (H5 & _) & Hl).
  unfold get_candidates_line.
  assert (Ht : truthy (strip (candidate_line links_iter c)) = true)
    by (apply truthy_strip_head; reflexivity).
  rewrite Ht. cbn [negb].
  change (String.prefix "ENTITY" (candidate_line links_iter c)) with false.
  change (String.prefix "CANDIDATE" (candidate_line links_iter c)) with true.
  cbv iota. unfold CandidateRecord.add_candidate.
  by rewrite parse_candidate_line.
Qed.

Lemma get_candidates_candidates cs : forall r rev_records rest,
  Forall candidate_safe cs ->
  for_each get_candidates_line
    (map (candidate_line links_iter) cs ++ rest)%list (r :: rev_records)
  = for_each get_candidates_line rest
      (with_candidates
         (CandidateRecord.candidates r
          ++ map (read_candidate_of links_iter) cs)%list r
       :: rev_records).
Proof.
  induction cs as [|c cs IH]; intros r rev_records rest H.
  - cbn [map app]. rewrite app_nil_r. by destruct r.
  - inversion H as [|? ? Hc Hcs]; subst. cbn [map app for_each].
    rewrite get_candidates_line_candidate by done. rewrite rbind_Ok.
    rewrite IH by done. cbn [with_candidates CandidateRecord.candidates
      CandidateRecord.text CandidateRecord.url CandidateRecord.wname
      CandidateRecord.id CandidateRecord.freebase_id
      CandidateRecord.orig_text CandidateRecord.non_considered_word_count].
    by rewrite <- app_assoc.
Qed.

Lemma get_candidates_blocks_from blocks : forall rev_records rest,
  Forall (fun b => entity_safe b.1 /\ Forall candidate_safe b.2) blocks ->
  for_each get_candidates_line
    (flat_map (block_lines links_iter) blocks ++ rest)%list rev_records
  = for_each get_candidates_line rest
      (rev (map (block_record links_iter) blocks) ++ rev_records)%list.
Proof.
  induction blocks as [|[e cs] blocks IH]; intros rev_records rest H; [done|].
  inversion H as [|? ? [He Hcs] Hbs]; subst. cbn [fst snd] in *.
  cbn [flat_map].
  change (block_lines links_iter (e, cs))
    with (entity_line e :: map (candidate_line links_iter) cs).
  rewrite <- !app_comm_cons, <- app_assoc.
  cbn [for_each]. rewrite get_candidates_line_entity by done.
  rewrite rbind_Ok, get_candidates_candidates by done.
  rewrite IH by done. cbn [map rev]. rewrite <- app_assoc.
  change (block_record links_iter (e, cs))
    with (with_candidates (map (read_candidate_of links_iter) cs) (read_entity e)).
  done.
Qed.

(** The reader on the lines of any entities with their candidates. *)
Lemma get_candidates_blocks blocks :
  Forall (fun b => entity_safe b.1 /\ Forall candidate_safe b.2) blocks ->
  get_candidates (file_contents (flat_map (block_lines links_iter) blocks))
  = Ok (map (block_record links_iter) blocks).
Proof.
  intros H. unfold get_candidates. rewrite split_file_contents.
  - rewrite get_candidates_blocks_from by done.
    cbn [for_each]. change (get_candidates_line ?r "") with (Ok r).
    rewrite !rbind_Ok, app_nil_r. by rewrite rev_involutive.
  - apply Forall_flat_map. eapply Forall_impl; [exact H|].
    intros [e cs] [He Hcs]. cbn [fst snd] in *. apply Forall_cons_2.
    + by apply entity_line_newline.
    + apply Forall_fmap. eapply Forall_impl; [exact Hcs|].
      intros c Hc. by apply candidate_line_newline.
Qed.

Lemma candidate_lines_omap store top :
  candidate_lines links_iter store top
  = map (candidate_line links_iter) (omap (fun k => ODict.get k store) top).
Proof.
  unfold candidate_lines. induction top as [|k top IH]; [done|].
  change (omap ?f (k :: top))
    with (match f k with Some y => y :: omap f top | None => omap f top end).
  rewrite IH. by destruct (ODict.get k store).
Qed.

Lemma entity_block_lines entities store ent :
  entity_block links_iter entities store ent
  = flat_map (block_lines links_iter) (exported_block entities store ent).
Proof.
  unfold entity_block, exported_block.
  destruct (entities !! ent) as [e|]; [|done].
  cbn [flat_map]. rewrite app_nil_r.
  by rewrite candidate_lines_omap.
Qed.

(** X13: a split file written by [export_data] and read by [get_candidates]
    gives one record for every entry of the split, in the order of the
    split, each with the entity's first 20 candidates by in-count plus
    out-count, in that order. *)
Theorem export_then_read (entities : gmap string Ent.t)
    (store : odict Cand.t) (split : list string) :
  (forall ent, ent ∈ split ->
     exists e, entities !! ent = Some e /\ entity_safe e) ->
  (forall k c, ODict.get k store = Some c -> candidate_safe c) ->
  exists lines store',
    export_data links_iter split entities store = Ok (lines, store')
    /\ get_candidates (file_contents lines)
       = Ok (map (block_record links_iter)
               (flat_map (exported_block entities store) split)).
Proof.
  intros Hents Hstore.
  destruct (export_data_lines links_iter entities store store split)
    as (store' & Hexp & _).
  { apply popularity_changed_only_refl. }
  { intros ent Hent. destruct (Hents ent Hent) as (e & -> & _). by eexists. }
  eexists _, store'. split; [exact Hexp|].
  assert (Hlines : flat_map (entity_block links_iter entities store) split
                   = flat_map (block_lines links_iter)
                       (flat_map (exported_block entities store) split)).
  { clear. induction split as [|ent split IH]; [done|].
    cbn [flat_map]. rewrite flat_map_app, <- IH.
    by rewrite entity_block_lines. }
  rewrite Hlines. apply get_candidates_blocks.
  apply Forall_flat_map, Forall_forall. intros ent Hent.
  destruct (Hents ent Hent) as (e & He & Hsafe).
  unfold exported_block. rewrite He. apply Forall_singleton.
  cbn [fst snd]. split; [done|].
  apply Forall_forall. intros c (k & _ & Hc)%list_elem_of_omap.
  by eapply Hstore.
Qed.

End reading_back_facts.

(** ** The properties on the corpus of two documents *)

Lemma odict_get_elem {V} k (d : odict V) v :
  ODict.get k d = Some v -> (k, v) ∈ d.
Proof.
  induction d as [|[k' v'] d IH]; cbn [ODict.get]; [done|].
  destruct (decide (k = k')) as [->|Hne].
  - intros [= ->]. apply list_elem_of_here.
  - intros H. apply list_elem_of_further. by apply IH.
Qed.

Lemma counter_links_and_id_witness :
  extract_candidates_counts [amsterdam_shard] two_city_mined = Ok dangling_store
  /\ ODict.get "Amsterdam" two_city_mined
     = Some (new_candidate "amsterdam" "Amsterdam")
  /\ exists r',
       ODict.get "Amsterdam" dangling_store = Some r'
       /\ Cand.links r'
          = Cand.links (new_candidate "amsterdam" "Amsterdam")
            ∪ ⋃ (map (page_link_set (ODict.keys two_city_mined) "Amsterdam")
                   (all_pages [amsterdam_shard]))
       /\ Cand.id r'
          = last_id (ODict.keys two_city_mined) "Amsterdam"
              (all_pages [amsterdam_shard])
              (Cand.id (new_candidate "amsterdam" "Amsterdam"))
       /\ same_but_counted (new_candidate "amsterdam" "Amsterdam") r'.
Proof.
  split; [vm_compute; reflexivity|]. split; [reflexivity|].
  apply (counter_links_and_id [amsterdam_shard] two_city_mined dangling_store
           "Amsterdam" (new_candidate "amsterdam" "Amsterdam"));
    [vm_compute; reflexivity|reflexivity].
Defined.

Lemma split_tsv_file_keys_witness :
  extract_entities two_city_rows = Ok two_city_table
  /\ exists splits,
       split_tsv_file two_city_rows = Ok splits
       /\ concat splits
          = mention_keys
              (List.filter (fun row => negb (is_docstart row)) two_city_rows)
       /\ forall split key,
            split ∈ splits -> key ∈ split -> key ∈ dom two_city_table.
Proof.
  split; [vm_compute; reflexivity|].
  apply (split_tsv_file_keys two_city_rows two_city_table).
  vm_compute. reflexivity.
Defined.

Lemma split_tsv_file_count_witness :
  2 <= length (List.filter is_docstart two_city_rows)
  /\ split_tsv_file two_city_rows = Ok [["amsterdam"]; ["rotterdam"]]
  /\ length [["amsterdam"]; ["rotterdam"]]
     = match mention_keys (List.last (segments two_city_rows) []) with
       | [] => length (List.filter is_docstart two_city_rows) - 1
       | _ => length (List.filter is_docstart two_city_rows)
       end.
Proof.
  split; [vm_compute; lia|]. split; [vm_compute; reflexivity|].
  apply (split_tsv_file_count two_city_rows [["amsterdam"]; ["rotterdam"]]);
    [vm_compute; lia|vm_compute; reflexivity].
Defined.

Lemma add_candidates_to_entities_witness :
  (forall s : gset string, elements s ≡ₚ elements s)
  /\ dom (add_candidates_to_entities elements two_city_table resolved_store)
     = dom two_city_table
  /\ forall k e,
       two_city_table !! k = Some e ->
       add_candidates_to_entities elements two_city_table resolved_store !! k
       = Some (Ent.mk (Ent.name e) (Ent.link e) (Ent.wname e) (Ent.fid e)
                 (Ent.wid e)
                 (Ent.candidates e ++ referencing k resolved_store)%list).
Proof.
  split; [intros s; reflexivity|].
  apply (add_candidates_to_entities_spec elements). intros s. reflexivity.
Defined.

Lemma two_city_split_known ent :
  ent ∈ ["amsterdam"; "rotterdam"] ->
  exists e, two_city_entities !! ent = Some e /\ entity_safe e.
Proof.
  intros [->|[->|[]%elem_of_nil]%elem_of_cons]%elem_of_cons.
  - eexists. split; [vm_compute; reflexivity|].
    repeat split; cbn [free_of]; repeat split; discriminate.
  - eexists. split; [vm_compute; reflexivity|].
    repeat split; cbn [free_of]; repeat split; discriminate.
Qed.

Lemma resolved_store_safe k c :
  ODict.get k resolved_store = Some c -> candidate_safe c.
Proof.
  intros [[= -> ->]|[[= -> ->]|[]%elem_of_nil]%elem_of_cons]%odict_get_elem%elem_of_cons.
  - repeat split; cbn [free_of]; repeat split; try discriminate.
    intros v Hv. change (v ∈ ({[Some "2747"]} : gset (option string))) in Hv.
    by apply elem_of_singleton in Hv as ->.
  - repeat split; cbn [free_of]; repeat split; discriminate.
Qed.

Lemma export_data_blocks_witness :
  popularity_changed_only resolved_store resolved_store
  /\ (forall ent, ent ∈ ["amsterdam"; "rotterdam"] ->
        is_Some (two_city_entities !! ent))
  /\ exists store',
       export_data elements ["amsterdam"; "rotterdam"] two_city_entities
         resolved_store
       = Ok (flat_map (entity_block elements two_city_entities resolved_store)
               ["amsterdam"; "rotterdam"], store')
       /\ popularity_changed_only resolved_store store'.
Proof.
  assert (H : forall ent, ent ∈ ["amsterdam"; "rotterdam"] ->
                is_Some (two_city_entities !! ent)).
  { intros ent (e & -> & _)%two_city_split_known. by eexists. }
  split; [apply popularity_changed_only_refl|]. split; [exact H|].
  apply (export_data_blocks elements two_city_entities resolved_store
           resolved_store ["amsterdam"; "rotterdam"]);
    [apply popularity_changed_only_refl|exact H].
Defined.

Lemma main_files_witness :
  (forall s : gset (option string), elements s ≡ₚ elements s)
  /\ (forall s : gset string, elements s ≡ₚ elements s)
  /\ match extract_entities two_city_rows with
     | Raise e =>
         main elements elements two_city_rows two_city_lines
           [amsterdam_shard; rotterdam_page_shard] = Raise e
     | Ok entities =>
         exists mined counted resolved,
           extract_candidates two_city_lines entities = Ok mined
           /\ extract_candidates_counts [amsterdam_shard; rotterdam_page_shard]
                mined = Ok counted
           /\ replace_links elements counted = Ok resolved
           /\ main elements elements two_city_rows two_city_lines
                [amsterdam_shard; rotterdam_page_shard]
              = Ok (map
                      (flat_map
                         (entity_block elements
                            (add_candidates_to_entities elements entities
                               resolved)
                            resolved))
                      (documents two_city_rows))
     end.
Proof.
  split; [intros s; reflexivity|]. split; [intros s; reflexivity|].
  apply (main_files elements elements); intros s; reflexivity.
Defined.

Lemma entity_header_round_trip_witness :
  free_of (ascii_of_N 9) (Ent.name messi_record)
  /\ free_of (ascii_of_N 9) (Ent.link messi_record)
  /\ free_of (ascii_of_N 9) (Ent.wname messi_record)
  /\ free_of (ascii_of_N 9) (Ent.wid messi_record)
  /\ free_of (ascii_of_N 9) (Ent.fid messi_record)
  /\ CandidateRecord.parse (entity_line messi_record) = read_entity messi_record.
Proof.
  do 5 (split; [cbn [free_of]; repeat split; discriminate|]).
  apply (entity_header_round_trip messi_record);
    cbn [free_of]; repeat split; discriminate.
Defined.

Lemma candidate_line_round_trip_witness :
  (forall s : gset (option string), elements s ≡ₚ elements s)
  /\ free_of (ascii_of_N 9) (str_value (Cand.id amsterdam_resolved))
  /\ free_of (ascii_of_N 9) (Cand.name amsterdam_resolved)
  /\ free_of (ascii_of_N 9) (Cand.url amsterdam_resolved)
  /\ free_of (ascii_of_N 9) (Cand.normalName amsterdam_resolved)
  /\ free_of (ascii_of_N 9) (Cand.normalWikiTitle amsterdam_resolved)
  /\ (forall v, v ∈ Cand.links amsterdam_resolved -> plain_value v)
  /\ Candidate.parse (candidate_line elements amsterdam_resolved)
     = Ok (read_candidate_of elements amsterdam_resolved).
Proof.
  destruct (resolved_store_safe "Amsterdam" amsterdam_resolved eq_refl)
    as ((H1 & _) & (H2 & _) & (H3 & _) & (H4 & _) & (H5 & _) & Hl).
  split; [intros s; reflexivity|].
  split; [exact H1|]. split; [exact H2|]. split; [exact H3|].
  split; [exact H4|]. split; [exact H5|]. split; [exact Hl|].
  apply (candidate_line_round_trip elements); try done.
Defined.

Lemma export_then_read_witness :
  (forall s : gset (option string), elements s ≡ₚ elements s)
  /\ (forall ent, ent ∈ ["amsterdam"; "rotterdam"] ->
        exists e, two_city_entities !! ent = Some e /\ entity_safe e)
  /\ (forall k c, ODict.get k resolved_store = Some c -> candidate_safe c)
  /\ exists lines store',
       export_data elements ["amsterdam"; "rotterdam"] two_city_entities
         resolved_store = Ok (lines, store')
       /\ get_candidates (file_contents lines)
          = Ok (map (block_record elements)
                  (flat_map (exported_block two_city_entities resolved_store)
                     ["amsterdam"; "rotterdam"])).
Proof.
  split; [intros s; reflexivity|].
  split; [exact two_city_split_known|].
  split; [exact resolved_store_safe|].
  apply (export_then_read elements);
    [intros s; reflexivity|exact two_city_split_known|exact resolved_store_safe].
Defined.

Lemma export_data_missing_key_witness :
  (forall k, k ∈ ["amsterdam"] -> is_Some (two_city_entities !! k))
  /\ two_city_entities !! "utrecht" = None
  /\ export_data elements (["amsterdam"] ++ "utrecht" :: ["rotterdam"])
       two_city_entities resolved_store = Raise KeyError.
Proof.
  assert (H : forall k, k ∈ ["amsterdam"] -> is_Some (two_city_entities !! k)).
  { intros k ->%list_elem_of_singleton. eexists. vm_compute. reflexivity. }
  split; [exact H|]. split; [vm_compute; reflexivity|].
  apply (export_data_missing_key elements two_city_entities resolved_store
           ["amsterdam"] "utrecht" ["rotterdam"]);
    [exact H|vm_compute; reflexivity].
Defined.

(** ** When the entity table can be built *)

Lemma first_mention_cons key row rows :
  first_mention key (row :: rows)
  = if bool_decide (mention_key row = Some key) then Some row
    else first_mention key rows.
Proof. done. Qed.

Lemma mention_keys_cons_some row rows k :
  mention_key row = Some k -> mention_keys (row :: rows) = k :: mention_keys rows.
Proof. intros H. unfold mention_keys. simpl. by rewrite H. Qed.

Lemma mention_keys_cons_none row rows :
  mention_key row = None -> mention_keys (row :: rows) = mention_keys rows.
Proof. intros H. unfold mention_keys. simpl. by rewrite H. Qed.

Lemma extract_entities_outcome_from rows : forall start,
  match for_each extract_entities_row rows start with
  | Ok entities =>
      (forall key,
         key ∈ dom entities <-> key ∈ dom start \/ key ∈ mention_keys rows)
      /\ forall key row,
           (key ∉ dom start) -> first_mention key rows = Some row ->
           is_Some (row_record row)
  | Raise e =>
      e = IndexError
      /\ exists key row,
           (key ∉ dom start) /\ first_mention key rows = Some row
           /\ row_record row = None
  end.
Proof.
  induction rows as [|row rows IH]; intros start; cbn [for_each].
  - split.
    + intros key. split; [by left|]. intros [H|H]; [done|].
      by apply elem_of_nil in H.
    + intros key row _ H. discriminate H.
  - rewrite extract_entities_row_cases.
    destruct (mention_key row) as [k|] eqn:Hk.
    + destruct (decide (k ∈ dom start)) as [Hin|Hnin].
      * rewrite rbind_Ok. specialize (IH start).
        destruct (for_each extract_entities_row rows start) as [entities|e].
        -- destruct IH as [Hdom Hrec]. split.
           ++ intros key. rewrite Hdom, (mention_keys_cons_some _ _ k Hk).
              rewrite elem_of_cons.
              split; [tauto|]. intros [H|[->|H]]; tauto.
           ++ intros key row' Hkey. rewrite first_mention_cons, Hk.
              rewrite bool_decide_eq_false_2 by congruence. by apply Hrec.
        -- destruct IH as [-> (key & row' & Hkey & Hfirst & Hnone)].
           split; [done|]. exists key, row'. split; [done|]. split; [|done].
           rewrite first_mention_cons, Hk.
           by rewrite bool_decide_eq_false_2 by congruence.
      * destruct (row_record row) as [e|] eqn:Hr.
        -- rewrite rbind_Ok. specialize (IH (<[k:=e]> start)).
           destruct (for_each extract_entities_row rows (<[k:=e]> start))
             as [entities|e'].
           ++ destruct IH as [Hdom Hrec]. split.
              ** intros key. rewrite Hdom, (mention_keys_cons_some _ _ k Hk).
                 rewrite dom_insert, elem_of_union, elem_of_singleton.
                 rewrite elem_of_cons. tauto.
              ** intros key row' Hkey. rewrite first_mention_cons, Hk.
                 destruct (decide (k = key)) as [->|Hne].
                 --- rewrite bool_decide_eq_true_2 by done.
                     intros [= <-]. by rewrite Hr.
                 --- rewrite bool_decide_eq_false_2 by congruence.
                     apply Hrec. rewrite dom_insert, elem_of_union,
                       elem_of_singleton. intros [->|H]; done.
           ++ destruct IH as [-> (key & row' & Hkey & Hfirst & Hnone)].
              split; [done|]. exists key, row'.
              rewrite dom_insert, elem_of_union, elem_of_singleton in Hkey.
              split; [tauto|]. split; [|done].
              rewrite first_mention_cons, Hk.
              rewrite bool_decide_eq_false_2; [done|].
              intros [= ->]. tauto.
        -- cbn [rbind]. split; [done|]. exists k, row.
           split; [done|]. split; [|done].
           rewrite first_mention_cons, Hk.
           by rewrite bool_decide_eq_true_2.
    + rewrite rbind_Ok. specialize (IH start).
      destruct (for_each extract_entities_row rows start) as [entities|e].
      * destruct IH as [Hdom Hrec]. split.
        -- intros key. by rewrite Hdom, (mention_keys_cons_none _ _ Hk).
        -- intros key row' Hkey. rewrite first_mention_cons, Hk.
           rewrite bool_decide_eq_false_2 by congruence. by apply Hrec.
      * destruct IH as [-> (key & row' & Hkey & Hfirst & Hnone)].
        split; [done|]. exists key, row'. split; [done|]. split; [|done].
        rewrite first_mention_cons, Hk.
        by rewrite bool_decide_eq_false_2 by congruence.
Qed.

Lemma extract_entities_result (rows : list (list string)) :
  match extract_entities rows with
  | Ok entities =>
      (forall key, key ∈ dom entities <-> key ∈ mention_keys rows)
      /\ forall key row,
           first_mention key rows = Some row -> is_Some (row_record row)
  | Raise e =>
      e = IndexError
      /\ exists key row,
           first_mention key rows = Some row /\ row_record row = None
  end.
Proof.
  unfold extract_entities.
  pose proof (extract_entities_outcome_from rows ∅) as H.
  destruct (for_each extract_entities_row rows ∅) as [entities|e].
  - destruct H as [Hdom Hrec]. split.
    + intros key. rewrite Hdom, dom_empty, elem_of_empty. tauto.
    + intros key row. apply Hrec. rewrite dom_empty. apply not_elem_of_empty.
  - destruct H as [-> (key & row & _ & Hfirst & Hnone)].
    split; [done|]. by exists key, row.
Qed.

(** X21: [extract_entities] raises exactly when, for some key, the first
    gold mention filed under it has fewer than seven fields, and then it
    raises [IndexError]; otherwise it returns a table whose keys are the
    keys of the gold mentions of the corpus. *)
Theorem extract_entities_outcome (rows : list (list string)) :
  match extract_entities rows with
  | Ok entities =>
      (forall key, key ∈ dom entities <-> key ∈ mention_keys rows)
      /\ forall key row,
           first_mention key rows = Some row -> is_Some (row_record row)
  | Raise e =>
      e = IndexError
      /\ exists key row,
           first_mention key rows = Some row /\ row_record row = None
  end.
Proof. exact (extract_entities_result rows). Qed.

(** ** Entity keys and the references of the candidates *)

Lemma lower_char_idem c : lower_char (lower_char c) = lower_char c.
Proof. destruct c as [[] [] [] [] [] [] [] []]; reflexivity. Qed.

Lemma lower_idem s : lower (lower s) = lower s.
Proof.
  induction s as [|c s IH]; [done|]. cbn [lower].
  by rewrite lower_char_idem, IH.
Qed.

Lemma lower_char_space c : Ascii.eqb (lower_char c) " " = Ascii.eqb c " ".
Proof. destruct c as [[] [] [] [] [] [] [] []]; reflexivity. Qed.

Lemma lower_remove_space s :
  lower (remove_char " " s) = remove_char " " (lower s).
Proof.
  induction s as [|c s IH]; [done|]. cbn [lower remove_char].
  rewrite lower_char_space. destruct (Ascii.eqb c " "); [done|].
  cbn [lower]. by rewrite IH.
Qed.

Lemma remove_char_idem a s : remove_char a (remove_char a s) = remove_char a s.
Proof.
  induction s as [|c s IH]; [done|]. cbn [remove_char].
  destruct (Ascii.eqb c a) eqn:E; [done|].
  cbn [remove_char]. by rewrite E, IH.
Qed.

Lemma remove_space_before_paren s :
  remove_char " " (before_char "(" s) = before_char "(" (remove_char " " s).
Proof.
  induction s as [|c s IH]; [done|]. cbn [before_char remove_char].
  destruct (Ascii.eqb c "(") eqn:E1.
  - apply Ascii.eqb_eq in E1 as ->. done.
  - destruct (Ascii.eqb c " ") eqn:E2.
    + cbn [remove_char]. by rewrite E2.
    + cbn [remove_char before_char]. by rewrite E1, E2, IH.
Qed.

(** The key of an entity is its own alias key. *)
Lemma alias_key_normalize_spec s : alias_key (normalize_spec s) = normalize_spec s.
Proof.
  unfold alias_key, normalize_spec.
  rewrite lower_before_paren, lower_idem, remove_space_before_paren.
  by rewrite <- lower_remove_space, remove_char_idem.
Qed.

Lemma mention_key_normalized row key :
  mention_key row = Some key -> exists field, key = normalize_spec field.
Proof.
  unfold mention_key. destruct (is_gold_mention row) as [[|]|]; try done.
  destruct (index row 2) as [field|]; [|done]. rewrite rbind_Ok.
  rewrite entity_dictname_spec. intros [= <-]. by exists field.
Qed.

Lemma entity_keys_normalized rows entities key :
  extract_entities rows = Ok entities -> key ∈ dom entities ->
  alias_key key = key.
Proof.
  intros Hrun Hkey. pose proof (extract_entities_result rows) as H.
  rewrite Hrun in H. destruct H as [Hdom _]. apply Hdom in Hkey.
  apply mention_keys_elem in Hkey as (row & _ & Hrow).
  apply mention_key_normalized in Hrow as [field ->].
  apply alias_key_normalize_spec.
Qed.

Lemma entity_names_dom rows entities :
  extract_entities rows = Ok entities ->
  entity_names_of entities = dom entities.
Proof.
  intros Hrun. unfold entity_names_of. apply set_eq. intros key.
  rewrite elem_of_map. split.
  - intros (k & -> & Hk). by rewrite (entity_keys_normalized rows entities k).
  - intros Hk. exists key. split; [|done].
    by rewrite (entity_keys_normalized rows entities key).
Qed.

(** *** The references of the mined candidates *)

Lemma first_nonempty_known_elem names aliases alias :
  first_nonempty_known names aliases = Some alias -> alias_key alias ∈ names.
Proof.
  induction aliases as [|[a|] aliases IH]; cbn [first_nonempty_known];
    [done| |done].
  destruct (bool_decide_reflect (a ≠ "" ∧ alias_key a ∈ names)) as [[_ Hin]|_];
    [|done].
  by intros [= <-].
Qed.

Lemma add_candidate_references (names : gset string) entity_key candidate d :
  entity_key ∈ names ->
  (forall k c, ODict.get k d = Some c ->
               Cand.references c ≠ ∅ /\ Cand.references c ⊆ names) ->
  forall k c, ODict.get k (add_candidate entity_key candidate d) = Some c ->
              Cand.references c ≠ ∅ /\ Cand.references c ⊆ names.
Proof.
  intros Hkey Hinv k c.
  destruct (decide (k = candidate)) as [->|Hne].
  - unfold add_candidate. destruct (ODict.mem candidate d) eqn:Hmem.
    + apply odict_mem_get in Hmem as [c0 Hc0].
      rewrite odict_get_alter, decide_True, Hc0 by done.
      intros [= <-]. destruct (Hinv _ _ Hc0) as [Hne Hsub].
      cbn. split; set_solver.
    + rewrite odict_get_set, decide_True by done.
      intros [= <-]. cbn. split; set_solver.
  - rewrite add_candidate_other by done. apply Hinv.
Qed.

Lemma mine_lines_references (names : gset string) lines : forall d d',
  (forall k c, ODict.get k d = Some c ->
               Cand.references c ≠ ∅ /\ Cand.references c ⊆ names) ->
  for_each (mine_line names) lines d = Ok d' ->
  forall k c, ODict.get k d' = Some c ->
              Cand.references c ≠ ∅ /\ Cand.references c ⊆ names.
Proof.
  induction lines as [|raw lines IH]; intros d d' Hinv; cbn [for_each].
  - by intros [= <-].
  - rewrite mine_line_spec, rbind_Ok. apply IH.
    destruct (search_link (strip raw)) as [group|]; [|done].
    destruct (first_nonempty_known names (link_aliases group)) as [alias|] eqn:Hf;
      cbn [record_match]; [|done].
    apply add_candidate_references; [|done].
    by eapply first_nonempty_known_elem.
Qed.

Lemma mined_references_known (rows : list (list string))
    (lines : list string) (entities : gmap string Ent.t)
    (mined : odict Cand.t) :
  extract_entities rows = Ok entities ->
  extract_candidates lines entities = Ok mined ->
  forall k c,
    ODict.get k mined = Some c ->
    Cand.references c ≠ ∅ /\ Cand.references c ⊆ dom entities.
Proof.
  intros Hents Hmine. rewrite <- (entity_names_dom rows entities Hents).
  apply (mine_lines_references _ lines [] mined); [|exact Hmine].
  intros k c H. discriminate H.
Qed.

(** X22: every candidate that the miner records for the entity table of a
    corpus refers to entities of that table: its references are not empty
    and every one of them is a key of the table. *)
Theorem candidate_references_known (rows : list (list string))
    (lines : list string) (entities : gmap string Ent.t)
    (mined : odict Cand.t) :
  extract_entities rows = Ok entities ->
  extract_candidates lines entities = Ok mined ->
  forall k c,
    ODict.get k mined = Some c ->
    Cand.references c ≠ ∅ /\ Cand.references c ⊆ dom entities.
Proof. exact (mined_references_known rows lines entities mined). Qed.

(** *** Entities and their candidates at the end of the pipeline *)

Lemma extract_entities_no_candidates rows entities key e :
  extract_entities rows = Ok entities -> entities !! key = Some e ->
  Ent.candidates e = [].
Proof.
  intros Hrun He. unfold extract_entities in Hrun.
  rewrite (extract_entities_from rows ∅ entities key Hrun), lookup_empty in He.
  destruct (first_mention key rows) as [row|]; [|done]. cbn in He.
  unfold row_record in He.
  destruct row as [|f0 [|f1 [|f2 [|f3 [|f4 [|f5 [|f6 row]]]]]]]; try done.
  by injection He as <-.
Qed.

Lemma referencing_elem key k c (d : odict Cand.t) :
  ODict.get k d = Some c -> key ∈ Cand.references c -> k ∈ referencing key d.
Proof.
  intros Hc Hkey. unfold referencing.
  apply (list_elem_of_fmap_2 fst _ (k, c)).
  apply list_elem_of_In, filter_In. split.
  - apply list_elem_of_In. by apply odict_get_elem.
  - cbn. by apply bool_decide_eq_true_2.
Qed.

Section pipeline_facts.
Variable links_iter : gset (option string) -> list (option string).
Variable refs_iter : gset string -> list string.
Hypothesis links_iter_elements : forall s, links_iter s ≡ₚ elements s.
Hypothesis refs_iter_elements : forall s, refs_iter s ≡ₚ elements s.

(** X23: at the end of the pipeline the candidates of an entity are the
    resolved candidates whose references hold the key of the entity, in the
    order of the candidate map, and every resolved candidate is a candidate
    of at least one entity. *)
Theorem entity_candidates_complete (rows : list (list string))
    (lines shards : list string) (entities : gmap string Ent.t)
    (mined counted resolved : odict Cand.t) :
  extract_entities rows = Ok entities ->
  extract_candidates lines entities = Ok mined ->
  extract_candidates_counts shards mined = Ok counted ->
  replace_links links_iter counted = Ok resolved ->
  let entities_dict := add_candidates_to_entities refs_iter entities resolved in
  (forall key e,
     entities_dict !! key = Some e ->
     Ent.candidates e = referencing key resolved)
  /\ forall k c,
       ODict.get k resolved = Some c ->
       exists key e,
         key ∈ Cand.references c /\ entities_dict !! key = Some e
         /\ k ∈ Ent.candidates e.
Proof.
  intros Hents Hmine Hcount Hres. cbv zeta.
  destruct (add_candidates_to_entities_fields refs_iter refs_iter_elements
              entities resolved) as [Hdom Hfields].
  assert (Hcand : forall key e,
            add_candidates_to_entities refs_iter entities resolved !! key = Some e ->
            Ent.candidates e = referencing key resolved).
  { intros key e He.
    assert (is_Some (entities !! key)) as [e0 He0].
    { apply elem_of_dom. rewrite <- Hdom. apply elem_of_dom. by eexists. }
    rewrite (Hfields key e0 He0) in He. injection He as <-.
    cbn [Ent.candidates].
    by rewrite (extract_entities_no_candidates rows entities key e0). }
  split; [exact Hcand|].
  intros k c Hc.
  destruct (extract_candidates_NoDup lines entities) as (mined' & Hmine' & Hnd).
  rewrite Hmine in Hmine'. injection Hmine' as <-.
  destruct (extract_candidates_counts_record shards mined)
    as (counted' & Hcount' & [Hk Hcounted] & _).
  rewrite Hcount in Hcount'. injection Hcount' as <-.
  assert (NoDup (ODict.keys counted)) as Hndc by (by rewrite Hk).
  destruct (replace_links_loop links_iter links_iter_elements
              (ODict.keys counted) counted)
    as (resolved' & Hres' & _ & _ & Hrec); [done|done|done|].
  fold (replace_links links_iter counted) in Hres'.
  rewrite Hres in Hres'. injection Hres' as <-.
  destruct (Hrec k c Hc) as (c1 & Hc1 & Hlinks).
  destruct (Hcounted k c1 Hc1) as (c0 & Hc0 & Hsame).
  destruct (mined_references_known rows lines entities mined Hents Hmine k c0 Hc0)
    as [Hne Hsub].
  assert (Href : Cand.references c = Cand.references c0).
  { destruct Hlinks as (_ & _ & _ & _ & _ & _ & _ & -> & _).
    by destruct Hsame as (_ & _ & _ & _ & -> & _). }
  apply set_choose_L in Hne as [key Hkey].
  assert (is_Some (entities !! key)) as [e0 He0].
  { apply elem_of_dom. by apply Hsub. }
  exists key. eexists. split; [by rewrite Href|].
  split; [by apply Hfields|]. cbn [Ent.candidates].
  apply elem_of_app. right. apply (referencing_elem key k c); [done|].
  by rewrite Href.
Qed.

End pipeline_facts.

Lemma candidate_references_known_witness :
  extract_entities two_city_rows = Ok two_city_table
  /\ extract_candidates two_city_lines two_city_table = Ok two_city_mined
  /\ ODict.get "Amsterdam" two_city_mined
     = Some (new_candidate "amsterdam" "Amsterdam")
  /\ Cand.references (new_candidate "amsterdam" "Amsterdam") ≠ ∅
  /\ Cand.references (new_candidate "amsterdam" "Amsterdam")
     ⊆ dom two_city_table.
Proof.
  split; [vm_compute; reflexivity|]. split; [vm_compute; reflexivity|].
  split; [reflexivity|].
  apply (candidate_references_known two_city_rows two_city_lines
           two_city_table two_city_mined) with (k := "Amsterdam");
    [vm_compute; reflexivity|vm_compute; reflexivity|reflexivity].
Defined.

Lemma entity_candidates_complete_witness :
  (forall s : gset (option string), elements s ≡ₚ elements s)
  /\ (forall s : gset string, elements s ≡ₚ elements s)
  /\ extract_entities two_city_rows = Ok two_city_table
  /\ extract_candidates two_city_lines two_city_table = Ok two_city_mined
  /\ extract_candidates_counts [amsterdam_shard; rotterdam_page_shard]
       two_city_mined = Ok two_city_counted
  /\ replace_links elements two_city_counted = Ok resolved_store
  /\ let entities_dict :=
       add_candidates_to_entities elements two_city_table resolved_store in
     (forall key e,
        entities_dict !! key = Some e ->
        Ent.candidates e = referencing key resolved_store)
     /\ forall k c,
          ODict.get k resolved_store = Some c ->
          exists key e,
            key ∈ Cand.references c /\ entities_dict !! key = Some e
            /\ k ∈ Ent.candidates e.
Proof.
  split; [intros s; reflexivity|]. split; [intros s; reflexivity|].
  split; [vm_compute; reflexivity|]. split; [vm_compute; reflexivity|].
  split; [vm_compute; reflexivity|]. split; [vm_compute; reflexivity|].
  apply (entity_candidates_complete elements elements
           (fun s => reflexivity (elements s)) (fun s => reflexivity (elements s))
           two_city_rows two_city_lines [amsterdam_shard; rotterdam_page_shard]
           two_city_table two_city_mined two_city_counted resolved_store);
    vm_compute; reflexivity.
Defined.

(** ** [AnnotationRecord.__str__] *)

Lemma last_char_snoc s c : last_char (s +:+ String c "") = Ok c.
Proof.
  induction s as [|a s IH]; [done|].
  change (String a s +:+ String c "") with (String a (s +:+ String c "")).
  cbn [last_char]. rewrite IH. by destruct s.
Qed.

Lemma drop_last_snoc s c : drop_last (s +:+ String c "") = s.
Proof.
  induction s as [|a s IH]; [done|].
  change (String a s +:+ String c "") with (String a (s +:+ String c "")).
  cbn [drop_last]. rewrite IH. by destruct s.
Qed.

Lemma last_char_app s t : t ≠ "" -> last_char (s +:+ t) = last_char t.
Proof.
  intros Ht. induction s as [|a s IH]; [done|].
  change (String a s +:+ t) with (String a (s +:+ t)).
  cbn [last_char]. rewrite IH. destruct (s +:+ t) eqn:Heq; [|done].
  destruct s; [|done]. by destruct t.
Qed.

Lemma barred_join l : l ≠ [] -> barred l = join "|" l +:+ "|".
Proof.
  induction l as [|x l IH]; [done|]. intros _.
  destruct l as [|y l].
  - cbn [barred join]. by rewrite app_str_nil_r.
  - change (barred (x :: y :: l)) with (x +:+ "|" +:+ barred (y :: l)).
    rewrite IH by done. rewrite join_cons.
    by rewrite !app_str_assoc.
Qed.

Lemma texts_cons v t :
  texts (v :: t)
  = if truthy_value v then str_value v :: texts t else texts t.
Proof.
  unfold texts.
  change (omap ?f (v :: t))
    with (match f v with Some y => y :: omap f t | None => omap f t end).
  destruct v as [[|c s]|]; done.
Qed.

Lemma texts_app t1 t2 : texts (t1 ++ t2) = (texts t1 ++ texts t2)%list.
Proof. unfold texts. apply omap_app. Qed.

(** The loop over all values but the last one adds every text with a bar
    after it. *)
Lemma str_loop_front len_t t : forall ind rest res,
  (ind + length t < len_t)%nat ->
  AnnotationRecord.str_loop len_t ind (t ++ rest) res
  = AnnotationRecord.str_loop len_t (ind + length t) rest
      (res +:+ barred (texts t)).
Proof.
  induction t as [|v t IH]; intros ind rest res Hlen.
  - cbn [app length barred texts omap]. change (texts []) with (@nil string).
    by rewrite Nat.add_0_r, app_str_nil_r.
  - cbn [app length AnnotationRecord.str_loop] in *. rewrite texts_cons.
    replace (ind + S (length t))%nat with (S ind + length t)%nat by lia.
    destruct (truthy_value v); cbn [negb].
    + rewrite (proj2 (Nat.ltb_lt ind (len_t - 1))) by lia.
      rewrite IH by lia. cbn [barred]. by rewrite !app_str_assoc.
    + by rewrite IH by lia.
Qed.

Lemma str_loop_fields ar :
  let t := AnnotationRecord.fields ar in
  AnnotationRecord.str_loop (length t) 0 t ""
  = barred (texts (take 6 t))
    +:+ (if truthy_value (AnnotationRecord.freebase_mid ar)
         then str_value (AnnotationRecord.freebase_mid ar) else "").
Proof.
  cbv zeta. unfold AnnotationRecord.fields at 2.
  change (length (AnnotationRecord.fields ar)) with 7%nat.
  change [AnnotationRecord.token ar; AnnotationRecord.begin_inside_tag ar;
          AnnotationRecord.full_mention ar; AnnotationRecord.mn_entity ar;
          AnnotationRecord.wikipedia_url ar; AnnotationRecord.wikipedia_id ar;
          AnnotationRecord.freebase_mid ar]
    with ([AnnotationRecord.token ar; AnnotationRecord.begin_inside_tag ar;
           AnnotationRecord.full_mention ar; AnnotationRecord.mn_entity ar;
           AnnotationRecord.wikipedia_url ar; AnnotationRecord.wikipedia_id ar]
          ++ [AnnotationRecord.freebase_mid ar])%list.
  rewrite str_loop_front by (cbn [length]; lia).
  cbn [length Nat.add AnnotationRecord.str_loop].
  change (6 <? 7 - 1)%nat with false.
  change (take 6 (AnnotationRecord.fields ar))
    with [AnnotationRecord.token ar; AnnotationRecord.begin_inside_tag ar;
          AnnotationRecord.full_mention ar; AnnotationRecord.mn_entity ar;
          AnnotationRecord.wikipedia_url ar; AnnotationRecord.wikipedia_id ar].
  destruct (truthy_value (AnnotationRecord.freebase_mid ar)); cbn [negb].
  - done.
  - by rewrite app_str_nil_r.
Qed.

(** X14: [str] of an annotation record raises [IndexError] exactly when
    every field is empty or [None] (the text built is empty and its last
    character is read); otherwise it is the non-empty fields with bars
    between them, less the last character when the Freebase id ends with a
    bar. *)
Theorem annotation_record_str (ar : AnnotationRecord.t) :
  AnnotationRecord.to_str ar
  = match texts (AnnotationRecord.fields ar) with
    | [] => Raise IndexError
    | l =>
        if truthy_value (AnnotationRecord.freebase_mid ar)
           && ends_with_bar (str_value (AnnotationRecord.freebase_mid ar))
        then Ok (drop_last (join "|" l))
        else Ok (join "|" l)
    end.
Proof.
  unfold AnnotationRecord.to_str. cbv zeta. rewrite str_loop_fields.
  assert (Hsplit : texts (AnnotationRecord.fields ar)
                   = (texts (take 6 (AnnotationRecord.fields ar))
                      ++ texts [AnnotationRecord.freebase_mid ar])%list).
  { by rewrite <- texts_app. }
  rewrite Hsplit. rewrite (texts_cons _ []). change (texts []) with (@nil string).
  set (front := texts (take 6 (AnnotationRecord.fields ar))).
  destruct (truthy_value (AnnotationRecord.freebase_mid ar)) eqn:Hmid;
    cbn [andb].
  - destruct (AnnotationRecord.freebase_mid ar) as [[|c e]|]; try done.
    cbn [str_value].
    assert (Hjoin : barred front +:+ String c e
                    = join "|" (front ++ [String c e])).
    { clear. induction front as [|x l IH]; [done|].
      cbn [barred app]. destruct l as [|y l].
      - cbn [barred app join] in *. by rewrite !app_str_assoc.
      - change ((y :: l) ++ [String c e])%list
          with (y :: (l ++ [String c e]))%list in *.
        rewrite join_cons, <- IH. by rewrite !app_str_assoc. }
    rewrite Hjoin.
    assert (Hlast : last_char (join "|" (front ++ [String c e]))
                    = last_char (String c e)).
    { rewrite <- Hjoin. by apply last_char_app. }
    rewrite Hlast. unfold ends_with_bar.
    assert (Hne : exists z, last_char (String c e) = Ok z).
    { clear. revert c. induction e as [|a e IH]; intros c; [by eexists|].
      cbn [last_char]. apply IH. }
    destruct Hne as [z Hz]. rewrite Hz, rbind_Ok.
    destruct (front ++ [String c e])%list eqn:Hl; [by destruct front|].
    by destruct (Ascii.eqb z "|").
  - rewrite app_str_nil_r, app_nil_r.
    destruct front as [|x l]; [done|].
    rewrite barred_join by done.
    rewrite last_char_snoc, rbind_Ok. change (Ascii.eqb "|" "|") with true.
    cbv iota. by rewrite drop_last_snoc.
Qed.

(** ** [Document.add_annotation] *)

Lemma attach_spec mention cands : forall i0,
  match attach mention i0 cands with
  | (Some j, cands') =>
      exists k c,
        j = (i0 + k)%nat /\ cands !! k = Some c
        /\ attachable mention c = true
        /\ (forall k' c', (k' < k)%nat -> cands !! k' = Some c' ->
                          attachable mention c' = false)
        /\ cands' = <[k := set_candidates c]> cands
  | (None, cands') =>
      cands' = cands
      /\ forall k c, cands !! k = Some c -> attachable mention c = false
  end.
Proof.
  induction cands as [|c rest IH]; intros i0; cbn [attach].
  - split; [done|]. intros k c. by rewrite lookup_nil.
  - unfold attachable in *.
    destruct (count c <? 1)%Z eqn:Hcount.
    + specialize (IH (S i0)).
      destruct (attach mention (S i0) rest) as [[j|] rest'].
      * destruct IH as (k & c1 & -> & Hk & Hc1 & Hbefore & ->).
        exists (S k), c1. split; [lia|]. split; [done|]. split; [done|].
        split; [|done].
        intros [|k'] c' Hlt; cbn.
        -- intros [= <-]. rewrite (proj2 (Z.leb_gt 1 (count c))); [done|].
           by apply Z.ltb_lt.
        -- apply Hbefore. lia.
      * destruct IH as [-> Hnone]. split; [done|].
        intros [|k] c'; cbn.
        -- intros [= <-]. rewrite (proj2 (Z.leb_gt 1 (count c))); [done|].
           by apply Z.ltb_lt.
        -- apply Hnone.
    + apply Z.ltb_ge in Hcount.
      destruct (bool_decide (normalize_mention_text
                               (CandidateRecord.orig_text (record c))
                             = normalize_mention_text mention)) eqn:Hmatch.
      * exists 0%nat, c. split; [lia|]. split; [done|]. split; [|split; [|done]].
        -- rewrite Hmatch. by rewrite (proj2 (Z.leb_le 1 (count c))).
        -- intros k' c' Hlt. lia.
      * specialize (IH (S i0)).
        destruct (attach mention (S i0) rest) as [[j|] rest'].
        -- destruct IH as (k & c1 & -> & Hk & Hc1 & Hbefore & ->).
           exists (S k), c1. split; [lia|]. split; [done|]. split; [done|].
        split; [|done].
           intros [|k'] c' Hlt; cbn.
           ++ intros [= <-]. by rewrite Hmatch, andb_false_r.
           ++ apply Hbefore. lia.
        -- destruct IH as [-> Hnone]. split; [done|].
           intros [|k] c'; cbn.
           ++ intros [= <-]. by rewrite Hmatch, andb_false_r.
           ++ apply Hnone.
Qed.

Lemma records_of_flush d :
  records_of (Document.flush_current_annotation d) = records_of d.
Proof.
  unfold records_of, Document.flush_current_annotation.
  cbn [Document.annotations Document.current_annotation].
  by rewrite concat_app, app_nil_r; cbn [concat]; rewrite app_nil_r.
Qed.

(** One line: nothing is attached and the candidate records stay as they
    are, or the new annotation record refers to a candidate record that
    could be attached, and the count of that record is lowered. *)
Lemma add_annotation_step d cands line :
  let st := Document.add_annotation d cands line in
  (st.2 = cands
   /\ exists new,
        records_of st.1 = (records_of d ++ new)%list
        /\ Forall (fun ar => AnnotationRecord.candidates ar = None) new)
  \/ (exists k c m ar,
        cands !! k = Some c /\ attachable m c = true
        /\ st.2 = <[k := set_candidates c]> cands
        /\ records_of st.1 = (records_of d ++ [ar])%list
        /\ AnnotationRecord.candidates ar = Some k
        /\ AnnotationRecord.full_mention ar = Some m).
Proof.
  cbv zeta. unfold Document.add_annotation.
  destruct (negb (truthy (strip line))
            || (length (split_char (ascii_of_N 9) line) <? 3)%nat).
  - left. split; [done|]. exists []. cbn [fst].
    by rewrite records_of_flush, app_nil_r.
  - set (ar := AnnotationRecord.init line).
    assert (Hnone : AnnotationRecord.candidates ar = None) by done.
    destruct (AnnotationRecord.full_mention ar) as [m|] eqn:Hm.
    + pose proof (attach_spec m cands 0) as Hspec.
      destruct (attach m 0 cands) as [[j|] cands'].
      * destruct Hspec as (k & c & -> & Hk & Hc & _ & ->). right.
        exists k, c, m, (AnnotationRecord.with_candidates k ar).
        repeat split; try done.
        unfold records_of. cbn [fst Document.annotations Document.current_annotation].
        by rewrite app_assoc.
      * destruct Hspec as [-> _]. left. split; [done|]. exists [ar].
        split; [|by apply Forall_singleton].
        unfold records_of. cbn [fst Document.annotations Document.current_annotation].
        by rewrite app_assoc.
    + left. split; [done|]. exists [ar].
      split; [|by apply Forall_singleton].
      unfold records_of. cbn [fst Document.annotations Document.current_annotation].
      by rewrite app_assoc.
Qed.

Lemma attached_app i d d' new :
  records_of d' = (records_of d ++ new)%list ->
  attached i d' = (attached i d + length (List.filter (refers_to i) new))%nat.
Proof.
  intros H. unfold attached. by rewrite H, List.filter_app, length_app.
Qed.

Lemma filter_refers_none i new :
  Forall (fun ar => AnnotationRecord.candidates ar = None) new ->
  List.filter (refers_to i) new = [].
Proof.
  induction 1 as [|ar new Har _ IH]; [done|].
  cbn [List.filter]. unfold refers_to at 1. rewrite Har.
  by rewrite bool_decide_eq_false_2.
Qed.

Lemma add_annotations_cons st line lines :
  add_annotations st (line :: lines)
  = add_annotations (Document.add_annotation st.1 st.2 line) lines.
Proof. done. Qed.

(** What a run of lines keeps. *)
Lemma add_annotations_invariant lines : forall d0 cands0,
  let st := add_annotations (d0, cands0) lines in
  (forall i c0,
     cands0 !! i = Some c0 ->
     exists c,
       st.2 !! i = Some c /\ record c = record c0
       /\ ((0 <= count c0)%Z -> (0 <= count c)%Z)
       /\ (Z.of_nat (attached i st.1) + count c
           = Z.of_nat (attached i d0) + count c0)%Z)
  /\ length st.2 = length cands0
  /\ forall ar,
       ar ∈ records_of st.1 ->
       ar ∈ records_of d0
       \/ forall i,
            AnnotationRecord.candidates ar = Some i ->
            exists c m,
              cands0 !! i = Some c
              /\ AnnotationRecord.full_mention ar = Some m
              /\ normalize_mention_text (CandidateRecord.orig_text (record c))
                 = normalize_mention_text m.
Proof.
  induction lines as [|line lines IH]; intros d0 cands0; cbv zeta.
  - cbn [add_annotations fold_left fst snd]. split; [|split; [done|]].
    + intros i c0 Hc0. by exists c0.
    + intros ar Har. by left.
  - rewrite add_annotations_cons. cbn [fst snd].
    pose proof (add_annotation_step d0 cands0 line) as Hstep. cbv zeta in Hstep.
    destruct (Document.add_annotation d0 cands0 line) as [d1 cands1].
    cbn [fst snd] in Hstep.
    specialize (IH d1 cands1). cbv zeta in IH.
    destruct (add_annotations (d1, cands1) lines) as [d cands].
    cbn [fst snd] in *. destruct IH as (IHc & IHlen & IHar).
    destruct Hstep as [[-> (new & Hrec & Hnew)]
                      |(k & ck & m & ar1 & Hk & Hatt & -> & Hrec & Har1 & Hm)].
    + split; [|split; [done|]].
      * intros i c0 Hc0. destruct (IHc i c0 Hc0) as (c & Hc & Hr & Hpos & Hsum).
        exists c. repeat split; try done.
        rewrite Hsum, (attached_app i d0 d1 new Hrec).
        rewrite filter_refers_none by done. cbn [length]. lia.
      * intros ar Har. destruct (IHar ar Har) as [Hin|Hmatch]; [|by right].
        rewrite Hrec in Hin. apply elem_of_app in Hin as [Hin|Hin]; [by left|].
        right. intros i Hi. rewrite Forall_forall in Hnew.
        rewrite (Hnew ar Hin) in Hi. done.
    + apply andb_prop in Hatt as [Hone Hnorm].
      apply Z.leb_le in Hone. apply bool_decide_eq_true_1 in Hnorm.
      split; [|split].
      * intros i c0 Hc0.
        destruct (decide (i = k)) as [->|Hne].
        -- assert (c0 = ck) as -> by congruence.
           destruct (IHc k (set_candidates ck)) as (c & Hc & Hr & Hpos & Hsum).
           { rewrite list_lookup_insert_eq; [done|]. by eapply lookup_lt_Some. }
           exists c. split; [done|]. split; [done|].
           cbn [set_candidates count] in *. split; [intros _; apply Hpos; lia|].
           rewrite Hsum, (attached_app k d0 d1 [ar1] Hrec).
           cbn [List.filter]. unfold refers_to. rewrite Har1.
           rewrite bool_decide_eq_true_2 by done. cbn [length]. lia.
        -- destruct (IHc i c0) as (c & Hc & Hr & Hpos & Hsum).
           { by rewrite list_lookup_insert_ne. }
           exists c. repeat split; try done.
           rewrite Hsum, (attached_app i d0 d1 [ar1] Hrec).
           cbn [List.filter]. unfold refers_to. rewrite Har1.
           rewrite bool_decide_eq_false_2 by congruence. cbn [length]. lia.
      * by rewrite IHlen, length_insert.
      * intros ar Har. destruct (IHar ar Har) as [Hin|Hmatch].
        -- rewrite Hrec in Hin. apply elem_of_app in Hin as [Hin|Hin]; [by left|].
           apply list_elem_of_singleton in Hin as ->. right.
           intros i Hi. assert (i = k) as -> by congruence.
           by exists ck, m.
        -- right. intros i Hi. destruct (Hmatch i Hi) as (c & m' & Hc & Hm' & Hn).
           destruct (decide (i = k)) as [->|Hne].
           ++ rewrite list_lookup_insert_eq in Hc by by eapply lookup_lt_Some.
              injection Hc as <-. by exists ck, m'.
           ++ rewrite list_lookup_insert_ne in Hc by done. by exists c, m'.
Qed.

(** X15: a candidate record of a document is attached to at most as many
    annotation records as its name has words: the count of the record
    starts at the number of pieces of [wname] between underscores, every
    attachment lowers it by one, and it never falls below zero.  The
    records themselves stay as they were read. *)
Theorem add_annotation_budget (records : list CandidateRecord.t)
    (document_id : nat) (lines : list string) :
  let st := add_annotations
              (Document.init document_id, map load_record records) lines in
  map record st.2 = records
  /\ forall i r,
       records !! i = Some r ->
       exists c,
         st.2 !! i = Some c
         /\ (0 <= count c)%Z
         /\ (Z.of_nat (attached i st.1) + count c
             = Z.of_nat (CandidateRecord.non_considered_word_count r))%Z.
Proof.
  cbv zeta.
  destruct (add_annotations_invariant lines (Document.init document_id)
              (map load_record records)) as (Hc & Hlen & _).
  cbv zeta in *.
  destruct (add_annotations (Document.init document_id, map load_record records)
              lines) as [d cands]. cbn [fst snd] in *.
  assert (Hrec : forall i r, records !! i = Some r ->
            exists c, cands !! i = Some c /\ record c = r
              /\ (0 <= count c)%Z
              /\ (Z.of_nat (attached i d) + count c
                  = Z.of_nat (CandidateRecord.non_considered_word_count r))%Z).
  { intros i r Hr.
    destruct (Hc i (load_record r)) as (c & Hi & Hr' & Hpos & Hsum).
    { by rewrite list_lookup_fmap, Hr. }
    exists c. split; [done|]. split; [done|].
    split; [apply Hpos; cbn; lia|].
    rewrite Hsum. change (attached i (Document.init document_id)) with 0%nat.
    cbn [load_record count]. lia. }
  split.
  - apply list_eq. intros i. rewrite list_lookup_fmap.
    destruct (records !! i) as [r|] eqn:Hr.
    + destruct (Hrec i r Hr) as (c & -> & <- & _). done.
    + apply lookup_ge_None in Hr.
      rewrite (proj2 (lookup_ge_None cands i)); [done|].
      rewrite Hlen, length_map. done.
  - intros i r Hr. destruct (Hrec i r Hr) as (c & ? & ? & ? & ?). by exists c.
Qed.

(** X16: an annotation record refers to a candidate record only when the
    two name the same mention: the full mention of the line and the
    [wname] of the candidate record are equal once underscores are read as
    blanks, the ends are stripped and the case is lowered. *)
Theorem add_annotation_matches (records : list CandidateRecord.t)
    (document_id : nat) (lines : list string) :
  let st := add_annotations
              (Document.init document_id, map load_record records) lines in
  forall ar i,
    ar ∈ records_of st.1 ->
    AnnotationRecord.candidates ar = Some i ->
    exists r m,
      records !! i = Some r
      /\ AnnotationRecord.full_mention ar = Some m
      /\ normalize_mention_text (CandidateRecord.orig_text r)
         = normalize_mention_text m.
Proof.
  cbv zeta. intros ar i Har Hi.
  destruct (add_annotations_invariant lines (Document.init document_id)
              (map load_record records)) as (_ & _ & Hmatch).
  cbv zeta in Hmatch. destruct (Hmatch ar Har) as [Hin|H].
  - by apply elem_of_nil in Hin.
  - destruct (H i Hi) as (c & m & Hc & Hm & Hn).
    rewrite list_lookup_fmap in Hc.
    destruct (records !! i) as [r|]; [|done]. injection Hc as <-.
    by exists r, m.
Qed.

(** *** Groups of annotation records *)

Lemma add_annotation_break d cands line :
  is_break line = true ->
  Document.add_annotation d cands line
  = (Document.flush_current_annotation d, cands).
Proof. intros H. unfold Document.add_annotation. fold (is_break line). by rewrite H. Qed.

Lemma add_annotation_record d cands line :
  is_break line = false ->
  exists ar,
    without_candidates ar = AnnotationRecord.init line
    /\ (Document.add_annotation d cands line).1
       = Document.mk (Document.document_id d) (Document.annotations d)
           (Document.current_annotation d ++ [ar])%list.
Proof.
  intros H. unfold Document.add_annotation. fold (is_break line). rewrite H.
  destruct (AnnotationRecord.full_mention (AnnotationRecord.init line)) as [m|].
  - destruct (attach m 0 cands) as [[j|] cands']; cbn [fst];
      eexists; (split; [|reflexivity]); reflexivity.
  - eexists. split; [|reflexivity]. reflexivity.
Qed.

Lemma add_annotations_groups lines : forall d0 cands0,
  let st := add_annotations (d0, cands0) lines in
  Document.document_id st.1 = Document.document_id d0
  /\ length (Document.annotations st.1)
     = (length (Document.annotations d0) + length (List.filter is_break lines))%nat
  /\ map without_candidates (records_of st.1)
     = (map without_candidates (records_of d0)
        ++ map AnnotationRecord.init
             (List.filter (fun line => negb (is_break line)) lines))%list.
Proof.
  induction lines as [|line lines IH]; intros d0 cands0; cbv zeta.
  - cbn [add_annotations fold_left fst List.filter map length].
    by rewrite Nat.add_0_r, app_nil_r.
  - rewrite add_annotations_cons. cbn [fst snd List.filter].
    destruct (is_break line) eqn:Hb; cbn [negb].
    + rewrite add_annotation_break by done.
      specialize (IH (Document.flush_current_annotation d0) cands0).
      cbv zeta in IH. destruct IH as (Hid & Hlen & Hrec).
      split; [done|]. split.
      * rewrite Hlen. cbn [Document.flush_current_annotation
          Document.annotations length]. rewrite length_app. cbn [length]. lia.
      * by rewrite Hrec, records_of_flush.
    + destruct (add_annotation_record d0 cands0 line Hb) as (ar & Har & Hd).
      destruct (Document.add_annotation d0 cands0 line) as [d1 cands1].
      cbn [fst] in Hd. subst d1.
      match goal with
      | |- context [add_annotations (?d, cands1) lines] =>
          specialize (IH d cands1)
      end.
      cbv zeta in IH. destruct IH as (Hid & Hlen & Hrec).
      split; [done|]. split; [done|].
      rewrite Hrec. unfold records_of at 1.
      cbn [Document.annotations Document.current_annotation map].
      rewrite app_assoc, map_app. cbn [map]. rewrite Har.
      by rewrite <- app_assoc.
Qed.

(** X25: a document keeps every line it reads: each blank line and each
    line of fewer than three columns closes a group of annotation records,
    empty or not, and the other lines give, in the order of the file, the
    annotation records of the document. *)
Theorem add_annotation_groups (candidates : list live_record)
    (document_id : nat) (lines : list string) :
  let st := add_annotations (Document.init document_id, candidates) lines in
  Document.document_id st.1 = document_id
  /\ length (Document.annotations st.1) = length (List.filter is_break lines)
  /\ map without_candidates (records_of st.1)
     = map AnnotationRecord.init
         (List.filter (fun line => negb (is_break line)) lines).
Proof.
  cbv zeta.
  destruct (add_annotations_groups lines (Document.init document_id) candidates)
    as (Hid & Hlen & Hrec).
  cbv zeta in *. by split; [|split].
Qed.

(** ** [load_dataset] *)

Lemma docstart_not_marker l :
  String.prefix "-DOCSTART-" l = true -> is_split_start l = false.
Proof.
  intros H. unfold is_split_start.
  rewrite !bool_decide_eq_false_2; [done|..]; intros ->; discriminate H.
Qed.

Lemma load_line_marker zip st l :
  marker_line l ->
  load_line zip st l
  = Ok (mk_loader (split_lists st) (current_document st)
          (data_split_id st + 1) (last_document_id st)).
Proof. intros H. unfold load_line. cbv zeta. by rewrite H. Qed.

Lemma load_line_plain zip st l d candidates :
  plain_line l -> current_document st = Some (d, candidates) ->
  load_line zip st l
  = Ok (mk_loader (split_lists st)
          (Some (Document.add_annotation d candidates (strip l)))
          (data_split_id st) (last_document_id st)).
Proof.
  intros [H1 H2] Hcur. unfold load_line. cbv zeta. by rewrite H1, H2, Hcur.
Qed.

Lemma load_line_plain_none zip st l :
  plain_line l -> current_document st = None ->
  load_line zip st l = Raise AttributeError.
Proof.
  intros [H1 H2] Hcur. unfold load_line. cbv zeta. by rewrite H1, H2, Hcur.
Qed.

Lemma load_lines_plain zip body : forall lists cur s j,
  Forall plain_line body ->
  for_each (load_line zip) body (mk_loader lists (Some cur) s j)
  = Ok (mk_loader lists (Some (add_annotations cur (map strip body))) s j).
Proof.
  induction body as [|l body IH]; intros lists cur s j H; [done|].
  inversion H as [|? ? Hl Hbody]; subst. cbn [for_each].
  destruct cur as [d candidates].
  rewrite (load_line_plain zip _ l d candidates) by done.
  rewrite rbind_Ok. cbn [split_lists data_split_id last_document_id].
  rewrite IH by done. done.
Qed.

Lemma load_line_docstart_open zip lists cur s j i h :
  docstart_line h ->
  list_index (length lists) s = Ok i ->
  (exists candidates, read_candidates zip (S j) = Ok candidates) ->
  load_line zip (mk_loader lists (Some cur) s j) h
  = Ok (mk_loader (alter (fun l => l ++ [cur])%list i lists)
          (Some (Document.init (S j), candidates_of zip (S j))) s (S j)).
Proof.
  intros Hh Hi [candidates Hread]. unfold load_line. cbv zeta.
  rewrite (docstart_not_marker _ Hh), Hh.
  cbn [current_document]. unfold file_document.
  cbn [split_lists data_split_id last_document_id].
  rewrite Hi, !rbind_Ok. cbn [split_lists data_split_id last_document_id].
  unfold candidates_of. by rewrite Hread, rbind_Ok.
Qed.

Lemma load_line_docstart_first zip lists s j h :
  docstart_line h ->
  (exists candidates, read_candidates zip j = Ok candidates) ->
  load_line zip (mk_loader lists None s j) h
  = Ok (mk_loader lists (Some (Document.init j, candidates_of zip j)) s j).
Proof.
  intros Hh [candidates Hread]. unfold load_line. cbv zeta.
  rewrite (docstart_not_marker _ Hh), Hh.
  cbn [current_document]. rewrite rbind_Ok.
  cbn [split_lists data_split_id last_document_id].
  unfold candidates_of. by rewrite Hread, rbind_Ok.
Qed.

Lemma load_documents_cons zip first d docs :
  load_documents zip first (d :: docs)
  = load_document zip first d.2 :: load_documents zip (S first) docs.
Proof.
  unfold load_documents. cbn [imap]. rewrite Nat.add_0_r. f_equal.
  apply imap_ext. intros k x _. cbn. f_equal. lia.
Qed.

Lemma length_load_documents zip first docs :
  length (load_documents zip first docs) = length docs.
Proof. unfold load_documents. by rewrite length_imap. Qed.

Lemma last_cons_default {A} (x d : A) l :
  List.last (x :: l) d = List.last l x.
Proof.
  revert x d. induction l as [|y l IH]; intros x d; [done|].
  change (List.last (x :: y :: l) d) with (List.last (y :: l) d).
  by rewrite !IH.
Qed.

Lemma alter_app_nil {A} i (lists : list (list A)) :
  alter (fun l => l ++ [])%list i lists = lists.
Proof. apply list_alter_id. intros l. apply app_nil_r. Qed.

Lemma alter_app_app {A} i (lists : list (list A)) a b :
  alter (fun l => l ++ b)%list i (alter (fun l => l ++ a)%list i lists)
  = alter (fun l => l ++ (a ++ b))%list i lists.
Proof.
  revert i. induction lists as [|x lists IH]; intros [|i]; cbn; try done.
  - by rewrite app_assoc.
  - f_equal. apply IH.
Qed.

(** The documents that follow an open document: the open document and all
    of them but the last are filed under the current split, and the last
    one is open. *)
Lemma load_docs_open zip docs : forall lists cur s j i,
  Forall well_formed docs ->
  list_index (length lists) s = Ok i ->
  readable zip (S j) (length docs) ->
  for_each (load_line zip) (doc_lines docs) (mk_loader lists (Some cur) s j)
  = Ok (mk_loader
          (alter (fun l => l ++ removelast (cur :: load_documents zip (S j) docs))%list
             i lists)
          (Some (List.last (load_documents zip (S j) docs) cur))
          s (j + length docs)).
Proof.
  induction docs as [|[h body] docs IH]; intros lists cur s j i Hwf Hi Hread.
  - cbn [doc_lines flat_map for_each load_documents imap removelast List.last length].
    by rewrite Nat.add_0_r, alter_app_nil.
  - inversion Hwf as [|? ? [Hh Hbody] Hdocs]; subst. cbn [fst snd] in *.
    cbn [doc_lines flat_map fst snd]. rewrite <- app_comm_cons.
    cbn [for_each].
    rewrite (load_line_docstart_open zip lists cur s j i h) by
      (try done; apply Hread; cbn [length]; lia).
    rewrite rbind_Ok, for_each_app, load_lines_plain by done.
    rewrite rbind_Ok.
    fold (load_document zip (S j) body).
    change (flat_map (fun d : file_doc => d.1 :: d.2) docs) with (doc_lines docs).
    rewrite (IH _ _ s (S j) i); [|done|by rewrite length_alter|].
    2: { intros k Hk. apply Hread. cbn [length]. lia. }
    rewrite load_documents_cons. cbn [snd length].
    rewrite alter_app_app.
    replace (S j + length docs)%nat with (j + S (length docs))%nat by lia.
    by rewrite last_cons_default.
Qed.

Lemma load_documents_app zip first docs1 docs2 :
  load_documents zip first (docs1 ++ docs2)
  = (load_documents zip first docs1
     ++ load_documents zip (first + length docs1) docs2)%list.
Proof.
  unfold load_documents. rewrite imap_app. f_equal.
  apply imap_ext. intros k x _. cbn. by rewrite Nat.add_assoc.
Qed.

(** The first documents of a file: no document is open, so nothing is
    filed when the first one starts, and it gets the id that is current. *)
Lemma load_docs_first zip d docs lists s j i :
  Forall well_formed (d :: docs) ->
  list_index (length lists) s = Ok i ->
  readable zip j (S (length docs)) ->
  for_each (load_line zip) (doc_lines (d :: docs)) (mk_loader lists None s j)
  = Ok (mk_loader
          (alter (fun l => l ++ removelast (load_documents zip j (d :: docs)))%list
             i lists)
          (Some (List.last (load_documents zip (S j) docs)
                   (load_document zip j d.2)))
          s (j + length docs)).
Proof.
  intros Hwf Hi Hread. destruct d as [h body].
  inversion Hwf as [|? ? [Hh Hbody] Hdocs]; subst. cbn [fst snd] in *.
  change (doc_lines ((h, body) :: docs))
    with ((h :: body) ++ doc_lines docs)%list.
  rewrite <- app_comm_cons. cbn [for_each].
  rewrite load_line_docstart_first by (try done; apply Hread; lia).
  rewrite rbind_Ok, for_each_app, load_lines_plain by done.
  rewrite rbind_Ok. fold (load_document zip j body).
  rewrite (load_docs_open zip docs _ _ s j i); try done.
  - by rewrite load_documents_cons.
  - intros k Hk. apply Hread. lia.
Qed.

Lemma removelast_last {A} (x : A) l :
  (removelast (x :: l) ++ [List.last l x])%list = x :: l.
Proof.
  rewrite <- (last_cons_default x x l).
  symmetry. by apply app_removelast_last.
Qed.

Lemma length_removelast_cons {A} (x : A) l :
  length (removelast (x :: l)) = length l.
Proof.
  pose proof (removelast_last x l) as H.
  apply (f_equal length) in H. rewrite length_app in H. cbn [length] in H. lia.
Qed.

(** The state of the loader at the end of a corpus of three splits. *)
Lemma load_corpus_state zip m1 m2 m3 d train testa testb :
  marker_line m1 -> marker_line m2 -> marker_line m3 ->
  Forall well_formed ((d :: train) ++ testa ++ testb) ->
  readable zip 0 (length ((d :: train) ++ testa ++ testb)) ->
  let all := load_documents zip 0 ((d :: train) ++ testa ++ testb) in
  exists last_testb open,
    for_each (load_line zip) (corpus_lines m1 m2 m3 (d :: train) testa testb)
      (mk_loader [[]; []; []] None (-1) 0)
    = Ok (mk_loader
            [take (length train) all;
             take (length testa) (drop (length train) all);
             last_testb]
            (Some open) 2 (length train + length testa + length testb))
    /\ (last_testb ++ [open])%list
       = drop (length train + length testa) all.
Proof.
  intros Hm1 Hm2 Hm3 Hwf Hread. cbv zeta.
  apply Forall_app in Hwf as [Htrain Hwf].
  apply Forall_app in Hwf as [Htesta Htestb].
  rewrite !length_app in Hread. cbn [length] in Hread.
  unfold corpus_lines. cbn [for_each].
  rewrite load_line_marker by done. rewrite rbind_Ok.
  cbn [split_lists current_document data_split_id last_document_id].
  rewrite for_each_app.
  rewrite (load_docs_first zip d train _ (-1 + 1) 0 0); try done.
  2: { intros k Hk. apply Hread. lia. }
  rewrite rbind_Ok. cbn [for_each].
  rewrite load_line_marker by done. rewrite rbind_Ok.
  cbn [split_lists current_document data_split_id last_document_id].
  rewrite for_each_app.
  set (A := load_documents zip 0 (d :: train)).
  set (a := List.last (load_documents zip 1 train) (load_document zip 0 d.2)).
  rewrite (load_docs_open zip testa _ a (-1 + 1 + 1) (0 + length train) 1);
    try done.
  2: { intros k Hk. apply Hread. lia. }
  rewrite rbind_Ok. cbn [for_each].
  rewrite load_line_marker by done. rewrite rbind_Ok.
  cbn [split_lists current_document data_split_id last_document_id].
  set (B := load_documents zip (S (0 + length train)) testa).
  set (b := List.last B a).
  rewrite (load_docs_open zip testb _ b (-1 + 1 + 1 + 1)
             (0 + length train + length testa) 2); try done.
  2: { intros k Hk. apply Hread. lia. }
  set (C := load_documents zip (S (0 + length train + length testa)) testb).
  cbn [alter list_alter app].
  assert (Hall : load_documents zip 0 ((d :: train) ++ testa ++ testb)
                 = (removelast A ++ removelast (a :: B) ++ b :: C)%list).
  { rewrite !load_documents_app. fold A. cbn [length Nat.add].
    change (load_documents zip (S (length train)) testa) with B.
    replace (S (length train) + length testa)%nat
      with (S (0 + length train + length testa)) by lia. fold C.
    assert (HA : A = (removelast A ++ [a])%list).
    { unfold A, a. rewrite load_documents_cons.
      by rewrite removelast_last. }
    assert (HB : a :: B = (removelast (a :: B) ++ [b])%list).
    { symmetry. apply removelast_last. }
    symmetry. change (b :: C) with ([b] ++ C)%list.
    rewrite (app_assoc (removelast (a :: B))), <- HB.
    change ((a :: B) ++ C)%list with ([a] ++ (B ++ C))%list.
    by rewrite app_assoc, <- HA. }
  assert (HlenA : length (removelast A) = length train).
  { unfold A. rewrite load_documents_cons, length_removelast_cons.
    apply length_load_documents. }
  assert (HlenB : length (removelast (a :: B)) = length testa).
  { rewrite length_removelast_cons. apply length_load_documents. }
  exists (removelast (b :: C)), (List.last C b).
  cbn [app] in Hall |- *.
  split.
  - rewrite Hall.
    rewrite <- HlenA. rewrite take_app_length, drop_app_length.
    rewrite <- HlenB. rewrite take_app_length.
    replace (-1 + 1 + 1 + 1)%Z with 2%Z by lia.
    reflexivity.
  - rewrite removelast_last, Hall.
    rewrite <- HlenA, <- HlenB, app_assoc, <- length_app.
    by rewrite drop_app_length.
Qed.

(** X17: in a corpus of three splits a document is filed when the next
    document starts, under the split that is current then: the last
    document of train is filed under testa and the last document of testa
    under testb.  With the documents numbered through the file, train gets
    all of its documents but the last, testa the next as many as it has
    documents, and testb the rest. *)
Theorem load_dataset_three_splits (zip : nat -> option string)
    (m1 m2 m3 : string) (d : file_doc) (train testa testb : list file_doc) :
  marker_line m1 -> marker_line m2 -> marker_line m3 ->
  Forall well_formed ((d :: train) ++ testa ++ testb) ->
  readable zip 0 (length ((d :: train) ++ testa ++ testb)) ->
  let all := load_documents zip 0 ((d :: train) ++ testa ++ testb) in
  load_dataset zip (corpus_lines m1 m2 m3 (d :: train) testa testb)
  = Ok [take (length train) all;
        take (length testa) (drop (length train) all);
        drop (length train + length testa) all].
Proof.
  intros Hm1 Hm2 Hm3 Hwf Hread. cbv zeta.
  destruct (load_corpus_state zip m1 m2 m3 d train testa testb)
    as (last_testb & open & Hrun & Hlast); try done.
  cbv zeta in Hrun, Hlast. unfold load_dataset. rewrite Hrun, rbind_Ok.
  cbn [current_document]. unfold file_document.
  cbn [split_lists data_split_id length].
  change (list_index 3 2) with (@Ok nat 2%nat). rewrite rbind_Ok.
  cbn [alter list_alter]. by rewrite Hlast.
Qed.

Lemma load_line_past_splits zip l lists cur s j :
  length lists = 3%nat -> (3 <= s)%Z ->
  load_line zip (mk_loader lists (Some cur) s j) l = Raise IndexError
  \/ exists cur' s',
       (3 <= s')%Z
       /\ load_line zip (mk_loader lists (Some cur) s j) l
          = Ok (mk_loader lists (Some cur') s' j).
Proof.
  intros Hlen Hs. unfold load_line. cbv zeta.
  cbn [current_document split_lists data_split_id last_document_id].
  destruct (is_split_start (strip l)).
  - right. exists cur, (s + 1)%Z. split; [lia|done].
  - destruct (String.prefix "-DOCSTART-" (strip l)).
    + left. unfold file_document.
      cbn [split_lists data_split_id]. rewrite Hlen.
      unfold list_index.
      rewrite (proj2 (Z.ltb_ge s (Z.of_nat 3))) by lia.
      rewrite andb_false_r.
      rewrite (proj2 (Z.ltb_ge s 0)) by lia. done.
    + right. destruct cur as [doc candidates]. by eexists _, s.
Qed.

(** With the split index at 3 or more and a document open, the loader
    goes on or raises [IndexError], and a document stays open. *)
Lemma load_lines_past_splits zip lines : forall lists cur s j,
  length lists = 3%nat -> (3 <= s)%Z ->
  for_each (load_line zip) lines (mk_loader lists (Some cur) s j)
  = Raise IndexError
  \/ exists cur' s',
       (3 <= s')%Z
       /\ for_each (load_line zip) lines (mk_loader lists (Some cur) s j)
          = Ok (mk_loader lists (Some cur') s' j).
Proof.
  induction lines as [|l lines IH]; intros lists cur s j Hlen Hs.
  - right. by exists cur, s.
  - cbn [for_each].
    destruct (load_line_past_splits zip l lists cur s j Hlen Hs)
      as [->|(cur1 & s1 & Hs1 & ->)]; [by left|].
    rewrite !rbind_Ok. by apply IH.
Qed.

(** X18: a fourth split line is one too many: whatever follows it, the
    document that is open when it is read cannot be filed, and
    [load_dataset] raises [IndexError]. *)
Theorem load_dataset_fourth_split (zip : nat -> option string)
    (m1 m2 m3 m4 : string) (d : file_doc) (train testa testb : list file_doc)
    (rest : list string) :
  marker_line m1 -> marker_line m2 -> marker_line m3 -> marker_line m4 ->
  Forall well_formed ((d :: train) ++ testa ++ testb) ->
  readable zip 0 (length ((d :: train) ++ testa ++ testb)) ->
  load_dataset zip
    (corpus_lines m1 m2 m3 (d :: train) testa testb ++ m4 :: rest)
  = Raise IndexError.
Proof.
  intros Hm1 Hm2 Hm3 Hm4 Hwf Hread.
  destruct (load_corpus_state zip m1 m2 m3 d train testa testb)
    as (last_testb & open & Hrun & _); try done.
  cbv zeta in Hrun. unfold load_dataset.
  rewrite for_each_app, Hrun, rbind_Ok. cbn [for_each].
  rewrite load_line_marker by done. rewrite rbind_Ok.
  cbn [split_lists current_document data_split_id last_document_id].
  match goal with
  | |- context [for_each (load_line zip) rest (mk_loader ?lists (Some ?cur) ?s ?j)] =>
      destruct (load_lines_past_splits zip rest lists cur s j)
        as [Hraise|(cur' & s' & Hs' & Hok)]; [done|lia| |]
  end.
  - by rewrite Hraise.
  - rewrite Hok, rbind_Ok. cbn [current_document]. unfold file_document.
    cbn [split_lists data_split_id length]. unfold list_index.
    rewrite (proj2 (Z.ltb_ge s' (Z.of_nat 3))) by lia.
    rewrite andb_false_r.
    rewrite (proj2 (Z.ltb_ge s' 0)) by lia. done.
Qed.

(** X19: the documents of a corpus without split lines are all filed under
    testb: the split index is still -1 when they are filed, and that is
    the last of the three lists. *)
Theorem load_dataset_unmarked (zip : nat -> option string)
    (d : file_doc) (docs : list file_doc) :
  Forall well_formed (d :: docs) ->
  readable zip 0 (length (d :: docs)) ->
  load_dataset zip (doc_lines (d :: docs))
  = Ok [[]; []; load_documents zip 0 (d :: docs)].
Proof.
  intros Hwf Hread. unfold load_dataset.
  rewrite (load_docs_first zip d docs _ (-1) 0 2); try done.
  rewrite rbind_Ok. cbn [current_document]. unfold file_document.
  cbn [split_lists data_split_id length alter list_alter].
  change (list_index 3 (-1)) with (@Ok nat 2%nat). rewrite rbind_Ok.
  cbn [alter list_alter app]. rewrite load_documents_cons.
  by rewrite removelast_last.
Qed.

Lemma load_lines_markers zip pre : forall lists s j,
  Forall marker_line pre ->
  for_each (load_line zip) pre (mk_loader lists None s j)
  = Ok (mk_loader lists None (s + Z.of_nat (length pre)) j).
Proof.
  induction pre as [|m pre IH]; intros lists s j H.
  - cbn [for_each length]. by rewrite Z.add_0_r.
  - inversion H as [|? ? Hm Hpre]; subst. cbn [for_each].
    rewrite load_line_marker by done. rewrite rbind_Ok.
    cbn [split_lists current_document data_split_id last_document_id].
    rewrite IH by done. do 2 f_equal. cbn [length]. lia.
Qed.

(** X20: a line of text before the first document line makes
    [load_dataset] raise [AttributeError]: no document is open to take the
    line. *)
Theorem load_dataset_needs_document (zip : nat -> option string)
    (pre : list string) (l : string) (rest : list string) :
  Forall marker_line pre -> plain_line l ->
  load_dataset zip (pre ++ l :: rest) = Raise AttributeError.
Proof.
  intros Hpre Hl. unfold load_dataset.
  rewrite for_each_app, load_lines_markers by done.
  rewrite rbind_Ok. cbn [for_each].
  by rewrite load_line_plain_none.
Qed.

(** ** The loader on the corpus file of three documents *)

Lemma add_annotation_matches_witness :
  AnnotationRecord.with_candidates 0 (AnnotationRecord.init amsterdam_line)
  ∈ records_of
      (add_annotations (Document.init 0, map load_record [amsterdam_record])
         [amsterdam_line]).1
  /\ AnnotationRecord.candidates
       (AnnotationRecord.with_candidates 0 (AnnotationRecord.init amsterdam_line))
     = Some 0%nat
  /\ exists r m,
       [amsterdam_record] !! 0%nat = Some r
       /\ AnnotationRecord.full_mention
            (AnnotationRecord.with_candidates 0
               (AnnotationRecord.init amsterdam_line)) = Some m
       /\ normalize_mention_text (CandidateRecord.orig_text r)
          = normalize_mention_text m.
Proof.
  assert (H : AnnotationRecord.with_candidates 0
                (AnnotationRecord.init amsterdam_line)
              ∈ records_of
                  (add_annotations
                     (Document.init 0, map load_record [amsterdam_record])
                     [amsterdam_line]).1).
  { replace (records_of
               (add_annotations
                  (Document.init 0, map load_record [amsterdam_record])
                  [amsterdam_line]).1)
      with [AnnotationRecord.with_candidates 0
              (AnnotationRecord.init amsterdam_line)]
      by (vm_compute; reflexivity).
    apply list_elem_of_here. }
  split; [exact H|]. split; [reflexivity|].
  apply (add_annotation_matches [amsterdam_record] 0 [amsterdam_line]);
    [exact H|reflexivity].
Defined.

Lemma three_docs_well_formed :
  Forall well_formed ([amsterdam_doc] ++ [rotterdam_doc] ++ [empty_doc]).
Proof.
  repeat apply Forall_cons_2; try apply Forall_nil_2;
    (split; [vm_compute; reflexivity|]);
    repeat apply Forall_cons_2; try apply Forall_nil_2;
    split; vm_compute; reflexivity.
Qed.

Lemma two_city_zip_readable : readable two_city_zip 0 3.
Proof.
  intros [|[|[|k]]] Hk; try lia; eexists; vm_compute; reflexivity.
Qed.

Lemma load_dataset_three_splits_witness :
  marker_line TRAIN_START_LINE /\ marker_line TESTA_START_LINE
  /\ marker_line TESTB_START_LINE
  /\ Forall well_formed ([amsterdam_doc] ++ [rotterdam_doc] ++ [empty_doc])
  /\ readable two_city_zip 0
       (length ([amsterdam_doc] ++ [rotterdam_doc] ++ [empty_doc]))
  /\ load_dataset two_city_zip
       (corpus_lines TRAIN_START_LINE TESTA_START_LINE TESTB_START_LINE
          [amsterdam_doc] [rotterdam_doc] [empty_doc])
     = Ok [take (length (@nil file_doc))
             (load_documents two_city_zip 0
                ([amsterdam_doc] ++ [rotterdam_doc] ++ [empty_doc]));
           take (length [rotterdam_doc])
             (drop (length (@nil file_doc))
                (load_documents two_city_zip 0
                   ([amsterdam_doc] ++ [rotterdam_doc] ++ [empty_doc])));
           drop (length (@nil file_doc) + length [rotterdam_doc])
             (load_documents two_city_zip 0
                ([amsterdam_doc] ++ [rotterdam_doc] ++ [empty_doc]))].
Proof.
  split; [reflexivity|]. split; [reflexivity|]. split; [reflexivity|].
  split; [exact three_docs_well_formed|].
  split; [exact two_city_zip_readable|].
  apply (load_dataset_three_splits two_city_zip TRAIN_START_LINE
           TESTA_START_LINE TESTB_START_LINE amsterdam_doc [] [rotterdam_doc]
           [empty_doc]);
    [reflexivity|reflexivity|reflexivity|exact three_docs_well_formed
    |exact two_city_zip_readable].
Defined.

Lemma load_dataset_fourth_split_witness :
  marker_line TRAIN_START_LINE /\ marker_line TESTA_START_LINE
  /\ marker_line TESTB_START_LINE /\ marker_line TRAIN_START_LINE
  /\ Forall well_formed ([amsterdam_doc] ++ [rotterdam_doc] ++ [empty_doc])
  /\ readable two_city_zip 0
       (length ([amsterdam_doc] ++ [rotterdam_doc] ++ [empty_doc]))
  /\ load_dataset two_city_zip
       (corpus_lines TRAIN_START_LINE TESTA_START_LINE TESTB_START_LINE
          [amsterdam_doc] [rotterdam_doc] [empty_doc]
        ++ TRAIN_START_LINE :: [])
     = Raise IndexError.
Proof.
  split; [reflexivity|]. split; [reflexivity|]. split; [reflexivity|].
  split; [reflexivity|].
  split; [exact three_docs_well_formed|].
  split; [exact two_city_zip_readable|].
  apply (load_dataset_fourth_split two_city_zip TRAIN_START_LINE
           TESTA_START_LINE TESTB_START_LINE TRAIN_START_LINE amsterdam_doc []
           [rotterdam_doc] [empty_doc] []);
    [reflexivity|reflexivity|reflexivity|reflexivity
    |exact three_docs_well_formed|exact two_city_zip_readable].
Defined.

Lemma load_dataset_unmarked_witness :
  Forall well_formed [amsterdam_doc; rotterdam_doc; empty_doc]
  /\ readable two_city_zip 0 (length [amsterdam_doc; rotterdam_doc; empty_doc])
  /\ load_dataset two_city_zip
       (doc_lines [amsterdam_doc; rotterdam_doc; empty_doc])
     = Ok [[]; [];
           load_documents two_city_zip 0
             [amsterdam_doc; rotterdam_doc; empty_doc]].
Proof.
  split; [exact three_docs_well_formed|].
  split; [exact two_city_zip_readable|].
  apply (load_dataset_unmarked two_city_zip amsterdam_doc
           [rotterdam_doc; empty_doc]);
    [exact three_docs_well_formed|exact two_city_zip_readable].
Defined.

Lemma load_dataset_needs_document_witness :
  Forall marker_line [TRAIN_START_LINE] /\ plain_line amsterdam_line
  /\ load_dataset two_city_zip
       ([TRAIN_START_LINE] ++ amsterdam_line :: ["-DOCSTART- (1)"])
     = Raise AttributeError.
Proof.
  assert (H1 : Forall marker_line [TRAIN_START_LINE]).
  { apply Forall_singleton. reflexivity. }
  assert (H2 : plain_line amsterdam_line).
  { split; vm_compute; reflexivity. }
  split; [exact H1|]. split; [exact H2|].
  apply (load_dataset_needs_document two_city_zip [TRAIN_START_LINE]
           amsterdam_line ["-DOCSTART- (1)"]); [exact H1|exact H2].
Defined.
